(** * ai-distiller-mcp: the Gmail message parser and the relative-date resolver

    A shallow embedding of [server/gmail.py] and [server/utils.py].

    Python values are modelled as follows.
    - [str] is a list of Unicode code points ([N]); [bytes] is a list of
      octets ([N] below 256).  [py "..."] turns a literal into a [str].
    - A raised exception is the [Raise] branch of [result]; [try]/[except]
      is a [match] on it.
    - A [dict] used as a mapping is a [gmap]; the provider's JSON objects,
      whose keys the code reads one by one, are records with one optional
      field per key.
    - The wall clock ([datetime.now()]) and the provider ([service]) are
      inputs of the functions that use them.

    Library functions the code calls ([re.sub], [str.strip], [str.split],
    [base64.urlsafe_b64decode], [bytes.decode], [datetime.strptime],
    [datetime.fromisoformat], [datetime.isoformat], [datetime.strftime],
    [datetime.__sub__]) follow CPython 3.11: [Lib/datetime.py],
    [Lib/_strptime.py] (C locale), [Lib/base64.py], [Modules/binascii.c],
    [Modules/_datetimemodule.c], [Objects/stringlib/codecs.h] and the Unicode
    14.0 tables of that release for whitespace and decimal digits. *)

From Stdlib Require Import ZArith NArith List String Ascii Bool Lia.
From stdpp Require Import gmap.
Import ListNotations.

Local Open Scope Z_scope.

(** ** Python values *)

Abbreviation str := (list N) (only parsing).
Abbreviation bytes := (list N) (only parsing).

Definition py (s : string) : str :=
  map N_of_ascii (list_ascii_of_string s).

Fixpoint str_eqb (a b : str) : bool :=
  match a, b with
  | [], [] => true
  | x :: a', y :: b' => N.eqb x y && str_eqb a' b'
  | _, _ => false
  end.

(** Truth value of a string: [if s:]. *)
Definition truthy (s : str) : bool :=
  match s with [] => false | _ :: _ => true end.

Inductive exn : Type :=
| ValueError
| KeyError
| OverflowError
| binascii_Error
| HttpError
| ValidationError.

Inductive result (A : Type) : Type :=
| Ok (a : A)
| Raise (e : exn).
Arguments Ok {A} a.
Arguments Raise {A} e.

Definition bind {A B : Type} (r : result A) (k : A -> result B) : result B :=
  match r with
  | Ok a => k a
  | Raise e => Raise e
  end.

Notation "'do' x <- r 'in' k" := (bind r (fun x => k))
  (at level 10, x name, r at level 100, k at level 200).

Definition is_ok {A : Type} (r : result A) : bool :=
  match r with Ok _ => true | Raise _ => false end.

(** ** base64.urlsafe_b64decode and bytes.decode('utf-8', errors='ignore') *)

Module Base64.

(** [binascii]'s [table_a2b_base64]: the value of a character of the
    standard alphabet. *)
Definition table_a2b_base64 (c : N) : option N :=
  if ((65 <=? c) && (c <=? 90))%N then Some (c - 65)%N
  else if ((97 <=? c) && (c <=? 122))%N then Some (c - 71)%N
  else if ((48 <=? c) && (c <=? 57))%N then Some (c + 4)%N
  else if (c =? 43)%N then Some 62%N
  else if (c =? 47)%N then Some 63%N
  else None.

Definition BASE64_PAD : N := 61.

(** [_urlsafe_decode_translation]: '-' becomes '+', '_' becomes '/'. *)
Definition urlsafe_translate (c : N) : N :=
  if (c =? 45)%N then 43%N else if (c =? 95)%N then 47%N else c.

Definition emit (b : N) (r : result bytes) : result bytes :=
  do bs <- r in Ok (b :: bs).

(** The loop of [binascii.a2b_base64] with [strict_mode] off.  [quad_pos]
    counts the characters of the current group of four, [leftchar] holds the
    bits not yet written, [pads] the padding characters seen in a row. *)
Fixpoint a2b_loop (data : list N) (quad_pos : nat) (leftchar : N) (pads : nat)
  : result bytes :=
  match data with
  | [] =>
      match quad_pos with
      | O => Ok []
      | _ => Raise binascii_Error
      end
  | this_ch :: rest =>
      if (this_ch =? BASE64_PAD)%N then
        if (2 <=? quad_pos)%nat then
          if (4 <=? quad_pos + S pads)%nat then Ok []
          else a2b_loop rest quad_pos leftchar (S pads)
        else a2b_loop rest quad_pos leftchar pads
      else
        match table_a2b_base64 this_ch with
        | None => a2b_loop rest quad_pos leftchar pads
        | Some v =>
            match quad_pos with
            | 0%nat => a2b_loop rest 1%nat v 0%nat
            | 1%nat =>
                emit (N.lor (N.shiftl leftchar 2) (N.shiftr v 4) mod 256)%N
                     (a2b_loop rest 2%nat (N.land v 15) 0%nat)
            | 2%nat =>
                emit (N.lor (N.shiftl leftchar 4) (N.shiftr v 2) mod 256)%N
                     (a2b_loop rest 3%nat (N.land v 3) 0%nat)
            | _ =>
                emit (N.lor (N.shiftl leftchar 6) v mod 256)%N
                     (a2b_loop rest 0%nat 0%N 0%nat)
            end
        end
  end.

Definition a2b_base64 (data : list N) : result bytes := a2b_loop data 0%nat 0%N 0%nat.

(** [_bytes_from_decode_data]: a [str] argument is encoded as ASCII. *)
Definition _bytes_from_decode_data (s : str) : result bytes :=
  if forallb (fun c => (c <? 128)%N) s then Ok s else Raise ValueError.

Definition urlsafe_b64decode (s : str) : result bytes :=
  do b <- _bytes_from_decode_data s in
  a2b_base64 (map urlsafe_translate b).

End Base64.

Module Utf8.

Definition IS_CONTINUATION_BYTE (b : N) : bool := ((128 <=? b) && (b <=? 191))%N.

(** [bytes.decode('utf-8', errors='ignore')]: the decoder of
    [stringlib/codecs.h]; on an error the offending bytes (the lead byte and
    the continuation bytes already accepted, or the whole truncated tail)
    are skipped and nothing is written for them. *)
Fixpoint decode_ignore (s : bytes) : str :=
  match s with
  | [] => []
  | ch :: r1 =>
      if (ch <? 128)%N then ch :: decode_ignore r1
      else if (ch <? 194)%N then decode_ignore r1
      else if (ch <? 224)%N then
        match r1 with
        | [] => []
        | ch2 :: r2 =>
            if negb (IS_CONTINUATION_BYTE ch2) then decode_ignore r1
            else (N.lor (N.shiftl (N.land ch 31) 6) (N.land ch2 63)) :: decode_ignore r2
        end
      else if (ch <? 240)%N then
        match r1 with
        | [] => []
        | ch2 :: r2 =>
            if negb (IS_CONTINUATION_BYTE ch2)
               || ((ch =? 224) && (ch2 <? 160))%N
               || ((ch =? 237) && (160 <=? ch2))%N
            then decode_ignore r1
            else
              match r2 with
              | [] => []
              | ch3 :: r3 =>
                  if negb (IS_CONTINUATION_BYTE ch3) then decode_ignore r2
                  else (N.lor (N.shiftl (N.land ch 15) 12)
                          (N.lor (N.shiftl (N.land ch2 63) 6) (N.land ch3 63)))
                         :: decode_ignore r3
              end
        end
      else if (ch <? 245)%N then
        match r1 with
        | [] => []
        | ch2 :: r2 =>
            if negb (IS_CONTINUATION_BYTE ch2)
               || ((ch =? 240) && (ch2 <? 144))%N
               || ((ch =? 244) && (144 <=? ch2))%N
            then decode_ignore r1
            else
              match r2 with
              | [] => []
              | ch3 :: r3 =>
                  if negb (IS_CONTINUATION_BYTE ch3) then decode_ignore r2
                  else
                    match r3 with
                    | [] => []
                    | ch4 :: r4 =>
                        if negb (IS_CONTINUATION_BYTE ch4) then decode_ignore r3
                        else (N.lor (N.shiftl (N.land ch 7) 18)
                                (N.lor (N.shiftl (N.land ch2 63) 12)
                                   (N.lor (N.shiftl (N.land ch3 63) 6) (N.land ch4 63))))
                               :: decode_ignore r4
                    end
              end
        end
      else decode_ignore r1
  end.

End Utf8.

(** ** str methods and character classes *)

Definition chr (a : ascii) : N := N_of_ascii a.

(** [str.isspace] for one character, which is also the class [\s] of [re]. *)
Definition is_space (c : N) : bool :=
  (((9 <=? c) && (c <=? 13)) || ((28 <=? c) && (c <=? 32))
   || (c =? 133) || (c =? 160) || (c =? 5760)
   || ((8192 <=? c) && (c <=? 8202))
   || (c =? 8232) || (c =? 8233) || (c =? 8239) || (c =? 8287) || (c =? 12288))%N.

(** The code point of digit zero in every block of decimal digits. *)
Definition unicode_decimal_zeros : list N :=
  [48; 1632; 1776; 1984; 2406; 2534; 2662; 2790; 2918; 3046; 3174; 3302; 3430;
   3558; 3664; 3792; 3872; 4160; 4240; 6112; 6160; 6470; 6608; 6784; 6800;
   6992; 7088; 7232; 7248; 42528; 43216; 43264; 43472; 43504; 43600; 44016;
   65296; 66720; 68912; 69734; 69872; 69942; 70096; 70384; 70736; 70864;
   71248; 71360; 71472; 71904; 72016; 72784; 73040; 73120; 92768; 92864;
   93008; 120782; 120792; 120802; 120812; 120822; 123200; 123632; 125264;
   130032]%N.

Fixpoint decimal_in (zeros : list N) (c : N) : option Z :=
  match zeros with
  | [] => None
  | z :: zs =>
      if ((z <=? c) && (c <? z + 10))%N then Some (Z.of_N (c - z))
      else decimal_in zs c
  end.

(** [Py_UNICODE_TODECIMAL]: the value of a decimal digit. *)
Definition decimal_value (c : N) : option Z := decimal_in unicode_decimal_zeros c.

(** The class [\d] of [re] on a [str] pattern. *)
Definition is_digit (c : N) : bool :=
  match decimal_value c with Some _ => true | None => false end.

Definition is_ascii_digit (c : N) : bool := ((48 <=? c) && (c <=? 57))%N.

Fixpoint lstrip (s : str) : str :=
  match s with
  | [] => []
  | c :: s' => if is_space c then lstrip s' else s
  end.

(** [s.strip()] *)
Definition strip (s : str) : str := rev (lstrip (rev (lstrip s))).

Fixpoint starts_with (pre s : str) : bool :=
  match pre, s with
  | [], _ => true
  | _ :: _, [] => false
  | x :: pre', y :: s' => N.eqb x y && starts_with pre' s'
  end.

(** [sub in s] *)
Fixpoint contains (sub s : str) : bool :=
  starts_with sub s ||
  match s with
  | [] => false
  | _ :: s' => contains sub s'
  end.

(** [s.split(sep)[0]] for a non-empty [sep]: what comes before the first
    occurrence of [sep], the whole of [s] when there is none. *)
Fixpoint split_head (sep s : str) : str :=
  match s with
  | [] => []
  | c :: s' => if starts_with sep s then [] else c :: split_head sep s'
  end.

(** [s.replace(old, new)] for a one-character [old]. *)
Definition replace_char (old : N) (new : str) (s : str) : str :=
  flat_map (fun c => if N.eqb c old then new else [c]) s.

(** [s[i:j]] for [0 <= i <= j]. *)
Definition slice (s : str) (i j : nat) : str := firstn (j - i)%nat (skipn i s).

(** [s[i:]] *)
Definition slice_from (s : str) (i : nat) : str := skipn i s.

Fixpoint digits_value (acc : Z) (s : str) : option Z :=
  match s with
  | [] => Some acc
  | c :: s' =>
      match decimal_value c with
      | Some d => digits_value (10 * acc + d) s'
      | None => None
      end
  end.

(** [int(s)] for a string of decimal digits with optional surrounding
    whitespace (signs and underscores are not modelled: no caller passes
    them); [None] stands for [ValueError]. *)
Definition int_ (s : str) : option Z :=
  match strip s with
  | [] => None
  | t => digits_value 0 t
  end.

Definition digit_char (d : Z) : N := (48 + Z.to_N d)%N.

Fixpoint digits_of (fuel : nat) (n : Z) (acc : str) : str :=
  match fuel with
  | O => acc
  | S f =>
      let acc' := digit_char (n mod 10) :: acc in
      if n <? 10 then acc' else digits_of f (n / 10) acc'
  end.

(** [str(n)] for [n >= 0]; a number has no more decimal digits than binary
    ones. *)
Definition decimal (n : Z) : str := digits_of (S (Z.to_nat (Z.log2 n))) n [].

(** ["%0<w>d" % n] for [n >= 0]: the last [w] digits when [n] has no more
    than [w], all its digits otherwise. *)
Definition zero_pad (w : nat) (n : Z) : str :=
  if n <? 10 ^ Z.of_nat w
  then map (fun i => digit_char ((n / 10 ^ Z.of_nat i) mod 10)) (rev (seq 0 w))
  else decimal n.

(** ** The backtracking matcher of [re] *)

Module Re.

Inductive regex : Type :=
| Eps
| Chr (p : N -> bool)
| Cat (r1 r2 : regex)
| Alt (r1 r2 : regex)
| Opt (r : regex)
| Rep (lo : nat) (hi : option nat) (p : N -> bool)
| Grp (name : N) (r : regex).

Definition groups := list (N * str).

Definition may_take (hi : option nat) : bool :=
  match hi with Some O => false | _ => true end.

Definition one_less (hi : option nat) : option nat :=
  match hi with Some n => Some (Nat.pred n) | None => None end.

Section Matcher.
Context {R : Type}.

(** A greedy repetition [p{lo,hi}] of a one-character class: take as many
    characters as allowed, then give them back one by one until the
    continuation [k] succeeds. *)
Fixpoint rep (p : N -> bool) (lo : nat) (hi : option nat) (s : str)
         (k : str -> option R) : option R :=
  let stop := match lo with O => k s | S _ => None end in
  match s with
  | [] => stop
  | c :: s' =>
      if p c && may_take hi then
        match rep p (Nat.pred lo) (one_less hi) s' k with
        | Some x => Some x
        | None => stop
        end
      else stop
  end.

(** [m r s g k]: match [r] at the start of [s], then run [k] on what is
    left; alternatives are tried in order, the first success wins. *)
Fixpoint m (r : regex) (s : str) (g : groups)
         (k : str -> groups -> option R) : option R :=
  match r with
  | Eps => k s g
  | Chr p =>
      match s with
      | c :: s' => if p c then k s' g else None
      | [] => None
      end
  | Cat r1 r2 => m r1 s g (fun s' g' => m r2 s' g' k)
  | Alt r1 r2 =>
      match m r1 s g k with
      | Some x => Some x
      | None => m r2 s g k
      end
  | Opt r1 =>
      match m r1 s g k with
      | Some x => Some x
      | None => k s g
      end
  | Rep lo hi p => rep p lo hi s (fun s' => k s' g)
  | Grp name r1 =>
      m r1 s g (fun s' g' =>
                  k s' ((name, firstn (length s - length s')%nat s) :: g'))
  end.
End Matcher.

(** [re.match(r, s)]: the unmatched rest and the groups. *)
Definition match_ (r : regex) (s : str) : option (str * groups) :=
  m r s [] (fun s' g => Some (s', g)).

(** Length of the match of [r] at the start of [s]. *)
Definition match_len (r : regex) (s : str) : option nat :=
  match match_ r s with
  | Some (s', _) => Some (length s - length s')%nat
  | None => None
  end.

(** [re.sub(r, repl, s)] for a pattern that matches no empty string: scan
    from the left, replace each match and resume after it.  [skip] counts
    the characters of the current match still to be passed over. *)
Fixpoint sub_from (r : regex) (repl : str) (s : str) (skip : nat) : str :=
  match s with
  | [] => []
  | c :: s' =>
      match skip with
      | S n => sub_from r repl s' n
      | O =>
          match match_len r s with
          | Some (S n) => repl ++ sub_from r repl s' n
          | _ => c :: sub_from r repl s' O
          end
      end
  end.

Definition sub (r : regex) (repl : str) (s : str) : str := sub_from r repl s O.

Fixpoint group (name : N) (g : groups) : option str :=
  match g with
  | [] => None
  | (n, v) :: g' => if N.eqb n name then Some v else group name g'
  end.

(** Building blocks. *)
Definition lit (c : N) : regex := Chr (N.eqb c).
Definition range (a b : ascii) : N -> bool :=
  fun c => ((chr a <=? c) && (c <=? chr b))%N.
Definition plus (p : N -> bool) : regex := Rep 1 None p.
Definition star (p : N -> bool) : regex := Rep 0 None p.

Fixpoint seq (rs : list regex) : regex :=
  match rs with
  | [] => Eps
  | [r] => r
  | r :: rs' => Cat r (seq rs')
  end.

Fixpoint alts (rs : list regex) : regex :=
  match rs with
  | [] => Chr (fun _ => false)
  | [r] => r
  | r :: rs' => Alt r (alts rs')
  end.

End Re.

(** ** datetime *)

Module Datetime.

Definition MINYEAR : Z := 1.
Definition MAXYEAR : Z := 9999.
Definition _MAXORDINAL : Z := 3652059.

Definition _DAYS_IN_MONTH (month : Z) : Z :=
  nth (Z.to_nat month) [-1; 31; 28; 31; 30; 31; 30; 31; 31; 30; 31; 30; 31] (-1).

Definition _DAYS_BEFORE_MONTH (month : Z) : Z :=
  nth (Z.to_nat month) [-1; 0; 31; 59; 90; 120; 151; 181; 212; 243; 273; 304; 334] (-1).

Definition _is_leap (year : Z) : bool :=
  (year mod 4 =? 0) && (negb (year mod 100 =? 0) || (year mod 400 =? 0)).

Definition _days_before_year (year : Z) : Z :=
  let y := year - 1 in
  y * 365 + y / 4 - y / 100 + y / 400.

Definition _days_in_month (year month : Z) : Z :=
  if (month =? 2) && _is_leap year then 29 else _DAYS_IN_MONTH month.

Definition _days_before_month (year month : Z) : Z :=
  _DAYS_BEFORE_MONTH month + (if (2 <? month) && _is_leap year then 1 else 0).

Definition _ymd2ord (year month day : Z) : Z :=
  _days_before_year year + _days_before_month year month + day.

Definition _DI400Y : Z := _days_before_year 401.
Definition _DI100Y : Z := _days_before_year 101.
Definition _DI4Y : Z := _days_before_year 5.

Definition _ord2ymd (n0 : Z) : Z * Z * Z :=
  let n := n0 - 1 in
  let n400 := n / _DI400Y in
  let n := n mod _DI400Y in
  let year := n400 * 400 + 1 in
  let n100 := n / _DI100Y in
  let n := n mod _DI100Y in
  let n4 := n / _DI4Y in
  let n := n mod _DI4Y in
  let n1 := n / 365 in
  let n := n mod 365 in
  let year := year + n100 * 100 + n4 * 4 + n1 in
  if (n1 =? 4) || (n100 =? 4) then (year - 1, 12, 31)
  else
    let leapyear := (n1 =? 3) && (negb (n4 =? 24) || (n100 =? 3)) in
    let month := Z.shiftr (n + 50) 5 in
    let preceding :=
      _DAYS_BEFORE_MONTH month + (if (2 <? month) && leapyear then 1 else 0) in
    if n <? preceding then
      let month := month - 1 in
      let preceding :=
        preceding - (_DAYS_IN_MONTH month
                     + (if (month =? 2) && leapyear then 1 else 0)) in
      (year, month, n - preceding + 1)
    else (year, month, n - preceding + 1).

(** A [timedelta] is kept as its total number of microseconds; a fixed
    [timezone] as its offset.  A naive datetime has [tzinfo = None]. *)
Definition timedelta := Z.

Definition td (days seconds microseconds : Z) : timedelta :=
  (days * 86400 + seconds) * 1000000 + microseconds.
Definition td_days (d : timedelta) : Z := d / 86400000000.
Definition td_seconds (d : timedelta) : Z := (d mod 86400000000) / 1000000.
Definition td_microseconds (d : timedelta) : Z := d mod 1000000.

Record datetime : Type := mk_datetime {
  year : Z;
  month : Z;
  day : Z;
  hour : Z;
  minute : Z;
  second : Z;
  microsecond : Z;
  tzinfo : option timedelta
}.

Definition _check_date_fields (y mo d : Z) : bool :=
  (MINYEAR <=? y) && (y <=? MAXYEAR) && (1 <=? mo) && (mo <=? 12)
  && (1 <=? d) && (d <=? _days_in_month y mo).

Definition _check_time_fields (h mi s us : Z) : bool :=
  (0 <=? h) && (h <=? 23) && (0 <=? mi) && (mi <=? 59)
  && (0 <=? s) && (s <=? 59) && (0 <=? us) && (us <=? 999999).

(** [datetime(year, month, day, hour, minute, second, microsecond, tzinfo)] *)
Definition new_datetime (y mo d h mi s us : Z) (tz : option timedelta)
  : result datetime :=
  if _check_date_fields y mo d && _check_time_fields h mi s us
  then Ok (mk_datetime y mo d h mi s us tz)
  else Raise ValueError.

(** [timezone(offset)]: the offset lies strictly between -24h and 24h. *)
Definition timezone (offset : timedelta) : result timedelta :=
  if (- 86400000000 <? offset) && (offset <? 86400000000) then Ok offset
  else Raise ValueError.

Definition toordinal (d : datetime) : Z := _ymd2ord (year d) (month d) (day d).

(** [datetime.__add__] *)
Definition add (self : datetime) (other : timedelta) : result datetime :=
  let delta :=
    td (toordinal self) (hour self * 3600 + minute self * 60 + second self)
       (microsecond self) + other in
  let h := td_seconds delta / 3600 in
  let rem := td_seconds delta mod 3600 in
  let mi := rem / 60 in
  let s := rem mod 60 in
  if (0 <? td_days delta) && (td_days delta <=? _MAXORDINAL) then
    let '(y, mo, d) := _ord2ymd (td_days delta) in
    Ok (mk_datetime y mo d h mi s (td_microseconds delta) (tzinfo self))
  else Raise OverflowError.

(** [datetime.__sub__] with a [timedelta]: [self + -other]. *)
Definition sub (self : datetime) (other : timedelta) : result datetime :=
  add self (- other).

Definition _format_time (hh mm ss us : Z) : str :=
  zero_pad 2 hh ++ py ":" ++ zero_pad 2 mm ++ py ":" ++ zero_pad 2 ss
  ++ (if us =? 0 then [] else py "." ++ zero_pad 6 us).

Definition _format_offset (off : option timedelta) : str :=
  match off with
  | None => []
  | Some o =>
      let sign := if td_days o <? 0 then py "-" else py "+" in
      let o := if td_days o <? 0 then - o else o in
      let hh := o / 3600000000 in
      let mm := o mod 3600000000 in
      let ss := mm mod 60000000 in
      let mm := mm / 60000000 in
      sign ++ zero_pad 2 hh ++ py ":" ++ zero_pad 2 mm
      ++ (if ss =? 0 then []
          else py ":" ++ zero_pad 2 (td_seconds ss)
               ++ (if td_microseconds ss =? 0 then []
                   else py "." ++ zero_pad 6 (td_microseconds ss)))
  end.

(** [datetime.isoformat()] *)
Definition isoformat (d : datetime) : str :=
  zero_pad 4 (year d) ++ py "-" ++ zero_pad 2 (month d) ++ py "-"
  ++ zero_pad 2 (day d) ++ py "T"
  ++ _format_time (hour d) (minute d) (second d) (microsecond d)
  ++ _format_offset (tzinfo d).

(** [d.strftime('%Y-%m-%d %H:%M:%S')] with the C library of GNU/Linux, which
    writes a year below 1000 without padding; other platforms pad it.  The
    properties below that rest on this text take a year of four digits,
    for which all platforms write the same. *)
Definition strftime_readable (d : datetime) : str :=
  decimal (year d) ++ py "-" ++ zero_pad 2 (month d) ++ py "-"
  ++ zero_pad 2 (day d) ++ py " " ++ zero_pad 2 (hour d) ++ py ":"
  ++ zero_pad 2 (minute d) ++ py ":" ++ zero_pad 2 (second d).

(** [d.strftime('%Y/%m/%d')] *)
Definition strftime_gmail (d : datetime) : str :=
  decimal (year d) ++ py "/" ++ zero_pad 2 (month d) ++ py "/"
  ++ zero_pad 2 (day d).

End Datetime.

(** ** datetime.fromisoformat

    The parser of [_datetimemodule.c].  It reads the UTF-8 encoding of the
    string, a NUL-terminated buffer: [byte_at buf p] is [buf[p]], and the
    terminator is what is read at the end. *)

Module Isoformat.
Import Datetime.

Definition byte_at (buf : bytes) (p : nat) : N := nth p buf 0%N.

Definition Py_UNICODE_IS_SURROGATE (c : N) : bool :=
  ((55296 <=? c) && (c <=? 57343))%N.

(** [PyUnicode_AsUTF8AndSize] for one code point. *)
Definition utf8_encode_char (c : N) : bytes :=
  if (c <? 128)%N then [c]
  else if (c <? 2048)%N then
    [N.lor 192 (N.shiftr c 6); N.lor 128 (N.land c 63)]
  else if (c <? 65536)%N then
    [N.lor 224 (N.shiftr c 12); N.lor 128 (N.land (N.shiftr c 6) 63);
     N.lor 128 (N.land c 63)]
  else
    [N.lor 240 (N.shiftr c 18); N.lor 128 (N.land (N.shiftr c 12) 63);
     N.lor 128 (N.land (N.shiftr c 6) 63); N.lor 128 (N.land c 63)].

Definition utf8_encode (s : str) : option bytes :=
  if existsb Py_UNICODE_IS_SURROGATE s then None
  else Some (flat_map utf8_encode_char s).

Fixpoint set_nth (s : str) (pos : nat) (c : N) : str :=
  match s, pos with
  | [], _ => []
  | _ :: s', O => c :: s'
  | x :: s', S n => x :: set_nth s' n c
  end.

Definition surrogate_at (s : str) (pos : nat) : bool :=
  match nth_error s pos with
  | Some c => Py_UNICODE_IS_SURROGATE c
  | None => false
  end.

(** [_sanitize_isoformat_str]: a surrogate at a place where the separator
    may stand is replaced by 'T'. *)
Definition _sanitize_isoformat_str (s : str) : str :=
  if surrogate_at s 7 then set_nth s 7 (chr "T")
  else if surrogate_at s 8 then set_nth s 8 (chr "T")
  else if surrogate_at s 10 then set_nth s 10 (chr "T")
  else s.

Fixpoint parse_digits (buf : bytes) (p : nat) (acc : Z) (num_digits : nat)
  : option (nat * Z) :=
  match num_digits with
  | O => Some (p, acc)
  | S n =>
      let c := byte_at buf p in
      if is_ascii_digit c
      then parse_digits buf (S p) (acc * 10 + Z.of_N (c - 48)) n
      else None
  end.

Definition weekday (y mo d : Z) : Z := (_ymd2ord y mo d + 6) mod 7.

Definition iso_week1_monday (y : Z) : Z :=
  let first_day := _ymd2ord y 1 1 in
  let first_weekday := (first_day + 6) mod 7 in
  let week1_monday := first_day - first_weekday in
  if 3 <? first_weekday then week1_monday + 7 else week1_monday.

Definition iso_to_ymd (iso_year iso_week iso_day : Z) : option (Z * Z * Z) :=
  if (iso_year <? MINYEAR) || (MAXYEAR <? iso_year) then None
  else if ((iso_week <=? 0) || (53 <=? iso_week))
          && negb ((iso_week =? 53)
                   && (let first_weekday := weekday iso_year 1 1 in
                       (first_weekday =? 3)
                       || ((first_weekday =? 2) && _is_leap iso_year)))
  then None
  else if (iso_day <=? 0) || (8 <=? iso_day) then None
  else
    let day_1 := iso_week1_monday iso_year in
    let day_offset := (iso_week - 1) * 7 + iso_day - 1 in
    Some (_ord2ymd (day_1 + day_offset)).

(** [parse_isoformat_date(dtstr, len)]; the date starts the buffer. *)
Definition parse_isoformat_date (buf : bytes) (len : nat) : option (Z * Z * Z) :=
  match parse_digits buf 0 0 4 with
  | None => None
  | Some (p, y) =>
      let uses_separator := N.eqb (byte_at buf p) (chr "-") in
      let p := if uses_separator then S p else p in
      if N.eqb (byte_at buf p) (chr "W") then
        match parse_digits buf (S p) 0 2 with
        | None => None
        | Some (p, iso_week) =>
            if (p <? len)%nat then
              if uses_separator && negb (N.eqb (byte_at buf p) (chr "-"))
              then None
              else
                let p := if uses_separator then S p else p in
                match parse_digits buf p 0 1 with
                | None => None
                | Some (_, iso_day) => iso_to_ymd y iso_week iso_day
                end
            else iso_to_ymd y iso_week 1
        end
      else
        match parse_digits buf p 0 2 with
        | None => None
        | Some (p, mo) =>
            if uses_separator && negb (N.eqb (byte_at buf p) (chr "-"))
            then None
            else
              let p := if uses_separator then S p else p in
              match parse_digits buf p 0 2 with
              | None => None
              | Some (_, d) => Some (y, mo, d)
              end
        end
  end.

Fixpoint skip_digits (fuel : nat) (buf : bytes) (p : nat) : nat :=
  match fuel with
  | O => p
  | S f => if is_ascii_digit (byte_at buf p) then skip_digits f buf (S p) else p
  end.

(** The fractional part, read from [p] up to [p_end]; the boolean tells
    whether the buffer goes on after what was read. *)
Definition parse_fraction (buf : bytes) (p p_end : nat) (h mi s : Z)
  : option (bool * (Z * Z * Z * Z)) :=
  let len_remains := (p_end - p)%nat in
  let to_parse := if (6 <=? len_remains)%nat then 6%nat else len_remains in
  match parse_digits buf p 0 to_parse with
  | None => None
  | Some (p, us) =>
      let us :=
        if (to_parse <? 6)%nat
        then us * nth (to_parse - 1) [100000; 10000; 1000; 100; 10] 0
        else us in
      let p := skip_digits (length buf) buf p in
      Some (negb (N.eqb (byte_at buf p) 0), (h, mi, s, us))
  end.

(** The loop of [parse_hh_mm_ss_ff] over hour, minute and second: [i] is
    the index of the field, [n] the number of fields left. *)
Fixpoint hms_loop (n : nat) (i : nat) (buf : bytes) (p p_end : nat)
         (has_separator : bool) (vals : list Z)
  : option (bool * (Z * Z * Z * Z)) :=
  let h := nth 0 vals 0 in
  let mi := nth 1 vals 0 in
  let s := nth 2 vals 0 in
  match n with
  | O => parse_fraction buf p p_end h mi s
  | S n' =>
      match parse_digits buf p 0 2 with
      | None => None
      | Some (p, v) =>
          let vals := vals ++ [v] in
          let h := nth 0 vals 0 in
          let mi := nth 1 vals 0 in
          let s := nth 2 vals 0 in
          let c := byte_at buf p in
          let p := S p in
          let has_separator :=
            match i with O => N.eqb c (chr ":") | _ => has_separator end in
          if (p_end <=? p)%nat then Some (negb (N.eqb c 0), (h, mi, s, 0))
          else if has_separator && N.eqb c (chr ":")
          then hms_loop n' (S i) buf p p_end has_separator vals
          else if N.eqb c (chr ".") || N.eqb c (chr ",")
          then parse_fraction buf p p_end h mi s
          else if negb has_separator
          then hms_loop n' (S i) buf (Nat.pred p) p_end has_separator vals
          else None
      end
  end.

Definition parse_hh_mm_ss_ff (buf : bytes) (tstr tstr_end : nat)
  : option (bool * (Z * Z * Z * Z)) :=
  hms_loop 3 0 buf tstr tstr_end true [].

Definition is_tz_start (c : N) : bool :=
  N.eqb c (chr "Z") || N.eqb c (chr "+") || N.eqb c (chr "-").

(** [do { if (...) break; } while (++tzinfo_pos < p_end);] *)
Fixpoint find_tzinfo (fuel : nat) (buf : bytes) (tzinfo_pos : nat) : nat :=
  if is_tz_start (byte_at buf tzinfo_pos) then tzinfo_pos
  else
    match fuel with
    | O => S tzinfo_pos
    | S f => find_tzinfo f buf (S tzinfo_pos)
    end.

(** [parse_isoformat_time(dtstr, dtlen)]: the time fields and, when a zone
    is given, its offset in seconds and microseconds. *)
Definition parse_isoformat_time (buf : bytes) (p dtlen : nat)
  : option ((Z * Z * Z * Z) * option (Z * Z)) :=
  let p_end := (p + dtlen)%nat in
  let tzinfo_pos := find_tzinfo (dtlen - 1) buf p in
  match parse_hh_mm_ss_ff buf p tzinfo_pos with
  | None => None
  | Some (more, t) =>
      if (tzinfo_pos =? p_end)%nat then
        if more then None else Some (t, None)
      else if N.eqb (byte_at buf tzinfo_pos) (chr "Z") then
        if negb (N.eqb (byte_at buf (S tzinfo_pos)) 0) then None
        else Some (t, Some (0, 0))
      else
        let tzsign := if N.eqb (byte_at buf tzinfo_pos) (chr "-") then -1 else 1 in
        match parse_hh_mm_ss_ff buf (S tzinfo_pos) p_end with
        | None => None
        | Some (more, (tzh, tzm, tzs, tzus)) =>
            if more then None
            else Some (t, Some (tzsign * (tzh * 3600 + tzm * 60 + tzs),
                                tzsign * tzus))
        end
  end.

Fixpoint week_digits_end (fuel : nat) (buf : bytes) (len idx : nat) : nat :=
  match fuel with
  | O => idx
  | S f =>
      if (idx <? len)%nat && is_ascii_digit (byte_at buf idx)
      then week_digits_end f buf len (S idx)
      else idx
  end.

Definition _find_isoformat_datetime_separator (buf : bytes) (len : nat)
  : option nat :=
  if (len =? 7)%nat then Some 7%nat
  else if N.eqb (byte_at buf 4) (chr "-") then
    if N.eqb (byte_at buf 5) (chr "W") then
      if (len <? 8)%nat then None
      else if (8 <? len)%nat && N.eqb (byte_at buf 8) (chr "-") then
        if (len =? 9)%nat then None
        else if (10 <? len)%nat && is_ascii_digit (byte_at buf 10)
        then Some 8%nat
        else Some 10%nat
      else Some 8%nat
    else Some 10%nat
  else if N.eqb (byte_at buf 4) (chr "W") then
    let idx := week_digits_end len buf len 7 in
    if (idx <? 9)%nat then Some idx
    else if Nat.even idx then Some 7%nat
    else Some 8%nat
  else Some 8%nat.

(** Width in bytes of the character that starts at [p]. *)
Definition char_width (buf : bytes) (p : nat) : nat :=
  let b := byte_at buf p in
  if N.eqb (N.land b 128) 0 then 1%nat
  else if N.eqb (N.land b 240) 224 then 3%nat
  else if N.eqb (N.land b 240) 240 then 4%nat
  else 2%nat.

(** [tzinfo_from_isoformat_results] *)
Definition tzinfo_from_isoformat_results (tz : option (Z * Z))
  : result (option timedelta) :=
  match tz with
  | None => Ok None
  | Some (tzoffset, tz_useconds) =>
      if tzoffset =? 0 then Ok (Some 0)
      else
        do o <- timezone (td 0 tzoffset tz_useconds) in
        Ok (Some o)
  end.

Definition fromisoformat (dtstr : str) : result datetime :=
  if (length dtstr <? 7)%nat then Raise ValueError
  else
    match utf8_encode (_sanitize_isoformat_str dtstr) with
    | None => Raise ValueError
    | Some buf =>
        let len := length buf in
        match _find_isoformat_datetime_separator buf len with
        | None => Raise ValueError
        | Some separator_location =>
            match parse_isoformat_date buf separator_location with
            | None => Raise ValueError
            | Some (y, mo, d) =>
                if (separator_location <? len)%nat then
                  let p := (separator_location
                            + char_width buf separator_location)%nat in
                  match parse_isoformat_time buf p (len - p) with
                  | None => Raise ValueError
                  | Some ((h, mi, s, us), tz) =>
                      do tzi <- tzinfo_from_isoformat_results tz in
                      new_datetime y mo d h mi s us tzi
                  end
                else new_datetime y mo d 0 0 0 0 None
            end
        end
    end.

End Isoformat.

(** ** datetime.strptime

    [Lib/_strptime.py] for the directives the code uses (%Y %m %d %H %M %S
    %a %b %z), in the C locale.  The compiled pattern ignores case; on the
    names of days and months this is ASCII case here: the few other letters
    that [re] folds onto ASCII ones are rejected by the table lookup that
    follows the match, so the outcome is a [ValueError] either way. *)

Module Strptime.
Import Re Datetime.

Definition lower (c : N) : N :=
  if ((65 <=? c) && (c <=? 90))%N then (c + 32)%N else c.

Definition ichr (c : N) : regex := Chr (fun x => N.eqb (lower x) (lower c)).
Definition iword (w : string) : regex := seq (map ichr (py w)).
Definition dig : regex := Chr is_digit.
Definition cls (a b : ascii) : regex := Chr (range a b).
Definition ch (a : ascii) : regex := lit (chr a).

Definition a_weekday : list string :=
  ["mon"; "tue"; "wed"; "thu"; "fri"; "sat"; "sun"]%string.
Definition a_month : list string :=
  [""; "jan"; "feb"; "mar"; "apr"; "may"; "jun"; "jul"; "aug"; "sep"; "oct";
   "nov"; "dec"]%string.

(** [TimeRE.__seqToRE]: the names, longest first, as alternatives. *)
Definition __seqToRE (to_convert : list string) (directive : ascii) : regex :=
  Grp (chr directive) (alts (map iword to_convert)).

(** The entries of [TimeRE]. *)
Definition re_d : regex :=
  Grp (chr "d")
      (alts [Cat (ch "3") (cls "0" "1"); Cat (cls "1" "2") dig;
             Cat (ch "0") (cls "1" "9"); cls "1" "9";
             Cat (ch " ") (cls "1" "9")]).
Definition re_H : regex :=
  Grp (chr "H") (alts [Cat (ch "2") (cls "0" "3"); Cat (cls "0" "1") dig; dig]).
Definition re_m : regex :=
  Grp (chr "m")
      (alts [Cat (ch "1") (cls "0" "2"); Cat (ch "0") (cls "1" "9"); cls "1" "9"]).
Definition re_M : regex := Grp (chr "M") (alts [Cat (cls "0" "5") dig; dig]).
Definition re_S : regex :=
  Grp (chr "S") (alts [Cat (ch "6") (cls "0" "1"); Cat (cls "0" "5") dig; dig]).
Definition re_Y : regex := Grp (chr "Y") (seq [dig; dig; dig; dig]).
Definition re_z : regex :=
  Grp (chr "z")
      (Alt (seq [Chr (fun c => N.eqb c (chr "+") || N.eqb c (chr "-"));
                 dig; dig; Opt (ch ":"); cls "0" "5"; dig;
                 Opt (seq [Opt (ch ":"); cls "0" "5"; dig;
                           Opt (Cat (ch ".") (Rep 1 (Some 6%nat) is_digit))])])
           (ch "Z")).

Definition TimeRE (directive : N) : option regex :=
  if N.eqb directive (chr "d") then Some re_d
  else if N.eqb directive (chr "H") then Some re_H
  else if N.eqb directive (chr "m") then Some re_m
  else if N.eqb directive (chr "M") then Some re_M
  else if N.eqb directive (chr "S") then Some re_S
  else if N.eqb directive (chr "Y") then Some re_Y
  else if N.eqb directive (chr "z") then Some re_z
  else if N.eqb directive (chr "a") then Some (__seqToRE a_weekday "a")
  else if N.eqb directive (chr "b") then Some (__seqToRE (tl a_month) "b")
  else None.

(** [TimeRE.pattern]: a run of whitespace in the format stands for [\s+],
    [%x] for the entry of [x], any other character for itself. *)
Fixpoint pattern_from (format : str) (in_space : bool) : option regex :=
  match format with
  | [] => Some Eps
  | c :: rest =>
      if is_space c then
        if in_space then pattern_from rest true
        else option_map (Cat (plus is_space)) (pattern_from rest true)
      else if N.eqb c (chr "%") then
        match rest with
        | [] => None
        | dir :: rest' =>
            match TimeRE dir with
            | None => None
            | Some r => option_map (Cat r) (pattern_from rest' false)
            end
        end
      else option_map (Cat (ichr c)) (pattern_from rest false)
  end.

Definition pattern (format : str) : option regex := pattern_from format false.

(** [int(s)], raising [ValueError]. *)
Definition int_r (s : str) : result Z :=
  match int_ s with
  | Some n => Ok n
  | None => Raise ValueError
  end.

(** [int(found_dict[key])] when the group took part in the match. *)
Definition int_group (key : ascii) (g : groups) : result (option Z) :=
  match group (chr key) g with
  | None => Ok None
  | Some v => do n <- int_r v in Ok (Some n)
  end.

Fixpoint index_of (names : list string) (v : str) (i : Z) : option Z :=
  match names with
  | [] => None
  | n :: names' => if str_eqb (py n) v then Some i else index_of names' v (i + 1)
  end.

(** [names.index(found_dict[key].lower())] *)
Definition name_group (key : ascii) (names : list string) (g : groups)
  : result (option Z) :=
  match group (chr key) g with
  | None => Ok None
  | Some v =>
      match index_of names (map lower v) 0 with
      | Some i => Ok (Some i)
      | None => Raise ValueError
      end
  end.

Definition default (d : Z) (o : option Z) : Z :=
  match o with Some v => v | None => d end.

(** The [%z] branch: the offset in seconds and its fraction in
    microseconds. *)
Definition parse_z (z0 : str) : result (Z * Z) :=
  if str_eqb z0 (py "Z") then Ok (0, 0)
  else
    do z <- (if N.eqb (nth 3 z0 0%N) (chr ":") then
               let z := slice z0 0 3 ++ slice_from z0 4 in
               if (5 <? length z)%nat then
                 if negb (N.eqb (nth 5 z 0%N) (chr ":")) then Raise ValueError
                 else Ok (slice z 0 5 ++ slice_from z 6)
               else Ok z
             else Ok z0) in
    do hours <- int_r (slice z 1 3) in
    do minutes <- int_r (slice z 3 5) in
    do seconds <- (match slice z 5 7 with [] => Ok 0 | ss => int_r ss end) in
    let gmtoff := hours * 60 * 60 + minutes * 60 + seconds in
    let gmtoff_remainder := slice_from z 8 in
    let gmtoff_remainder_padding :=
      repeat (chr "0") (6 - length gmtoff_remainder) in
    do gmtoff_fraction <- int_r (gmtoff_remainder ++ gmtoff_remainder_padding) in
    if starts_with (py "-") z then Ok (- gmtoff, - gmtoff_fraction)
    else Ok (gmtoff, gmtoff_fraction).

(** [_strptime] followed by [_strptime_datetime]. *)
Definition strptime (data_string format : str) : result datetime :=
  match pattern format with
  | None => Raise ValueError
  | Some format_regex =>
      match match_ format_regex data_string with
      | None => Raise ValueError
      | Some (rest, found_dict) =>
          if truthy rest then Raise ValueError
          else
            do year <- int_group "Y" found_dict in
            do m <- int_group "m" found_dict in
            do b <- name_group "b" a_month found_dict in
            let month := default (default 1 m) b in
            do d <- int_group "d" found_dict in
            let day := default 1 d in
            do H <- int_group "H" found_dict in
            do M <- int_group "M" found_dict in
            do S <- int_group "S" found_dict in
            do weekday <- name_group "a" a_weekday found_dict in
            do gmt <- match group (chr "z") found_dict with
                      | None => Ok None
                      | Some z => do r <- parse_z z in Ok (Some r)
                      end in
            let leap_year_fix :=
              match year with
              | None => (month =? 2) && (day =? 29)
              | Some _ => false
              end in
            let y := default (if leap_year_fix then 1904 else 1900) year in
            (* datetime_date(year, month, day) *)
            if negb (_check_date_fields y month day) then Raise ValueError
            else
              let y := if leap_year_fix then 1900 else y in
              do tz <- match gmt with
                       | None => Ok None
                       | Some (gmtoff, gmtoff_fraction) =>
                           do o <- timezone (td 0 gmtoff gmtoff_fraction) in
                           Ok (Some o)
                       end in
              new_datetime y month day (default 0 H) (default 0 M) (default 0 S)
                           0 tz
      end
  end.

End Strptime.

(** ** server/utils.py *)

Module Utils.
Import Datetime.

Definition formats : list str :=
  [py "%Y-%m-%d"; py "%m/%d/%Y"; py "%d/%m/%Y"; py "%Y-%m-%d %H:%M:%S";
   py "%m/%d/%Y %H:%M:%S"].

(** The [for fmt in formats] loop: the first format that parses returns,
    a [ValueError] moves on to the next one. *)
Fixpoint try_formats (date_string : str) (fmts : list str) : result datetime :=
  match fmts with
  | [] => Raise ValueError
  | fmt :: rest =>
      match Strptime.strptime date_string fmt with
      | Ok d => Ok d
      | Raise ValueError => try_formats date_string rest
      | Raise e => Raise e
      end
  end.

(** [ensure_datetime(date_string)]; [now] is what [datetime.now()] returns. *)
Definition ensure_datetime (now : datetime) (date_string : str) : result datetime :=
  if str_eqb date_string (py "today") then Ok now
  else if str_eqb date_string (py "yesterday") then sub now (td 1 0 0)
  else if str_eqb date_string (py "last_week") then sub now (td 7 0 0)
  else if str_eqb date_string (py "last_month") then sub now (td 30 0 0)
  else if str_eqb date_string (py "last_year") then sub now (td 365 0 0)
  else try_formats date_string formats.

End Utils.

(** ** server/gmail.py *)

Module Gmail.
Import Datetime.

(** *** The provider's payloads *)

Record part_body : Type := mk_body { data : option str }.

(** A MIME part: the keys ['mimeType'], ['body'], ['parts'] and ['headers']
    of its dict, each possibly absent. *)
#[local] Set Warnings "-register-all".
Inductive part : Type :=
  mk_part (mimeType : option str) (body : option part_body)
          (parts : option (list part)) (headers : option (list (str * str))).

Definition p_mimeType (p : part) : option str :=
  match p with mk_part mt _ _ _ => mt end.
Definition p_body (p : part) : option part_body :=
  match p with mk_part _ b _ _ => b end.
Definition p_parts (p : part) : option (list part) :=
  match p with mk_part _ _ ps _ => ps end.
Definition p_headers (p : part) : option (list (str * str)) :=
  match p with mk_part _ _ _ hs => hs end.

(** The result of [messages().get()]. *)
Record message_details : Type := mk_details {
  threadId : option str;
  snippet_ : option str;
  labelIds : option (list str);
  sizeEstimate : option Z;
  payload : option part
}.

(** An entry of the result of [messages().list()]. *)
Record message : Type := mk_message { msg_id : str }.

(** [self.service]: the two calls the client makes, each of which may
    raise. *)
Record service : Type := mk_service {
  messages_list : str -> Z -> result (option (list message));
  messages_get : str -> result message_details
}.

(** *** The pydantic models *)

Inductive pyval : Type :=
| VNone
| VStr (s : str)
| VInt (n : Z)
| VList (l : list str).

Record GMailData : Type := mk_GMailData {
  id_ : str;
  thread_id : option str;
  from_ : str;
  subject : str;
  date : str;
  snippet : str
}.

Record GMailDataExtended : Type := mk_GMailDataExtended {
  basic : GMailData;
  to : str;
  date_readable : str;
  labels : list str;
  size_estimate : Z;
  body_ : option str
}.

Inductive email : Type :=
| Basic (e : GMailData)
| Extended (e : GMailDataExtended).

(** A [ValueError] of a validator becomes a [ValidationError]. *)
Definition validator {A : Type} (r : result A) (v : str) : result str :=
  match r with
  | Ok _ => Ok v
  | Raise ValueError => Raise ValidationError
  | Raise e => Raise e
  end.

Definition validate_date_format (v : str) : result str :=
  validator (Isoformat.fromisoformat (replace_char (chr "Z") (py "+00:00") v)) v.

Definition validate_readable_date (v : str) : result str :=
  validator (Strptime.strptime v (py "%Y-%m-%d %H:%M:%S")) v.

(** Field validation: a required [str], an [Optional[str]], a [str] with a
    default, a [List[str]] with a default, an [int] with [ge=0]. *)
Definition required_str (d : gmap (list N) pyval) (key : string) : result str :=
  match d !! py key with
  | Some (VStr s) => Ok s
  | _ => Raise ValidationError
  end.

Definition optional_str (d : gmap (list N) pyval) (key : string)
  : result (option str) :=
  match d !! py key with
  | None | Some VNone => Ok None
  | Some (VStr s) => Ok (Some s)
  | Some _ => Raise ValidationError
  end.

Definition default_str (d : gmap (list N) pyval) (key : string) (dflt : str)
  : result str :=
  match d !! py key with
  | None => Ok dflt
  | Some (VStr s) => Ok s
  | Some _ => Raise ValidationError
  end.

Definition default_list (d : gmap (list N) pyval) (key : string)
  : result (list str) :=
  match d !! py key with
  | None => Ok []
  | Some (VList l) => Ok l
  | Some _ => Raise ValidationError
  end.

Definition default_nonneg_int (d : gmap (list N) pyval) (key : string)
  : result Z :=
  match d !! py key with
  | None => Ok 0
  | Some (VInt n) => if 0 <=? n then Ok n else Raise ValidationError
  | Some _ => Raise ValidationError
  end.

(** [GMailData] built from the keyword dict [d]: the declared fields are
    read by alias and validated;
    keys that name no field are ignored. *)
Definition new_GMailData (d : gmap (list N) pyval) : result GMailData :=
  do i <- required_str d "id" in
  do t <- optional_str d "thread_id" in
  do f <- required_str d "from" in
  do s <- required_str d "subject" in
  do dt0 <- required_str d "date" in
  do dt <- validate_date_format dt0 in
  do sn <- default_str d "snippet" [] in
  Ok (mk_GMailData i t f s dt sn).

(** [GMailDataExtended] built from the keyword dict [d]. *)
Definition new_GMailDataExtended (d : gmap (list N) pyval)
  : result GMailDataExtended :=
  do b <- new_GMailData d in
  do t <- required_str d "to" in
  do dr0 <- required_str d "date_readable" in
  do dr <- validate_readable_date dr0 in
  do l <- default_list d "labels" in
  do sz <- default_nonneg_int d "size_estimate" in
  do bd <- optional_str d "body" in
  Ok (mk_GMailDataExtended b t dr l sz bd).

(** *** GmailAPIClient *)

Definition _format_date_for_gmail (d : datetime) : str := strftime_gmail d.

Definition part_data (b : option part_body) : str :=
  match b with
  | Some b' => match data b' with Some d => d | None => [] end
  | None => []
  end.

(** [base64.urlsafe_b64decode(data).decode('utf-8', errors='ignore')] *)
Definition decode_data (d : str) : result str :=
  do raw <- Base64.urlsafe_b64decode d in
  Ok (Utf8.decode_ignore raw).

(** The part's own body: the two [if part.get('mimeType') == ...] blocks
    and the final [return '']. *)
Definition own_body (mt : option str) (b : option part_body) : result str :=
  let plain := match mt with Some t => str_eqb t (py "text/plain") | None => false end in
  let html := match mt with Some t => str_eqb t (py "text/html") | None => false end in
  if plain && truthy (part_data b) then decode_data (part_data b)
  else if html && truthy (part_data b) then decode_data (part_data b)
  else Ok [].

Fixpoint get_body_from_part (p : part) : result str :=
  match p with
  | mk_part mt b ps _ =>
      match ps with
      | Some subparts =>
          (fix each (l : list part) : result str :=
             match l with
             | [] => own_body mt b
             | subpart :: l' =>
                 do body <- get_body_from_part subpart in
                 if truthy body then Ok body else each l'
             end) subparts
      | None => own_body mt b
      end
  end.

Definition empty_part : part := mk_part None None None None.

Definition _extract_email_body (md : message_details) : result str :=
  get_body_from_part (match payload md with Some p => p | None => empty_part end).

Definition tag_re : Re.regex :=
  Re.seq [Re.lit (chr "<"); Re.plus (fun c => negb (N.eqb c (chr ">")));
          Re.lit (chr ">")].
Definition blank_lines_re : Re.regex :=
  Re.seq [Re.lit 10%N; Re.star is_space; Re.lit 10%N].
Definition spaces_re : Re.regex := Re.plus (N.eqb (chr " ")).

Definition _clean_html (html_content : str) : str :=
  if negb (truthy html_content) then []
  else
    let clean_text := Re.sub tag_re [] html_content in
    let clean_text := Re.sub blank_lines_re [10%N; 10%N] clean_text in
    let clean_text := Re.sub spaces_re (py " ") clean_text in
    strip clean_text.

(** The dict comprehension over the header list. *)
Definition headers_dict (hs : list (str * str)) : gmap (list N) (list N) :=
  fold_left (fun m h => <[fst h := snd h]> m) hs ∅.

Definition get_str (m : gmap (list N) (list N)) (key : string) (dflt : string)
  : str :=
  match m !! py key with Some v => v | None => py dflt end.

Definition opt_str (o : option str) : pyval :=
  match o with Some s => VStr s | None => VNone end.

(** The argument [strptime] gets: the header up to the first [" ("]. *)
Definition date_to_parse (date_str : str) : str :=
  if contains (py " (") date_str then split_head (py " (") date_str
  else date_str.

(** The [try]/[except] around the parse: any failure gives the clock. *)
Definition parse_date (now : datetime) (date_str : str) : datetime :=
  match Strptime.strptime (date_to_parse date_str)
                          (py "%a, %d %b %Y %H:%M:%S %z") with
  | Ok d => d
  | Raise _ => now
  end.

Definition basic_dict (message : message) (md : message_details)
           (hs : gmap (list N) (list N)) (parsed_date : datetime)
  : gmap (list N) pyval :=
  <[py "snippet" := VStr (match snippet_ md with Some s => s | None => [] end)]>
  (<[py "date" := VStr (isoformat parsed_date)]>
  (<[py "subject" := VStr (get_str hs "Subject" "No Subject")]>
  (<[py "from" := VStr (get_str hs "From" "Unknown")]>
  (<[py "thread_id" := opt_str (threadId md)]>
  (<[py "id" := VStr (msg_id message)]> ∅))))).

Definition extended_dict (message : message) (md : message_details)
           (hs : gmap (list N) (list N)) (parsed_date : datetime)
  : gmap (list N) pyval :=
  <[py "size_estimate" :=
      VInt (match sizeEstimate md with Some n => n | None => 0 end)]>
  (<[py "snippet" := VStr (match snippet_ md with Some s => s | None => [] end)]>
  (<[py "labels" := VList (match labelIds md with Some l => l | None => [] end)]>
  (<[py "date_readable" := VStr (strftime_readable parsed_date)]>
  (<[py "date" := VStr (isoformat parsed_date)]>
  (<[py "subject" := VStr (get_str hs "Subject" "No Subject")]>
  (<[py "to" := VStr (get_str hs "To" "Unknown")]>
  (<[py "from" := VStr (get_str hs "From" "Unknown")]>
  (<[py "thread_id" := opt_str (threadId md)]>
  (<[py "id" := VStr (msg_id message)]> ∅))))))))).

Definition _parse_email_data (svc : service) (now : datetime)
           (message : message) (include_body basic_data : bool)
  : result email :=
  do md <- messages_get svc (msg_id message) in
  do pl <- (match payload md with Some p => Ok p | None => Raise KeyError end) in
  let hs := headers_dict (match p_headers pl with Some l => l | None => [] end) in
  let date_str := get_str hs "Date" "" in
  let parsed_date := parse_date now date_str in
  let email_data_dict :=
    if basic_data then basic_dict message md hs parsed_date
    else extended_dict message md hs parsed_date in
  do email_data_dict <-
     (if include_body then
        do body <- _extract_email_body md in
        Ok (<[py "body" := VStr (if truthy body then _clean_html body else [])]>
              email_data_dict)
      else Ok email_data_dict) in
  if basic_data then
    do e <- new_GMailData email_data_dict in Ok (Basic e)
  else
    do e <- new_GMailDataExtended email_data_dict in Ok (Extended e).

(** The [for] loop of [get_emails_by_date_range].  [clock i] is the reading
    of [datetime.now()] while message [i] is parsed; an exception of
    [_parse_email_data] adds one to [parsing_errors] and the loop goes on. *)
Fixpoint retrieve (svc : service) (clock : nat -> datetime)
         (include_body basic_data : bool) (i : nat) (messages : list message)
         (emails : list email) (parsing_errors : nat) : list email * nat :=
  match messages with
  | [] => (emails, parsing_errors)
  | message :: rest =>
      match _parse_email_data svc (clock i) message include_body basic_data with
      | Ok email_data =>
          retrieve svc clock include_body basic_data (S i) rest
                   (emails ++ [email_data]) parsing_errors
      | Raise _ =>
          retrieve svc clock include_body basic_data (S i) rest
                   emails (S parsing_errors)
      end
  end.

Definition query (start_date end_date : datetime) (query_filter : str) : str :=
  py "after:" ++ _format_date_for_gmail start_date ++ py " before:"
  ++ _format_date_for_gmail end_date
  ++ (if truthy query_filter then py " " ++ query_filter else []).

Definition get_emails_by_date_range (svc : service) (clock : nat -> datetime)
           (start_date end_date : datetime) (max_results : Z)
           (query_filter : str) (include_body basic_data : bool)
  : result (list email) :=
  match messages_list svc (query start_date end_date query_filter) max_results with
  | Raise HttpError => Ok []
  | Raise e => Raise e
  | Ok results =>
      let messages := match results with Some l => l | None => [] end in
      match messages with
      | [] => Ok []
      | _ =>
          Ok (fst (retrieve svc clock include_body basic_data 1 messages [] 0))
      end
  end.

End Gmail.

(** ** server/gmail.py: the helpers that turn records into dicts *)

Module Dump.
Import Gmail.

(** [email.model_dump(by_alias=True)]: the fields in the order of their
    declaration, [from_] under its alias. *)
Definition dump_basic (g : GMailData) : list (list N * pyval) :=
  [(py "id", VStr (id_ g)); (py "thread_id", opt_str (thread_id g));
   (py "from", VStr (from_ g)); (py "subject", VStr (subject g));
   (py "date", VStr (date g)); (py "snippet", VStr (snippet g))].

Definition model_dump (e : email) : list (list N * pyval) :=
  match e with
  | Basic g => dump_basic g
  | Extended x =>
      dump_basic (basic x)
      ++ [(py "to", VStr (to x)); (py "date_readable", VStr (date_readable x));
          (py "labels", VList (labels x));
          (py "size_estimate", VInt (size_estimate x));
          (py "body", opt_str (body_ x))]
  end.

Definition emails_to_dict_list (emails : list email)
  : list (list (list N * pyval)) :=
  map model_dump emails.

(** The keyword arguments [**d] of a dict given by its items. *)
Definition kwargs_of (items : list (list N * pyval)) : gmap (list N) pyval :=
  list_to_map items.

End Dump.

(** ** The account profile: GmailAPIClient.get_user_profile and the tool
    of server/main.py *)

Module Profile.
Import Gmail.

(** A value of the Profile resource of the provider, or of the dict made
    of it: a string (the address, the history id), an integer (the totals)
    or [None]. *)
Inductive value : Type :=
| PNone
| PStr (s : str)
| PInt (n : Z).

(** [d.get(key)] *)
Definition get (d : gmap (list N) value) (key : string) : value :=
  match d !! py key with
  | Some v => v
  | None => PNone
  end.

(** [d.get(key, default)] *)
Definition get_default (d : gmap (list N) value) (key : string) (dflt : value)
  : value :=
  match d !! py key with
  | Some v => v
  | None => dflt
  end.

(** [GmailAPIClient.get_user_profile]; [response] is what
    [getProfile(userId='me').execute()] returns or raises. *)
Definition get_user_profile (response : result (gmap (list N) value))
  : result (gmap (list N) value) :=
  match response with
  | Ok profile =>
      Ok (<[py "history_id" := get profile "historyId"]>
          (<[py "threads_total" := get profile "threadsTotal"]>
          (<[py "messages_total" := get profile "messagesTotal"]>
          (<[py "email" := get profile "emailAddress"]> ∅))))
  | Raise HttpError => Ok ∅
  | Raise e => Raise e
  end.

(** [str(n)] *)
Definition int_str (n : Z) : str :=
  if n <? 0 then py "-" ++ decimal (- n) else decimal n.

(** A value inside an f-string. *)
Definition format (v : value) : str :=
  match v with
  | PNone => py "None"
  | PStr s => s
  | PInt n => int_str n
  end.

(** The truth value of a dict. *)
Definition truthy_dict (d : gmap (list N) value) : bool :=
  match map_to_list d with
  | [] => false
  | _ :: _ => true
  end.

(** The three pictographs of the texts, by their code points. *)
Definition bust : N := 128100.
Definition envelope : N := 128231.
Definition cross : N := 10060.

(** The tool [get_user_profile] of [server/main.py]. *)
Definition tool (response : result (gmap (list N) value)) : result str :=
  do profile <- get_user_profile response in
  if truthy_dict profile
  then Ok ([bust] ++ py " Authenticated as: " ++ format (get profile "email")
           ++ [10%N; envelope] ++ py " Total messages in account: "
           ++ format (get_default profile "messages_total" (PStr (py "Unknown"))))
  else Ok ([cross] ++ py " Error getting profile").

End Profile.

(** ** json.dumps(..., indent=2) and emails_to_json *)

Module Json.
Import Gmail.

Definition hex (n : N) : N := if (n <? 10)%N then (48 + n)%N else (87 + n)%N.

(** ['\\u{0:04x}'.format(n)] *)
Definition u_escape (n : N) : str :=
  [chr "\"; chr "u"; hex ((n / 4096) mod 16); hex ((n / 256) mod 16);
   hex ((n / 16) mod 16); hex (n mod 16)]%N.

(** [encode_basestring_ascii] on one character: what is not between the
    space and the tilde is escaped, and so are the quote and the
    backslash. *)
Definition escape (c : N) : str :=
  if N.eqb c 34 then [chr "\"; 34%N]
  else if N.eqb c (chr "\") then [chr "\"; chr "\"]
  else if N.eqb c 10 then [chr "\"; chr "n"]
  else if N.eqb c 13 then [chr "\"; chr "r"]
  else if N.eqb c 9 then [chr "\"; chr "t"]
  else if N.eqb c 12 then [chr "\"; chr "f"]
  else if N.eqb c 8 then [chr "\"; chr "b"]
  else if ((32 <=? c) && (c <=? 126))%N then [c]
  else if (c <? 65536)%N then u_escape c
  else
    let n := (c - 65536)%N in
    u_escape (N.lor 55296 (N.land (N.shiftr n 10) 1023))
    ++ u_escape (N.lor 56320 (N.land n 1023)).

Definition encode_string (s : str) : str := [34%N] ++ flat_map escape s ++ [34%N].

(** ['\n' + indent * level] *)
Definition newline_indent (level : nat) : str :=
  10%N :: repeat (chr " ") (2 * level).

Fixpoint join (sep : str) (l : list str) : str :=
  match l with
  | [] => []
  | [x] => x
  | x :: l' => x ++ sep ++ join sep l'
  end.

(** A list or a dict at nesting [level], its items already encoded. *)
Definition bracket (open close : ascii) (level : nat) (items : list str) : str :=
  match items with
  | [] => [chr open; chr close]
  | _ :: _ =>
      [chr open] ++ newline_indent (S level)
      ++ join (py "," ++ newline_indent (S level)) items
      ++ newline_indent level ++ [chr close]
  end.

Definition encode_value (level : nat) (v : pyval) : str :=
  match v with
  | VNone => py "null"
  | VStr s => encode_string s
  | VInt n => Profile.int_str n
  | VList l => bracket "[" "]" level (map encode_string l)
  end.

Definition encode_dict (level : nat) (d : list (list N * pyval)) : str :=
  bracket "{" "}" level
          (map (fun kv => encode_string (fst kv) ++ py ": "
                          ++ encode_value (S level) (snd kv)) d).

(** [json.dumps(dicts, indent=2)] for a list of dicts. *)
Definition dumps (dicts : list (list (list N * pyval))) : str :=
  bracket "[" "]" 0 (map (encode_dict 1) dicts).

End Json.

(** [emails_to_json(emails)] *)
Definition emails_to_json (emails : list Gmail.email) : str :=
  Json.dumps (map Dump.model_dump emails).

(** ** The tool get_emails of server/main.py *)

Module Main.
Import Datetime Gmail.

(** [get_emails(start_date, end_date, max_emails)]: [now_start] and
    [now_end] are the readings of the clock in the two calls of
    [ensure_datetime], [clock] gives those of the retrieval. *)
Definition get_emails (svc : service) (now_start now_end : datetime)
           (clock : nat -> datetime) (start_date end_date : str)
           (max_emails : Z) : result str :=
  do start_datetime <- Utils.ensure_datetime now_start start_date in
  do end_datetime <- Utils.ensure_datetime now_end end_date in
  do emails <- get_emails_by_date_range svc clock start_datetime end_datetime
                                        max_emails [] false true in
  Ok (emails_to_json emails).

End Main.

(** * Properties *)

Import Gmail.

(** ** Strings *)

Lemma str_eqb_eq (a b : list N) : str_eqb a b = true <-> a = b.
Proof.
  revert b; induction a as [|x a IH]; intros [|y b]; simpl; split;
    try congruence; try discriminate.
  - intros H. apply andb_prop in H as [Hx Hab].
    apply N.eqb_eq in Hx. apply IH in Hab. congruence.
  - intros H. injection H as -> ->. rewrite N.eqb_refl. simpl. now apply IH.
Qed.

Lemma str_eqb_refl (a : list N) : str_eqb a a = true.
Proof. now apply str_eqb_eq. Qed.

Lemma bind_ok {A B : Type} (r : result A) (k : A -> result B) (b : B) :
  bind r k = Ok b -> exists a, r = Ok a /\ k a = Ok b.
Proof. destruct r as [a|e]; simpl; [eauto | discriminate]. Qed.

Ltac z_bools :=
  repeat match goal with
         | H : (_ && _)%bool = true |- _ => apply andb_prop in H as [? ?]
         | H : (_ || _)%bool = false |- _ => apply orb_false_elim in H as [? ?]
         | H : negb _ = true |- _ => apply negb_true_iff in H
         | H : negb _ = false |- _ => apply negb_false_iff in H
         | H : (_ =? _) = true |- _ => apply Z.eqb_eq in H
         | H : (_ =? _) = false |- _ => apply Z.eqb_neq in H
         | H : (_ <=? _) = true |- _ => apply Z.leb_le in H
         | H : (_ <=? _) = false |- _ => apply Z.leb_gt in H
         | H : (_ <? _) = true |- _ => apply Z.ltb_lt in H
         | H : (_ <? _) = false |- _ => apply Z.ltb_ge in H
         end.

(** ** Headers (C9) *)

Section Headers.

Definition add_header (m : gmap (list N) (list N)) (h : list N * list N) :=
  <[fst h := snd h]> m.

Lemma fold_headers_other (hs : list (list N * list N)) (m : gmap (list N) (list N))
      (name : list N) :
  ~ In name (map fst hs) ->
  fold_left add_header hs m !! name = m !! name.
Proof.
  revert m; induction hs as [|[n v] hs IH]; intros m Hnot; simpl; [reflexivity|].
  rewrite IH.
  - unfold add_header; simpl. apply lookup_insert_ne.
    intros ->. apply Hnot. now left.
  - intros Hin. apply Hnot. now right.
Qed.

Lemma fold_headers_app (hs1 hs2 : list (list N * list N)) (m : gmap (list N) (list N)) :
  fold_left add_header (hs1 ++ hs2) m = fold_left add_header hs2 (fold_left add_header hs1 m).
Proof. apply fold_left_app. Qed.

End Headers.

(** C9.  The header mapping keeps, for a name, the value of its last
    occurrence in the list: whatever comes before the pair [(name, value)],
    if [name] does not occur after it then the mapping sends [name] to
    [value]; a name that occurs nowhere is not in the mapping. *)
Theorem headers_last_write_wins
        (before after : list (list N * list N)) (name value : list N) :
  ~ In name (map fst after) ->
  headers_dict (before ++ (name, value) :: after) !! name = Some value
  /\ (forall other, ~ In other (map fst (before ++ (name, value) :: after)) ->
                    headers_dict (before ++ (name, value) :: after) !! other = None).
Proof.
  intros Hlast. unfold headers_dict. fold add_header. split.
  - rewrite fold_headers_app. simpl.
    rewrite fold_headers_other by exact Hlast.
    unfold add_header; simpl. apply lookup_insert_eq.
  - intros other Hother. rewrite fold_headers_other by exact Hother.
    apply lookup_empty.
Qed.

Lemma headers_last_write_wins_witness :
  headers_dict ([(py "Subject", py "first"); (py "To", py "a@b.c")]
                ++ (py "Subject", py "second") :: [(py "From", py "x@y.z")])
    !! py "Subject" = Some (py "second").
Proof.
  apply (headers_last_write_wins
           [(py "Subject", py "first"); (py "To", py "a@b.c")]
           [(py "From", py "x@y.z")] (py "Subject") (py "second")).
  vm_compute. intros [H|[]]. discriminate H.
Defined.

(** ** Body extraction (C1, C2) *)

Section BodyExtraction.

(** A part without sub-parts. *)
Definition leaf (mime data : string) : part :=
  mk_part (Some (py mime)) (Some (mk_body (Some (py data)))) None None.


(** The loop over the sub-parts, as a function of its own. *)
Fixpoint each_part (own : result (list N)) (l : list part) : result (list N) :=
  match l with
  | [] => own
  | subpart :: l' =>
      do body <- get_body_from_part subpart in
      if truthy body then Ok body else each_part own l'
  end.

Lemma get_body_from_part_parts mt b subparts hs :
  get_body_from_part (mk_part mt b (Some subparts) hs)
  = each_part (own_body mt b) subparts.
Proof.
  simpl. induction subparts as [|p l IH]; simpl; [reflexivity|].
  destruct (get_body_from_part p) as [body|e]; simpl; [|reflexivity].
  destruct (truthy body); [reflexivity | exact IH].
Qed.


End BodyExtraction.




Section Base64Facts.
Import Base64.

(** A character of the URL-safe alphabet (or of the standard one, which the
    decoder accepts as well); ['='] is not one. *)
Definition b64_char (c : N) : bool :=
  match table_a2b_base64 (urlsafe_translate c) with
  | Some _ => true
  | None => false
  end.

Ltac split_ifs :=
  repeat match goal with
         | |- context [if ?b then _ else _] => destruct b eqn:?
         | H : context [if ?b then _ else _] |- _ => destruct b eqn:?
         end.

Ltac bool_to_prop :=
  repeat match goal with
         | H : (_ && _)%bool = true |- _ => apply andb_prop in H as [? ?]
         | H : (_ && _)%bool = false |- _ => apply andb_false_iff in H as [?|?]
         | H : (_ <=? _)%N = true |- _ => apply N.leb_le in H
         | H : (_ <=? _)%N = false |- _ => apply N.leb_gt in H
         | H : (_ <? _)%N = true |- _ => apply N.ltb_lt in H
         | H : (_ <? _)%N = false |- _ => apply N.ltb_ge in H
         | H : (_ =? _)%N = true |- _ => apply N.eqb_eq in H
         | H : (_ =? _)%N = false |- _ => apply N.eqb_neq in H
         end.

Lemma b64_char_ascii (c : N) : b64_char c = true -> (c <? 128)%N = true.
Proof.
  unfold b64_char, table_a2b_base64, urlsafe_translate. intros H.
  apply N.ltb_lt. split_ifs; bool_to_prop; try discriminate; lia.
Qed.

Lemma b64_char_not_pad (c : N) :
  b64_char c = true -> (urlsafe_translate c =? BASE64_PAD)%N = false.
Proof.
  unfold b64_char, table_a2b_base64, urlsafe_translate, BASE64_PAD. intros H.
  apply N.eqb_neq. split_ifs; bool_to_prop; try discriminate; lia.
Qed.

Lemma is_ok_emit (b : N) (r : result (list N)) : is_ok (emit b r) = is_ok r.
Proof. destruct r; reflexivity. Qed.

(** On alphabet characters only, the loop ends well exactly when the groups
    of four are complete. *)
Lemma a2b_loop_alphabet (d : list N) :
  Forall (fun c => b64_char c = true) d ->
  forall (quad_pos : nat) (leftchar : N) (pads : nat),
    (quad_pos < 4)%nat ->
    is_ok (a2b_loop (map urlsafe_translate d) quad_pos leftchar pads)
    = ((quad_pos + length d) mod 4 =? 0)%nat.
Proof.
  induction 1 as [|c d Hc _ IH]; intros q l p Hq.
  - simpl. rewrite Nat.add_0_r.
    destruct q as [|[|[|[|q]]]]; try reflexivity; lia.
  - simpl map. cbn [a2b_loop]. rewrite (b64_char_not_pad c Hc).
    unfold b64_char in Hc.
    destruct (table_a2b_base64 (urlsafe_translate c)) as [v|]; [|discriminate].
    replace (q + length (c :: d))%nat with (S q + length d)%nat by (simpl; lia).
    destruct q as [|[|[|[|q]]]]; try lia; rewrite ?is_ok_emit.
    + now rewrite IH by lia.
    + now rewrite IH by lia.
    + now rewrite IH by lia.
    + rewrite IH by lia.
      replace (4 + length d)%nat with (length d + 1 * 4)%nat by lia.
      now rewrite Nat.Div0.mod_add.
Qed.

Lemma bytes_from_alphabet (d : list N) :
  Forall (fun c => b64_char c = true) d -> _bytes_from_decode_data d = Ok d.
Proof.
  intros H. unfold _bytes_from_decode_data.
  replace (forallb (fun c => (c <? 128)%N) d) with true; [reflexivity|].
  symmetry. apply forallb_forall. intros c Hin.
  apply b64_char_ascii. rewrite List.Forall_forall in H. now apply H.
Qed.

End Base64Facts.

(** The encoder of the data that the decoder reads. *)
Section Base64Encoding.
Import Base64.

(** The alphabet of base64url (RFC 4648, section 5): the character that
    stands for six bits. *)
Definition urlsafe_alphabet (v : N) : N :=
  if (v <? 26)%N then (65 + v)%N
  else if (v <? 52)%N then (71 + v)%N
  else if (v <? 62)%N then (v - 4)%N
  else if (v =? 62)%N then 45%N
  else 95%N.

(** The four groups of six bits of three bytes. *)
Definition sextet1 (a : N) : N := (a / 4)%N.
Definition sextet2 (a b : N) : N := ((a mod 4) * 16 + b / 16)%N.
Definition sextet3 (b c : N) : N := ((b mod 16) * 4 + c / 64)%N.
Definition sextet4 (c : N) : N := (c mod 64)%N.

(** [base64.urlsafe_b64encode]: what the sender of a message writes for the
    bytes of a body, with the padding to a multiple of four characters. *)
Fixpoint urlsafe_b64encode (bs : list N) : list N :=
  match bs with
  | [] => []
  | [a] =>
      [urlsafe_alphabet (sextet1 a); urlsafe_alphabet (sextet2 a 0);
       BASE64_PAD; BASE64_PAD]
  | [a; b] =>
      [urlsafe_alphabet (sextet1 a); urlsafe_alphabet (sextet2 a b);
       urlsafe_alphabet (sextet3 b 0); BASE64_PAD]
  | a :: b :: c :: rest =>
      urlsafe_alphabet (sextet1 a) :: urlsafe_alphabet (sextet2 a b)
      :: urlsafe_alphabet (sextet3 b c) :: urlsafe_alphabet (sextet4 c)
      :: urlsafe_b64encode rest
  end.

Definition below (n : nat) : list N := map N.of_nat (List.seq 0 n).

Lemma forallb_below (f : N -> bool) (n : nat) :
  forallb f (below n) = true -> forall x, (x < N.of_nat n)%N -> f x = true.
Proof.
  intros H x Hx. rewrite forallb_forall in H. apply H.
  unfold below. apply in_map_iff. exists (N.to_nat x).
  split; [apply N2Nat.id|apply in_seq; lia].
Qed.

(** The decoder reads a character of the alphabet as the six bits it stands
    for. *)
Lemma alphabet_read (v : N) :
  (v < 64)%N ->
  table_a2b_base64 (urlsafe_translate (urlsafe_alphabet v)) = Some v
  /\ (urlsafe_translate (urlsafe_alphabet v) =? BASE64_PAD)%N = false
  /\ (urlsafe_alphabet v <? 128)%N = true.
Proof.
  intros Hv.
  pose (f := fun v =>
               match table_a2b_base64 (urlsafe_translate (urlsafe_alphabet v)) with
               | Some w => (w =? v)%N
               | None => false
               end
               && negb (urlsafe_translate (urlsafe_alphabet v) =? BASE64_PAD)%N
               && (urlsafe_alphabet v <? 128)%N).
  assert (H : forallb f (below 64) = true) by (vm_compute; reflexivity).
  pose proof (forallb_below f 64 H v Hv) as Hf. subst f. cbv beta in Hf.
  apply andb_true_iff in Hf as [Hf H3]. apply andb_true_iff in Hf as [H1 H2].
  destruct (table_a2b_base64 _) as [w|]; [|discriminate H1].
  apply N.eqb_eq in H1. subst w. apply negb_true_iff in H2. now repeat split.
Qed.

(** The three bytes that the decoder puts together. *)
Definition byte1 (v1 v2 : N) : N := (N.lor (N.shiftl v1 2) (N.shiftr v2 4) mod 256)%N.
Definition byte2 (v2 v3 : N) : N :=
  (N.lor (N.shiftl (N.land v2 15) 4) (N.shiftr v3 2) mod 256)%N.
Definition byte3 (v3 v4 : N) : N := (N.lor (N.shiftl (N.land v3 3) 6) v4 mod 256)%N.

Lemma sextets_bytes (a b c : N) :
  (a < 256)%N -> (b < 256)%N -> (c < 256)%N ->
  ((sextet1 a < 64)%N /\ (sextet2 a b < 64)%N /\ (sextet3 b c < 64)%N
   /\ (sextet4 c < 64)%N)
  /\ byte1 (sextet1 a) (sextet2 a b) = a
  /\ byte2 (sextet2 a b) (sextet3 b c) = b
  /\ byte3 (sextet3 b c) (sextet4 c) = c.
Proof.
  intros Ha Hb Hc.
  pose (f1 := fun a => forallb (fun b =>
                 (sextet1 a <? 64)%N && (sextet2 a b <? 64)%N
                 && (byte1 (sextet1 a) (sextet2 a b) =? a)%N) (below 256)).
  pose (f2 := fun a' => forallb (fun b => forallb (fun c =>
                 (byte2 (a' * 16 + b / 16) (sextet3 b c) =? b)%N) (below 256))
                 (below 256)).
  pose (f3 := fun b => forallb (fun c =>
                 (sextet3 b c <? 64)%N && (sextet4 c <? 64)%N
                 && (byte3 (sextet3 b c) (sextet4 c) =? c)%N) (below 256)).
  assert (H1 : forallb f1 (below 256) = true) by (vm_compute; reflexivity).
  assert (H2 : forallb f2 (below 4) = true) by (vm_compute; reflexivity).
  assert (H3 : forallb f3 (below 256) = true) by (vm_compute; reflexivity).
  pose proof (forallb_below _ 256 (forallb_below f1 256 H1 a Ha) b Hb) as E1.
  assert (Ha' : (a mod 4 < N.of_nat 4)%N) by (apply N.mod_lt; discriminate).
  pose proof (forallb_below _ 256
                (forallb_below _ 256 (forallb_below f2 4 H2 (a mod 4)%N Ha') b Hb)
                c Hc) as E2.
  pose proof (forallb_below _ 256 (forallb_below f3 256 H3 b Hb) c Hc) as E3.
  cbv beta in E1, E2, E3.
  apply andb_true_iff in E1 as [E1 E1c]. apply andb_true_iff in E1 as [E1a E1b].
  apply andb_true_iff in E3 as [E3 E3c]. apply andb_true_iff in E3 as [E3a E3b].
  apply N.ltb_lt in E1a, E1b, E3a, E3b. apply N.eqb_eq in E1c, E2, E3c.
  repeat split; assumption.
Qed.

Lemma group_read (v1 v2 v3 v4 : N) (rest : list N) (leftchar : N) (pads : nat) :
  (v1 < 64)%N -> (v2 < 64)%N -> (v3 < 64)%N -> (v4 < 64)%N ->
  a2b_loop (map urlsafe_translate
              (urlsafe_alphabet v1 :: urlsafe_alphabet v2 :: urlsafe_alphabet v3
               :: urlsafe_alphabet v4 :: rest)) 0 leftchar pads
  = emit (byte1 v1 v2)
         (emit (byte2 v2 v3)
               (emit (byte3 v3 v4)
                     (a2b_loop (map urlsafe_translate rest) 0 0 0))).
Proof.
  intros H1 H2 H3 H4.
  destruct (alphabet_read v1 H1) as (R1 & P1 & _).
  destruct (alphabet_read v2 H2) as (R2 & P2 & _).
  destruct (alphabet_read v3 H3) as (R3 & P3 & _).
  destruct (alphabet_read v4 H4) as (R4 & P4 & _).
  cbn [map a2b_loop]. rewrite P1, R1. cbn [a2b_loop]. rewrite P2, R2.
  cbn [a2b_loop]. rewrite P3, R3. cbn [a2b_loop]. rewrite P4, R4.
  reflexivity.
Qed.

(** Two characters and two pads end the data with one byte, three
    characters and one pad with two. *)
Lemma tail_read_1 (v1 v2 : N) (leftchar : N) (pads : nat) :
  (v1 < 64)%N -> (v2 < 64)%N ->
  a2b_loop (map urlsafe_translate
              [urlsafe_alphabet v1; urlsafe_alphabet v2; BASE64_PAD; BASE64_PAD])
           0 leftchar pads
  = Ok [byte1 v1 v2].
Proof.
  intros H1 H2.
  destruct (alphabet_read v1 H1) as (R1 & P1 & _).
  destruct (alphabet_read v2 H2) as (R2 & P2 & _).
  cbn [map a2b_loop]. rewrite P1, R1. cbn [a2b_loop]. rewrite P2, R2.
  reflexivity.
Qed.

Lemma tail_read_2 (v1 v2 v3 : N) (leftchar : N) (pads : nat) :
  (v1 < 64)%N -> (v2 < 64)%N -> (v3 < 64)%N ->
  a2b_loop (map urlsafe_translate
              [urlsafe_alphabet v1; urlsafe_alphabet v2; urlsafe_alphabet v3;
               BASE64_PAD])
           0 leftchar pads
  = Ok [byte1 v1 v2; byte2 v2 v3].
Proof.
  intros H1 H2 H3.
  destruct (alphabet_read v1 H1) as (R1 & P1 & _).
  destruct (alphabet_read v2 H2) as (R2 & P2 & _).
  destruct (alphabet_read v3 H3) as (R3 & P3 & _).
  cbn [map a2b_loop]. rewrite P1, R1. cbn [a2b_loop]. rewrite P2, R2.
  cbn [a2b_loop]. rewrite P3, R3. reflexivity.
Qed.

(** Induction on a list three elements at a time. *)
Lemma list_ind_by_three {A : Type} (P : list A -> Prop) :
  P [] -> (forall a, P [a]) -> (forall a b, P [a; b]) ->
  (forall a b c l, P l -> P (a :: b :: c :: l)) ->
  forall l, P l.
Proof.
  intros H0 H1 H2 H3 l.
  assert (H : P l /\ (forall a, P (a :: l)) /\ (forall a b, P (a :: b :: l))).
  { induction l as [|x l (IH0 & IH1 & IH2)].
    - repeat split; auto.
    - repeat split; auto. }
  exact (proj1 H).
Qed.

Lemma a2b_loop_encode (bs : list N) :
  Forall (fun b => (b < 256)%N) bs ->
  forall (leftchar : N) (pads : nat),
    a2b_loop (map urlsafe_translate (urlsafe_b64encode bs)) 0 leftchar pads = Ok bs.
Proof.
  induction bs as [|a|a b|a b c l IH] using list_ind_by_three;
    intros Hbs leftchar pads.
  - reflexivity.
  - apply Forall_cons_1 in Hbs as [Ha _].
    destruct (sextets_bytes a 0 0 Ha) as ((S1 & S2 & _) & B1 & _); [lia|lia|].
    cbn [urlsafe_b64encode]. rewrite tail_read_1 by assumption. now rewrite B1.
  - apply Forall_cons_1 in Hbs as [Ha Hbs]. apply Forall_cons_1 in Hbs as [Hb _].
    destruct (sextets_bytes a b 0 Ha Hb) as ((S1 & S2 & S3 & _) & B1 & B2 & _);
      [lia|].
    cbn [urlsafe_b64encode]. rewrite tail_read_2 by assumption.
    now rewrite B1, B2.
  - apply Forall_cons_1 in Hbs as [Ha Hbs]. apply Forall_cons_1 in Hbs as [Hb Hbs].
    apply Forall_cons_1 in Hbs as [Hc Hl].
    destruct (sextets_bytes a b c Ha Hb Hc)
      as ((S1 & S2 & S3 & S4) & B1 & B2 & B3).
    cbn [urlsafe_b64encode]. rewrite group_read by assumption.
    rewrite (IH Hl 0%N 0%nat), B1, B2, B3. reflexivity.
Qed.

Lemma encode_ascii (bs : list N) :
  Forall (fun b => (b < 256)%N) bs ->
  forallb (fun c => (c <? 128)%N) (urlsafe_b64encode bs) = true.
Proof.
  induction bs as [|a|a b|a b c l IH] using list_ind_by_three; intros Hbs.
  - reflexivity.
  - apply Forall_cons_1 in Hbs as [Ha _].
    destruct (sextets_bytes a 0 0 Ha) as ((S1 & S2 & _) & _); [lia|lia|].
    cbn [urlsafe_b64encode forallb].
    rewrite (proj2 (proj2 (alphabet_read _ S1))),
      (proj2 (proj2 (alphabet_read _ S2))). reflexivity.
  - apply Forall_cons_1 in Hbs as [Ha Hbs]. apply Forall_cons_1 in Hbs as [Hb _].
    destruct (sextets_bytes a b 0 Ha Hb) as ((S1 & S2 & S3 & _) & _); [lia|].
    cbn [urlsafe_b64encode forallb].
    rewrite (proj2 (proj2 (alphabet_read _ S1))),
      (proj2 (proj2 (alphabet_read _ S2))),
      (proj2 (proj2 (alphabet_read _ S3))). reflexivity.
  - apply Forall_cons_1 in Hbs as [Ha Hbs]. apply Forall_cons_1 in Hbs as [Hb Hbs].
    apply Forall_cons_1 in Hbs as [Hc Hl].
    destruct (sextets_bytes a b c Ha Hb Hc) as ((S1 & S2 & S3 & S4) & _).
    cbn [urlsafe_b64encode forallb].
    rewrite (proj2 (proj2 (alphabet_read _ S1))),
      (proj2 (proj2 (alphabet_read _ S2))),
      (proj2 (proj2 (alphabet_read _ S3))),
      (proj2 (proj2 (alphabet_read _ S4))). cbn [andb]. now apply IH.
Qed.

(** The decoder reads back what the encoder writes. *)
Lemma urlsafe_b64decode_encode (bs : list N) :
  Forall (fun b => (b < 256)%N) bs ->
  urlsafe_b64decode (urlsafe_b64encode bs) = Ok bs.
Proof.
  intros Hbs. unfold urlsafe_b64decode, _bytes_from_decode_data.
  rewrite encode_ascii by exact Hbs. cbn [bind]. unfold a2b_base64.
  now apply a2b_loop_encode.
Qed.

End Base64Encoding.

Section Utf8Facts.
Import Utf8.

(** A byte that starts no UTF-8 sequence: a continuation byte, an overlong
    lead, or a lead beyond U+10FFFF. *)
Definition invalid_start (b : N) : bool :=
  ((128 <=? b) && (b <? 194) || (245 <=? b))%N.

Lemma decode_ignore_invalid_start (b : N) (rest : list N) :
  invalid_start b = true -> decode_ignore (b :: rest) = decode_ignore rest.
Proof.
  unfold invalid_start. intros H. cbn [decode_ignore].
  assert (Hb : (128 <= b < 194 \/ 245 <= b)%N).
  { apply orb_prop in H as [H|H].
    - apply andb_prop in H as [H1 H2].
      apply N.leb_le in H1. apply N.ltb_lt in H2. lia.
    - apply N.leb_le in H. lia. }
  clear H.
  destruct (b <? 128)%N eqn:H1; [apply N.ltb_lt in H1; lia|].
  destruct (b <? 194)%N eqn:H2; [reflexivity|].
  apply N.ltb_ge in H2.
  destruct (b <? 224)%N eqn:H3; [apply N.ltb_lt in H3; lia|].
  destruct (b <? 240)%N eqn:H4; [apply N.ltb_lt in H4; lia|].
  destruct (b <? 245)%N eqn:H5; [apply N.ltb_lt in H5; lia|].
  reflexivity.
Qed.

Lemma decode_ignore_ascii (pre rest : list N) :
  Forall (fun c => (c < 128)%N) pre ->
  decode_ignore (pre ++ rest) = pre ++ decode_ignore rest.
Proof.
  induction 1 as [|c pre Hc _ IH]; [reflexivity|].
  simpl app. cbn [decode_ignore].
  apply N.ltb_lt in Hc. rewrite Hc. now rewrite IH.
Qed.

End Utf8Facts.

(** C2, as the code has it.  The body is the UTF-8 reading of the bytes
    that the base64 step returns, and what that step raises is raised.
    Decoding the bytes as UTF-8 cannot fail: a byte that starts no sequence
    is dropped from the text, nothing is put in its place.  The base64 step
    can fail.  On every base64url encoding of a byte string, with its
    padding, it succeeds and gives those bytes back, so the body is their
    UTF-8 reading, and the text itself when it is ASCII.  On data made of
    alphabet characters only, without padding, it succeeds exactly when
    their number is a multiple of four. *)
Theorem decode_data_succeeds_iff_padded (d : list N) :
  (forall raw, Base64.urlsafe_b64decode d = Ok raw ->
               decode_data d = Ok (Utf8.decode_ignore raw))
  /\ (forall e, Base64.urlsafe_b64decode d = Raise e -> decode_data d = Raise e)
  /\ (forall bs, Forall (fun b => (b < 256)%N) bs ->
                 Base64.urlsafe_b64decode (urlsafe_b64encode bs) = Ok bs
                 /\ decode_data (urlsafe_b64encode bs) = Ok (Utf8.decode_ignore bs))
  /\ (forall text, Forall (fun c => (c < 128)%N) text ->
                   decode_data (urlsafe_b64encode text) = Ok text)
  /\ (Forall (fun c => b64_char c = true) d ->
      (is_ok (decode_data d) = true <-> (length d mod 4 = 0)%nat))
  /\ (forall text b rest,
        Forall (fun c => (c < 128)%N) text -> invalid_start b = true ->
        Utf8.decode_ignore (text ++ b :: rest) = text ++ Utf8.decode_ignore rest).
Proof.
  split; [|split; [|split; [|split; [|split]]]].
  - intros raw Hraw. unfold decode_data. now rewrite Hraw.
  - intros e He. unfold decode_data. now rewrite He.
  - intros bs Hbs. pose proof (urlsafe_b64decode_encode bs Hbs) as H.
    split; [exact H|]. unfold decode_data. now rewrite H.
  - intros text Htext. unfold decode_data.
    rewrite urlsafe_b64decode_encode
      by (eapply List.Forall_impl; [|exact Htext]; cbv beta; intros; lia).
    cbn [bind]. rewrite <- (app_nil_r text) at 1.
    rewrite decode_ignore_ascii by exact Htext. cbn [Utf8.decode_ignore].
    now rewrite app_nil_r.
  - intros Hd. split.
    + unfold decode_data, Base64.urlsafe_b64decode, Base64.a2b_base64.
      rewrite bytes_from_alphabet by exact Hd. simpl bind. intros H.
      assert (Hl : is_ok (Base64.a2b_loop (map Base64.urlsafe_translate d) 0 0 0)
                   = true).
      { destruct (Base64.a2b_loop _ _ _ _); [reflexivity | discriminate H]. }
      rewrite a2b_loop_alphabet in Hl by (exact Hd || lia).
      now apply Nat.eqb_eq in Hl.
    + unfold decode_data, Base64.urlsafe_b64decode, Base64.a2b_base64.
      rewrite bytes_from_alphabet by exact Hd. simpl bind. intros H.
      pose proof (a2b_loop_alphabet d Hd 0 0%N 0) as Hl.
      simpl Nat.add in Hl. rewrite H in Hl. simpl in Hl.
      destruct (Base64.a2b_loop _ _ _ _);
        [reflexivity | discriminate (Hl ltac:(lia))].
  - intros text b rest Htext Hb.
    rewrite decode_ignore_ascii by exact Htext.
    now rewrite decode_ignore_invalid_start.
Qed.

(** The padded data of the sample message is read, and so is data of four
    alphabet characters. *)
Lemma decode_data_succeeds_iff_padded_witness :
  decode_data (py "aGk=") = Ok (py "hi")
  /\ decode_data (py "_-8=") = Ok []
  /\ (is_ok (decode_data (py "aGk-")) = true <-> (length (py "aGk-") mod 4 = 0)%nat).
Proof.
  destruct (decode_data_succeeds_iff_padded (py "aGk-"))
    as (_ & _ & Hbytes & Htext & Halphabet & _).
  split; [|split].
  - apply (Htext (py "hi")). repeat constructor.
  - exact (proj2 (Hbytes [255; 255]%N ltac:(repeat constructor))).
  - apply Halphabet. vm_compute. repeat constructor.
Defined.

(** C2 as stated fails: data of one character makes the decoder raise, and
    a byte that is not UTF-8 leaves nothing in the text, not a replacement
    character. *)
Lemma decode_data_raises_and_drops :
  get_body_from_part (leaf "text/plain" "a") = Raise binascii_Error
  /\ Base64.urlsafe_b64decode (py "_w==") = Ok [255%N]
  /\ get_body_from_part (leaf "text/plain" "_w==") = Ok [].
Proof. vm_compute. repeat split. Qed.

(** ** Retrieval (C7) *)

Section Retrieval.

Variable parse : nat -> message -> result email.

(** The records of the messages that parse, in the order of the listing;
    [i] numbers the messages. *)
Fixpoint successes (i : nat) (messages : list message) : list email :=
  match messages with
  | [] => []
  | m :: rest =>
      match parse i m with
      | Ok e => e :: successes (S i) rest
      | Raise _ => successes (S i) rest
      end
  end.

(** The number of messages whose fetch or parse raises. *)
Fixpoint failures (i : nat) (messages : list message) : nat :=
  match messages with
  | [] => 0%nat
  | m :: rest =>
      match parse i m with
      | Ok _ => failures (S i) rest
      | Raise _ => S (failures (S i) rest)
      end
  end.

Lemma successes_failures_length (i : nat) (messages : list message) :
  (length (successes i messages) + failures i messages)%nat = length messages.
Proof.
  revert i; induction messages as [|m rest IH]; intros i; simpl; [reflexivity|].
  destruct (parse i m); simpl; rewrite <- (IH (S i)); lia.
Qed.

End Retrieval.

Lemma retrieve_spec svc clock include_body basic_data messages :
  forall i emails parsing_errors,
    retrieve svc clock include_body basic_data i messages emails parsing_errors
    = (emails ++ successes
                   (fun i m => _parse_email_data svc (clock i) m include_body basic_data)
                   i messages,
       (parsing_errors
        + failures (fun i m => _parse_email_data svc (clock i) m include_body basic_data)
                   i messages)%nat).
Proof.
  induction messages as [|m rest IH]; intros i emails n; simpl.
  - now rewrite app_nil_r, Nat.add_0_r.
  - destruct (_parse_email_data svc (clock i) m include_body basic_data); rewrite IH.
    + now rewrite <- app_assoc.
    + f_equal. lia.
Qed.

(** C7.  When the listing call returns, the retrieval returns, without
    raising, exactly the records of the messages whose fetch and parse
    succeed, in order; every other message adds one to the error counter and
    is left out; and an empty match set gives the empty list. *)
Theorem retrieval_returns_parsed_subset
        (svc : service) (clock : nat -> Datetime.datetime)
        (start_date end_date : Datetime.datetime) (max_results : Z) (query_filter : list N)
        (include_body basic_data : bool) (results : option (list message)) :
  messages_list svc (query start_date end_date query_filter) max_results = Ok results ->
  let messages := match results with Some l => l | None => [] end in
  let parse := fun i m => _parse_email_data svc (clock i) m include_body basic_data in
  get_emails_by_date_range svc clock start_date end_date max_results query_filter
                           include_body basic_data
  = Ok (successes parse 1 messages)
  /\ snd (retrieve svc clock include_body basic_data 1 messages [] 0)
     = failures parse 1 messages
  /\ (length (successes parse 1 messages) + failures parse 1 messages)%nat
     = length messages
  /\ (messages = [] ->
      get_emails_by_date_range svc clock start_date end_date max_results query_filter
                               include_body basic_data = Ok []).
Proof.
  intros Hlist messages parse.
  assert (Hall : get_emails_by_date_range svc clock start_date end_date max_results
                   query_filter include_body basic_data
                 = Ok (successes parse 1 messages)).
  { unfold get_emails_by_date_range. rewrite Hlist. fold messages.
    destruct messages as [|m rest] eqn:Hm; [reflexivity|].
    rewrite retrieve_spec. reflexivity. }
  repeat split.
  - exact Hall.
  - rewrite retrieve_spec. reflexivity.
  - apply successes_failures_length.
  - intros Hnil. rewrite Hall, Hnil. reflexivity.
Qed.

(** ** A provider to run the client on *)

Definition sample_now : Datetime.datetime :=
  Datetime.mk_datetime 2024 1 15 10 30 0 0 None.

Definition sample_payload (date_header : string) : part :=
  mk_part (Some (py "multipart/alternative")) None
          (Some [leaf "text/plain" "aGk="; leaf "text/html" "PGI-aGk8L2I-"])
          (Some [(py "From", py "ann@example.com"); (py "To", py "bob@example.com");
                 (py "Subject", py "Hello"); (py "Date", py date_header)]).

Definition sample_details (date_header : string) : message_details :=
  mk_details (Some (py "t1")) (Some (py "hi there")) (Some [py "INBOX"]) (Some 2048)
             (Some (sample_payload date_header)).

(** Three messages are listed: the first has a well-formed [Date] header,
    the fetch of the second fails, the [Date] header of the third does not
    parse. *)
Definition sample_service : service :=
  mk_service
    (fun _ _ => Ok (Some [mk_message (py "m1"); mk_message (py "m2");
                          mk_message (py "m3")]))
    (fun id =>
       if str_eqb id (py "m1")
       then Ok (sample_details "Mon, 15 Jan 2024 10:30:00 -0800 (PST)")
       else if str_eqb id (py "m2") then Raise HttpError
       else Ok (sample_details "yesterday evening")).

Lemma retrieval_returns_parsed_subset_witness :
  length (successes
            (fun i m => _parse_email_data sample_service sample_now m false true)
            1 [mk_message (py "m1"); mk_message (py "m2"); mk_message (py "m3")])
  = 2%nat
  /\ get_emails_by_date_range sample_service (fun _ => sample_now) sample_now
       sample_now 10 [] false true
     = Ok (successes
             (fun i m => _parse_email_data sample_service sample_now m false true)
             1 [mk_message (py "m1"); mk_message (py "m2"); mk_message (py "m3")]).
Proof.
  split; [vm_compute; reflexivity|].
  apply (retrieval_returns_parsed_subset sample_service (fun _ => sample_now)
           sample_now sample_now 10 [] false true
           (Some [mk_message (py "m1"); mk_message (py "m2"); mk_message (py "m3")])).
  reflexivity.
Defined.

(** ** Basic records carry no body (C10) *)

Section BasicMode.

Ltac other_key := intros Hk; vm_compute in Hk; discriminate Hk.

(** The constructor of the basic model reads none of its fields from the
    key ['body']. *)
Lemma new_GMailData_ignores_body (d : gmap (list N) pyval) (v : pyval) :
  new_GMailData (<[py "body" := v]> d) = new_GMailData d.
Proof.
  unfold new_GMailData, required_str, optional_str, default_str.
  rewrite !lookup_insert_ne by other_key. reflexivity.
Qed.

End BasicMode.

(** C10.  In basic mode the request for the body changes nothing in what is
    returned: when the body can be extracted, the call with [include_body]
    returns what the call without it returns, and what either returns is a
    basic record, which has the six basic fields and no body. *)
Theorem basic_mode_drops_body
        (svc : service) (now : Datetime.datetime) (message : message)
        (md : message_details) :
  messages_get svc (msg_id message) = Ok md ->
  is_ok (_extract_email_body md) = true ->
  _parse_email_data svc now message true true
  = _parse_email_data svc now message false true
  /\ (forall e, _parse_email_data svc now message true true = Ok e ->
                exists g : GMailData, e = Basic g).
Proof.
  intros Hget Hbody.
  assert (Heq : _parse_email_data svc now message true true
                = _parse_email_data svc now message false true).
  { unfold _parse_email_data. rewrite Hget. simpl bind.
    destruct (payload md) as [pl|] eqn:Hpl; [|reflexivity]. simpl bind.
    destruct (_extract_email_body md) as [body|e]; [|discriminate Hbody].
    simpl bind. now rewrite new_GMailData_ignores_body. }
  split; [exact Heq|].
  intros e He. rewrite Heq in He. unfold _parse_email_data in He.
  rewrite Hget in He. simpl bind in He.
  destruct (payload md) as [pl|]; [|discriminate He]. simpl bind in He.
  destruct (new_GMailData _) as [g|err]; [|discriminate He].
  simpl in He. injection He as <-. now exists g.
Qed.

Lemma basic_mode_drops_body_witness :
  _parse_email_data sample_service sample_now (mk_message (py "m1")) true true
  = _parse_email_data sample_service sample_now (mk_message (py "m1")) false true
  /\ is_ok (_parse_email_data sample_service sample_now (mk_message (py "m1")) true true)
     = true.
Proof.
  split; [|vm_compute; reflexivity].
  apply (basic_mode_drops_body sample_service sample_now (mk_message (py "m1"))
           (sample_details "Mon, 15 Jan 2024 10:30:00 -0800 (PST)")).
  - reflexivity.
  - vm_compute. reflexivity.
Defined.

(** ** The calendar *)

Section Calendar.
Import Datetime.

Lemma div_mod_known (a b q r : Z) :
  0 <= r < b -> a = b * q + r -> a / b = q /\ a mod b = r.
Proof.
  intros Hr Ha. split.
  - symmetry. apply (Z.div_unique a b q r); [lia | exact Ha].
  - symmetry. apply (Z.mod_unique a b q r); [lia | exact Ha].
Qed.

(** The end of [_ord2ymd]: month and day from the offset [n] in the year. *)
Definition month_day (leapyear : bool) (n : Z) : Z * Z :=
  let month := Z.shiftr (n + 50) 5 in
  let preceding :=
    _DAYS_BEFORE_MONTH month + (if (2 <? month) && leapyear then 1 else 0) in
  if n <? preceding then
    let month := month - 1 in
    let preceding :=
      preceding - (_DAYS_IN_MONTH month
                   + (if (month =? 2) && leapyear then 1 else 0)) in
    (month, n - preceding + 1)
  else (month, n - preceding + 1).

Definition month_day_ok (leapyear : bool) (n : Z) : bool :=
  let '(mo, d) := month_day leapyear n in
  (1 <=? mo) && (mo <=? 12) && (1 <=? d)
  && (d <=? (if (mo =? 2) && leapyear then 29 else _DAYS_IN_MONTH mo))
  && (_DAYS_BEFORE_MONTH mo + (if (2 <? mo) && leapyear then 1 else 0) + d =? n + 1).

Fixpoint month_days_ok (leapyear : bool) (count : nat) (n : Z) : bool :=
  match count with
  | O => true
  | S c => month_day_ok leapyear n && month_days_ok leapyear c (n + 1)
  end.

Lemma month_days_ok_at (leapyear : bool) (count : nat) :
  forall start n,
    month_days_ok leapyear count start = true ->
    start <= n < start + Z.of_nat count -> month_day_ok leapyear n = true.
Proof.
  induction count as [|c IH]; intros start n H Hn; [lia|].
  cbn [month_days_ok] in H. apply andb_prop in H as [H0 H1].
  destruct (Z.eq_dec n start) as [->|Hne]; [exact H0|].
  apply (IH (start + 1)); [exact H1 | lia].
Qed.

Lemma month_day_spec (leapyear : bool) (n : Z) :
  0 <= n < 365 -> month_day_ok leapyear n = true.
Proof.
  intros Hn. apply (month_days_ok_at leapyear 365 0); [|lia].
  destruct leapyear; vm_compute; reflexivity.
Qed.



(** The leap years, with the year written in cycles of 400, 100 and 4. *)
Lemma is_leap_cycles (a b c e : Z) :
  0 <= a -> 0 <= b <= 3 -> 0 <= c <= 24 -> 0 <= e <= 3 ->
  _is_leap (a * 400 + 1 + b * 100 + c * 4 + e)
  = (e =? 3) && (negb (c =? 24) || (b =? 3)).
Proof.
  intros Ha Hb Hc He. unfold _is_leap.
  destruct (e =? 3) eqn:E3, (c =? 24) eqn:C24, (b =? 3) eqn:B3; simpl;
    z_bools;
    repeat match goal with
           | |- context [?x mod ?y =? 0] =>
               let T := fresh in destruct (x mod y =? 0) eqn:T
           end; simpl; try reflexivity; z_bools; exfalso;
    Z.div_mod_to_equations; lia.
Qed.

Lemma days_before_year_cycles (a b c e : Z) :
  0 <= a -> 0 <= b <= 3 -> 0 <= c <= 24 -> 0 <= e <= 3 ->
  _days_before_year (a * 400 + 1 + b * 100 + c * 4 + e)
  = 146097 * a + 36524 * b + 1461 * c + 365 * e.
Proof.
  intros Ha Hb Hc He. unfold _days_before_year. cbv zeta.
  Z.div_mod_to_equations. lia.
Qed.

(** [_ord2ymd] in terms of the cycle counts. *)
Lemma ord2ymd_unfold (n0 : Z) :
  let n := n0 - 1 in
  let n400 := n / 146097 in
  let r400 := n mod 146097 in
  let n100 := r400 / 36524 in
  let r100 := r400 mod 36524 in
  let n4 := r100 / 1461 in
  let r4 := r100 mod 1461 in
  let n1 := r4 / 365 in
  let r1 := r4 mod 365 in
  let y := n400 * 400 + 1 + n100 * 100 + n4 * 4 + n1 in
  _ord2ymd n0
  = if (n1 =? 4) || (n100 =? 4) then (y - 1, 12, 31)
    else
      let '(mo, d) :=
        month_day ((n1 =? 3) && (negb (n4 =? 24) || (n100 =? 3))) r1 in
      (y, mo, d).
Proof.
  cbv zeta. unfold _ord2ymd, month_day.
  change _DI400Y with 146097. change _DI100Y with 36524. change _DI4Y with 1461.
  cbv zeta.
  destruct (_ || _); [reflexivity|].
  destruct (_ <? _); reflexivity.
Qed.

Lemma ord2ymd_spec (n0 : Z) :
  1 <= n0 ->
  let '(y, mo, d) := _ord2ymd n0 in
  _ymd2ord y mo d = n0 /\ 1 <= y /\ 1 <= mo <= 12
  /\ 1 <= d <= _days_in_month y mo.
Proof.
  intros Hn. rewrite ord2ymd_unfold. cbv zeta.
  set (n := n0 - 1).
  set (n400 := n / 146097). set (r400 := n mod 146097).
  set (n100 := r400 / 36524). set (r100 := r400 mod 36524).
  set (n4 := r100 / 1461). set (r4 := r100 mod 1461).
  set (n1 := r4 / 365). set (r1 := r4 mod 365).
  assert (H400 : n = 146097 * n400 + r400 /\ 0 <= r400 < 146097)
    by (subst n400 r400; split; [apply Z.div_mod | apply Z.mod_pos_bound]; lia).
  assert (H100 : r400 = 36524 * n100 + r100 /\ 0 <= r100 < 36524)
    by (subst n100 r100; split; [apply Z.div_mod | apply Z.mod_pos_bound]; lia).
  assert (H4 : r100 = 1461 * n4 + r4 /\ 0 <= r4 < 1461)
    by (subst n4 r4; split; [apply Z.div_mod | apply Z.mod_pos_bound]; lia).
  assert (H1 : r4 = 365 * n1 + r1 /\ 0 <= r1 < 365)
    by (subst n1 r1; split; [apply Z.div_mod | apply Z.mod_pos_bound]; lia).
  clearbody n400 r400 n100 r100 n4 r4 n1 r1.
  assert (Hn400 : 0 <= n400) by lia.
  assert (Hn100 : 0 <= n100 <= 4) by lia.
  assert (Hn4 : 0 <= n4 <= 24) by lia.
  assert (Hn1 : 0 <= n1 <= 4) by lia.
  destruct ((n1 =? 4) || (n100 =? 4)) eqn:Hspecial.
  - (* the last day of a leap year *)
    apply orb_prop in Hspecial.
    assert (Hy : exists a b c e,
               n400 * 400 + 1 + n100 * 100 + n4 * 4 + n1 - 1
               = a * 400 + 1 + b * 100 + c * 4 + e
               /\ 0 <= a /\ 0 <= b <= 3 /\ 0 <= c <= 24 /\ e = 3
               /\ (c <> 24 \/ b = 3)
               /\ n = 146097 * a + 36524 * b + 1461 * c + 365 * e + 365).
    { destruct Hspecial as [H|H]; z_bools.
      - exists n400, n100, n4, 3. repeat split; try lia.
      - exists n400, 3, 24, 3. repeat split; try lia. }
    destruct Hy as (a & b & c & e & -> & Ha & Hb & Hc & -> & Hleap & Hval).
    unfold _ymd2ord, _days_before_month, _days_in_month.
    rewrite is_leap_cycles, days_before_year_cycles by lia.
    replace ((3 =? 3) && (negb (c =? 24) || (b =? 3))) with true.
    + change (_DAYS_BEFORE_MONTH 12) with 334. change (_DAYS_IN_MONTH 12) with 31.
      change (2 <? 12) with true. change (12 =? 2) with false. cbn [andb].
      subst n. lia.
    + symmetry. simpl. destruct Hleap as [H|H].
      * apply Z.eqb_neq in H. now rewrite H.
      * apply Z.eqb_eq in H. rewrite H. apply orb_true_r.
  - z_bools.
    pose proof (month_day_spec ((n1 =? 3) && (negb (n4 =? 24) || (n100 =? 3)))
                               r1 ltac:(lia)) as Hmd.
    unfold month_day_ok in Hmd.
    destruct (month_day _ r1) as [mo d]. z_bools.
    unfold _ymd2ord, _days_before_month, _days_in_month.
    rewrite is_leap_cycles, days_before_year_cycles by lia.
    subst n. repeat split; lia.
Qed.

End Calendar.


(** ** Dates and times that the constructor accepts *)

Section ValidDatetime.
Import Datetime.

(** What [datetime(...)] checks of its fields. *)
Definition valid_datetime (d : datetime) : Prop :=
  _check_date_fields (year d) (month d) (day d) = true
  /\ _check_time_fields (hour d) (minute d) (second d) (microsecond d) = true.

Lemma valid_fields (d : datetime) :
  valid_datetime d ->
  1 <= year d <= 9999 /\ 1 <= month d <= 12
  /\ 1 <= day d <= _days_in_month (year d) (month d)
  /\ 0 <= hour d <= 23 /\ 0 <= minute d <= 59 /\ 0 <= second d <= 59
  /\ 0 <= microsecond d <= 999999.
Proof.
  intros [Hd Ht]. unfold _check_date_fields, _check_time_fields in *.
  unfold MINYEAR, MAXYEAR in *. z_bools. lia.
Qed.

Lemma days_in_month_bounds (y mo : Z) :
  1 <= mo <= 12 ->
  28 <= _days_in_month y mo <= 31
  /\ _days_before_month y mo + _days_in_month y mo
     <= 365 + (if _is_leap y then 1 else 0)
  /\ 0 <= _days_before_month y mo.
Proof.
  intros Hmo. unfold _days_in_month, _days_before_month.
  assert (Hcases : mo = 1 \/ mo = 2 \/ mo = 3 \/ mo = 4 \/ mo = 5 \/ mo = 6
                   \/ mo = 7 \/ mo = 8 \/ mo = 9 \/ mo = 10 \/ mo = 11 \/ mo = 12)
    by lia.
  destruct (_is_leap y);
    repeat (destruct Hcases as [->|Hcases]; [vm_compute; repeat split; discriminate|]);
    subst mo; vm_compute; repeat split; discriminate.
Qed.

Lemma toordinal_bounds (d : datetime) :
  valid_datetime d -> 1 <= toordinal d <= _MAXORDINAL.
Proof.
  intros Hv. apply valid_fields in Hv as (Hy & Hmo & Hd & _).
  pose proof (days_in_month_bounds (year d) (month d) Hmo) as (Hdim & Hsum & Hdbm).
  unfold toordinal, _ymd2ord, _MAXORDINAL.
  assert (Hleap : (if _is_leap (year d) then 1 else 0) <= 1)
    by (destruct (_is_leap (year d)); lia).
  assert (Hlast : year d = 9999 -> _is_leap (year d) = false)
    by (intros ->; reflexivity).
  destruct (Z.eq_dec (year d) 9999) as [E|E].
  - rewrite (Hlast E) in Hsum. rewrite E in *.
    change (_days_before_year 9999) with 3651694. lia.
  - unfold _days_before_year. cbv zeta. Z.div_mod_to_equations. lia.
Qed.

(** Subtracting whole days moves the ordinal and keeps the time of day. *)
Lemma sub_days (now : datetime) (n : Z) :
  valid_datetime now -> 0 <= n < toordinal now ->
  exists d,
    sub now (td n 0 0) = Ok d
    /\ valid_datetime d
    /\ toordinal d = toordinal now - n
    /\ hour d = hour now /\ minute d = minute now /\ second d = second now
    /\ microsecond d = microsecond now /\ tzinfo d = tzinfo now.
Proof.
  intros Hv Hn. pose proof (toordinal_bounds now Hv) as Hord.
  pose proof (valid_fields now Hv) as (_ & _ & _ & Hh & Hmi & Hs & Hus).
  unfold sub, add.
  set (secs := hour now * 3600 + minute now * 60 + second now).
  set (delta := td (toordinal now) secs (microsecond now) + - td n 0 0).
  assert (Hdays : td_days delta = toordinal now - n
                  /\ delta mod 86400000000 = secs * 1000000 + microsecond now).
  { unfold td_days. apply div_mod_known; subst delta secs; unfold td; lia. }
  destruct Hdays as [Hdays Hrem].
  assert (Hsecs : td_seconds delta = secs /\ td_microseconds delta = microsecond now).
  { unfold td_seconds, td_microseconds. rewrite Hrem. split.
    - apply (proj1 (div_mod_known (secs * 1000000 + microsecond now) 1000000
                      secs (microsecond now) ltac:(lia) ltac:(lia))).
    - apply (proj2 (div_mod_known delta 1000000
                      ((toordinal now - n) * 86400 + secs) (microsecond now)
                      ltac:(lia) ltac:(subst delta secs; unfold td; lia))). }
  destruct Hsecs as [Hsecs Hmicro].
  rewrite Hdays, Hsecs, Hmicro.
  replace ((0 <? toordinal now - n) && (toordinal now - n <=? _MAXORDINAL)) with true
    by (symmetry; apply andb_true_intro; split;
        [apply Z.ltb_lt | apply Z.leb_le]; lia).
  pose proof (ord2ymd_spec (toordinal now - n) ltac:(lia)) as Hymd.
  destruct (_ord2ymd (toordinal now - n)) as [[y mo] d].
  destruct Hymd as (Hback & Hy & Hmo & Hd).
  assert (Hh' : secs / 3600 = hour now /\ secs mod 3600 = minute now * 60 + second now)
    by (apply div_mod_known; subst secs; lia).
  destruct Hh' as [Hh' Hrem'].
  assert (Hm' : (secs mod 3600) / 60 = minute now /\ (secs mod 3600) mod 60 = second now)
    by (rewrite Hrem'; apply div_mod_known; lia).
  destruct Hm' as [Hm' Hs'].
  rewrite Hh', Hm', Hs'.
  eexists. split; [reflexivity|]. unfold valid_datetime, toordinal.
  cbn [year month day hour minute second microsecond tzinfo].
  repeat split; try reflexivity; try exact Hback.
  - (* the date is one the constructor accepts *)
    unfold _check_date_fields, MINYEAR, MAXYEAR.
    assert (Hy9 : y <= 9999).
    { pose proof (days_in_month_bounds y mo Hmo) as (_ & _ & Hdbm).
      unfold _ymd2ord in Hback. unfold _MAXORDINAL in Hord.
      unfold _days_before_year in Hback. cbv zeta in Hback.
      Z.div_mod_to_equations. lia. }
    repeat (apply andb_true_intro; split); try apply Z.leb_le; lia.
  - destruct Hv as [_ Ht]. exact Ht.
Qed.

End ValidDatetime.

(** ** strptime raises nothing but ValueError *)

Section OnlyValueError.
Import Datetime Strptime.

Definition only_ValueError {A : Type} (r : result A) : Prop :=
  forall e, r = Raise e -> e = ValueError.

Lemma only_ValueError_bind {A B : Type} (r : result A) (k : A -> result B) :
  only_ValueError r -> (forall a, only_ValueError (k a)) ->
  only_ValueError (bind r k).
Proof.
  intros Hr Hk e. destruct r as [a|e']; simpl.
  - apply Hk.
  - intros [= <-]. now apply Hr.
Qed.

Ltac only_ve :=
  repeat first
    [ progress intros
    | match goal with
      | |- only_ValueError (Ok _) => intros ? [=]
      | |- only_ValueError (Raise ValueError) => intros ? [= <-]; reflexivity
      | |- only_ValueError (bind _ _) => apply only_ValueError_bind
      | |- only_ValueError (if ?b then _ else _) => destruct b
      | |- only_ValueError (match ?x with _ => _ end) => destruct x
      | |- only_ValueError (let '(_, _) := ?x in _) => destruct x
      end ].

Lemma int_r_only s : only_ValueError (int_r s).
Proof. unfold int_r. only_ve. Qed.

Lemma int_group_only key g : only_ValueError (int_group key g).
Proof. unfold int_group. only_ve. apply int_r_only. Qed.

Lemma name_group_only key names g : only_ValueError (name_group key names g).
Proof. unfold name_group. only_ve. Qed.

Lemma timezone_only o : only_ValueError (timezone o).
Proof. unfold timezone. only_ve. Qed.

Lemma new_datetime_only y mo d h mi s us tz :
  only_ValueError (new_datetime y mo d h mi s us tz).
Proof. unfold new_datetime. only_ve. Qed.

Lemma parse_z_only z : only_ValueError (parse_z z).
Proof.
  unfold parse_z. only_ve; try apply int_r_only.
Qed.

Lemma strptime_only (data_string format : list N) :
  only_ValueError (strptime data_string format).
Proof.
  unfold strptime. only_ve;
    first [ apply int_group_only | apply name_group_only | apply parse_z_only
          | apply timezone_only | apply new_datetime_only ].
Qed.

Lemma tzinfo_from_isoformat_results_only tz :
  only_ValueError (Isoformat.tzinfo_from_isoformat_results tz).
Proof.
  unfold Isoformat.tzinfo_from_isoformat_results. only_ve. apply timezone_only.
Qed.

Lemma fromisoformat_only (dtstr : list N) :
  only_ValueError (Isoformat.fromisoformat dtstr).
Proof.
  unfold Isoformat.fromisoformat. only_ve;
    first [apply tzinfo_from_isoformat_results_only | apply new_datetime_only].
Qed.

End OnlyValueError.

(** ** The relative-date resolver (C5) *)

Section EnsureDatetime.
Import Datetime Utils.

Lemma try_formats_first (s : list N) (before : list (list N)) fmt after d :
  (forall f, In f before -> is_ok (Strptime.strptime s f) = false) ->
  Strptime.strptime s fmt = Ok d ->
  try_formats s (before ++ fmt :: after) = Ok d.
Proof.
  intros Hbefore Hfmt. induction before as [|f before IH]; simpl.
  - now rewrite Hfmt.
  - pose proof (Hbefore f (or_introl eq_refl)) as Hf.
    pose proof (strptime_only s f) as Hve.
    destruct (Strptime.strptime s f) as [x|e]; [discriminate Hf|].
    rewrite (Hve e eq_refl). apply IH. intros g Hg. apply Hbefore. now right.
Qed.

Lemma try_formats_none (s : list N) (fmts : list (list N)) :
  (forall f, In f fmts -> is_ok (Strptime.strptime s f) = false) ->
  try_formats s fmts = Raise ValueError.
Proof.
  intros Hall. induction fmts as [|f fmts IH]; simpl; [reflexivity|].
  pose proof (Hall f (or_introl eq_refl)) as Hf.
  pose proof (strptime_only s f) as Hve.
  destruct (Strptime.strptime s f) as [x|e]; [discriminate Hf|].
  rewrite (Hve e eq_refl). apply IH. intros g Hg. apply Hall. now right.
Qed.

Definition keywords : list string :=
  ["today"; "yesterday"; "last_week"; "last_month"; "last_year"]%string.

Lemma not_keyword (now : datetime) (s : list N) :
  ~ In s (map py keywords) -> ensure_datetime now s = try_formats s formats.
Proof.
  intros Hs. unfold ensure_datetime.
  repeat match goal with
         | |- context [str_eqb s ?k] =>
             let E := fresh in
             destruct (str_eqb s k) eqn:E;
             [apply str_eqb_eq in E; exfalso; apply Hs; subst s; simpl; tauto|]
         end.
  reflexivity.
Qed.

End EnsureDatetime.

(** C5.  The five keywords give the clock's reading moved back by 0, 1, 7,
    30 and 365 days, the time of day unchanged.  Any other string goes
    through the five formats, in the order of the list: the first format that
    parses it gives the result, and when none does a [ValueError] is raised.
    So ["2024-03-01"] is 1 March 2024 at midnight and ["not-a-date"]
    raises. *)
Theorem ensure_datetime_resolves (now : Datetime.datetime) (date_string : list N) :
  valid_datetime now ->
  365 < Datetime.toordinal now ->
  Utils.ensure_datetime now (py "today") = Ok now
  /\ (forall kw days,
        In (kw, days) [("yesterday", 1); ("last_week", 7); ("last_month", 30);
                       ("last_year", 365)]%string ->
        exists d,
          Utils.ensure_datetime now (py kw) = Ok d
          /\ valid_datetime d
          /\ Datetime.toordinal d = Datetime.toordinal now - days
          /\ Datetime.hour d = Datetime.hour now
          /\ Datetime.minute d = Datetime.minute now
          /\ Datetime.second d = Datetime.second now
          /\ Datetime.microsecond d = Datetime.microsecond now
          /\ Datetime.tzinfo d = Datetime.tzinfo now)
  /\ Utils.formats = [py "%Y-%m-%d"; py "%m/%d/%Y"; py "%d/%m/%Y";
                      py "%Y-%m-%d %H:%M:%S"; py "%m/%d/%Y %H:%M:%S"]
  /\ (~ In date_string (map py keywords) ->
      (forall before fmt after d,
          Utils.formats = before ++ fmt :: after ->
          (forall f, In f before -> is_ok (Strptime.strptime date_string f) = false) ->
          Strptime.strptime date_string fmt = Ok d ->
          Utils.ensure_datetime now date_string = Ok d)
      /\ ((forall f, In f Utils.formats ->
                     is_ok (Strptime.strptime date_string f) = false) ->
          Utils.ensure_datetime now date_string = Raise ValueError))
  /\ Utils.ensure_datetime now (py "2024-03-01")
     = Ok (Datetime.mk_datetime 2024 3 1 0 0 0 0 None)
  /\ Utils.ensure_datetime now (py "not-a-date") = Raise ValueError.
Proof.
  intros Hv Hord. split; [reflexivity|]. split.
  { intros kw days Hin.
    assert (Hsub : Utils.ensure_datetime now (py kw)
                   = Datetime.sub now (Datetime.td days 0 0)
                   /\ 0 <= days <= 365).
    { simpl in Hin.
      destruct Hin as [[= <- <-]|[[= <- <-]|[[= <- <-]|[[= <- <-]|[]]]]];
        (split; [reflexivity | lia]). }
    destruct Hsub as [-> Hdays].
    apply sub_days; [exact Hv | lia]. }
  split; [reflexivity|]. split.
  { intros Hkw. split.
    - intros before fmt after d Hsplit Hbefore Hfmt.
      rewrite not_keyword by exact Hkw. rewrite Hsplit.
      now apply try_formats_first.
    - intros Hall. rewrite not_keyword by exact Hkw.
      now apply try_formats_none. }
  split; vm_compute; reflexivity.
Qed.

Lemma ensure_datetime_resolves_witness :
  Utils.ensure_datetime sample_now (py "today") = Ok sample_now
  /\ Utils.ensure_datetime sample_now (py "yesterday")
     = Ok (Datetime.mk_datetime 2024 1 14 10 30 0 0 None)
  /\ Utils.ensure_datetime sample_now (py "03/01/2024")
     = Ok (Datetime.mk_datetime 2024 3 1 0 0 0 0 None).
Proof.
  split; [|split; vm_compute; reflexivity].
  apply (ensure_datetime_resolves sample_now (py "03/01/2024")).
  - split; vm_compute; reflexivity.
  - vm_compute. reflexivity.
Defined.

(** ** The matcher *)

Section MatcherFacts.
Import Re.

(** Length of the longest prefix of [s] in the class [p]. *)
Fixpoint run_len (p : N -> bool) (s : list N) : nat :=
  match s with
  | c :: s' => if p c then S (run_len p s') else 0%nat
  | [] => 0%nat
  end.

Lemma run_len_stop (p : N -> bool) (s : list N) c rest :
  skipn (run_len p s) s = c :: rest -> p c = false.
Proof.
  induction s as [|x s IH]; simpl; [discriminate|].
  destruct (p x) eqn:Hx; simpl; [exact IH|].
  intros [= -> _]. exact Hx.
Qed.

Lemma run_len_all (p : N -> bool) (s : list N) :
  Forall (fun c => p c = true) (firstn (run_len p s) s).
Proof.
  induction s as [|x s IH]; simpl; [constructor|].
  destruct (p x) eqn:Hx; simpl; constructor; assumption.
Qed.

(** The greedy attempt: all of the run, then the continuation. *)
Lemma rep_greedy {R : Type} (p : N -> bool) (s : list N) (k : list N -> option R) x :
  forall lo,
    (lo <= run_len p s)%nat ->
    k (skipn (run_len p s) s) = Some x ->
    rep p lo None s k = Some x.
Proof.
  induction s as [|c s IH]; intros lo Hlo Hk; simpl in *.
  - destruct lo; [exact Hk | lia].
  - destruct (p c) eqn:Hc; simpl in *.
    + rewrite (IH (Nat.pred lo)); [reflexivity | lia | exact Hk].
    + destruct lo; [exact Hk | lia].
Qed.

(** What a successful repetition took: [j] characters of the class, at
    least [lo] of them, and the continuation accepted the rest. *)
Lemma rep_some {R : Type} (p : N -> bool) (s : list N) (k : list N -> option R) x :
  forall lo hi,
    rep p lo hi s k = Some x ->
    exists j, (lo <= j)%nat
              /\ Forall (fun c => p c = true) (firstn j s)
              /\ (j <= length s)%nat
              /\ k (skipn j s) = Some x.
Proof.
  induction s as [|c s IH]; intros lo hi H; simpl in H.
  - destruct lo; [|discriminate]. exists 0%nat. repeat split; simpl; auto.
  - assert (Hstop : match lo with O => k (c :: s) | S _ => None end = Some x ->
                    exists j, (lo <= j)%nat
                              /\ Forall (fun c => p c = true) (firstn j (c :: s))
                              /\ (j <= length (c :: s))%nat
                              /\ k (skipn j (c :: s)) = Some x).
    { destruct lo; [|discriminate]. intros Hk. exists 0%nat.
      repeat split; simpl; auto; lia. }
    destruct (p c && may_take hi) eqn:Hc; [|now apply Hstop].
    destruct (rep p (Nat.pred lo) (one_less hi) s k) as [y|] eqn:Hrec;
      [|now apply Hstop].
    injection H as ->. apply IH in Hrec as (j & Hj & Hall & Hlen & Hk).
    exists (S j). apply andb_prop in Hc as [Hc _].
    repeat split; simpl; auto; lia.
Qed.

Lemma sub_from_skip (r : regex) (repl s : list N) (n : nat) :
  sub_from r repl s n = sub r repl (skipn n s).
Proof.
  revert n; induction s as [|c s IH]; intros [|n]; simpl; try reflexivity.
  apply IH.
Qed.

(** One step of [re.sub]. *)
Lemma sub_step (r : regex) (repl : list N) (c : N) (s : list N) :
  sub r repl (c :: s)
  = match match_len r (c :: s) with
    | Some (S n) => repl ++ sub r repl (skipn n s)
    | _ => c :: sub r repl s
    end.
Proof.
  unfold sub at 1. cbn [sub_from].
  destruct (match_len r (c :: s)) as [[|n]|]; try reflexivity.
  now rewrite sub_from_skip.
Qed.

(** Induction on the length of a string. *)
Lemma str_length_ind (P : list N -> Prop) :
  (forall s, (forall t, (length t < length s)%nat -> P t) -> P s) ->
  forall s, P s.
Proof.
  intros Hstep s.
  assert (H : forall n t, (length t < n)%nat -> P t).
  { induction n as [|n IH]; intros t Ht; [lia|].
    apply Hstep. intros u Hu. apply IH. lia. }
  apply (H (S (length s))). lia.
Qed.

End MatcherFacts.

(** ** HTML cleanup (C8) *)

Section Tags.
Import Re.

Definition lt_ : N := chr "<".
Definition gt_ : N := chr ">".
Definition not_gt (c : N) : bool := negb (N.eqb c gt_).

Definition has_gt (s : list N) : bool := existsb (N.eqb gt_) s.

#[local] Opaque lt_ gt_.
#[local] Arguments N.eqb : simpl never.

(** What may follow a ['<'] that opens no tag: nothing, a ['>'] at once, or
    a text without ['>']. *)
Definition after_lt_ok (s : list N) : bool :=
  match s with
  | [] => true
  | c :: _ => N.eqb c gt_ || negb (has_gt s)
  end.

(** A tag starts [s]: ['<'], one character or more other than ['>'], ['>']. *)
Definition tag_at (s : list N) : bool :=
  match s with
  | c :: s' => N.eqb c lt_ && negb (after_lt_ok s')
  | [] => false
  end.

(** No tag starts anywhere in [s]. *)
Fixpoint tagfree (s : list N) : bool :=
  match s with
  | [] => true
  | _ :: s' => negb (tag_at s) && tagfree s'
  end.

Definition k_gt (s : list N) : option (list N * groups) :=
  match s with
  | c :: s' => if N.eqb gt_ c then Some (s', []) else None
  | [] => None
  end.

Lemma match_tag (s : list N) :
  match_ tag_re s
  = match s with
    | c :: s1 => if N.eqb lt_ c then rep not_gt 1 None s1 k_gt else None
    | [] => None
    end.
Proof. destruct s; reflexivity. Qed.

Lemma has_gt_skipn (j : nat) (s : list N) :
  has_gt (skipn j s) = true -> has_gt s = true.
Proof.
  revert s; induction j as [|j IH]; intros [|c s]; simpl; auto.
  intros H. rewrite (IH s H). apply orb_true_r.
Qed.

Lemma tag_at_of_match (s : list N) x : match_ tag_re s = Some x -> tag_at s = true.
Proof.
  rewrite match_tag. destruct s as [|c s1]; [discriminate|].
  destruct (N.eqb lt_ c) eqn:Hc; [|discriminate].
  intros H. apply rep_some in H as (j & Hj & Hall & Hlen & Hk).
  apply N.eqb_eq in Hc. subst c. cbn [tag_at]. rewrite N.eqb_refl. cbn [andb].
  destruct s1 as [|c2 s2]; [simpl in Hlen; lia|].
  destruct j as [|j]; [lia|]. cbn [firstn skipn] in Hall, Hk.
  inversion Hall as [|? ? Hc2 _]; subst. unfold not_gt in Hc2.
  apply negb_true_iff in Hc2. cbn [after_lt_ok]. rewrite Hc2. cbn [orb].
  rewrite negb_involutive. unfold has_gt. cbn [existsb].
  rewrite N.eqb_sym, Hc2. cbn [orb]. fold (has_gt s2).
  apply (has_gt_skipn j). unfold k_gt in Hk.
  destruct (skipn j s2) as [|c3 s3]; [discriminate|].
  destruct (N.eqb gt_ c3) eqn:Hc3; [|discriminate].
  unfold has_gt. cbn [existsb]. now rewrite Hc3.
Qed.

Lemma run_to_gt (s : list N) :
  has_gt s = true ->
  exists rest, skipn (run_len not_gt s) s = gt_ :: rest.
Proof.
  induction s as [|c s IH]; [discriminate|].
  unfold has_gt. cbn [existsb run_len]. fold (has_gt s). unfold not_gt at 1.
  destruct (N.eqb_spec gt_ c) as [<-|Hne].
  - intros _. rewrite N.eqb_refl. cbn [negb skipn]. now exists s.
  - cbn [orb]. replace (N.eqb c gt_) with false
      by (symmetry; apply N.eqb_neq; congruence).
    cbn [negb skipn]. exact IH.
Qed.

Lemma match_of_tag_at (s : list N) :
  tag_at s = true -> exists n, match_len tag_re s = Some (S n).
Proof.
  unfold match_len. rewrite match_tag. destruct s as [|c s1]; [discriminate|].
  simpl. intros H. apply andb_prop in H as [Hc Hafter].
  rewrite N.eqb_sym, Hc. apply negb_true_iff in Hafter.
  destruct s1 as [|c2 s2]; [discriminate|]. cbn [after_lt_ok] in Hafter.
  apply orb_false_elim in Hafter as [Hc2 Hgt]. apply negb_false_iff in Hgt.
  destruct (run_to_gt _ Hgt) as [rest Hrest].
  assert (Hrun : (1 <= run_len not_gt (c2 :: s2))%nat).
  { simpl. unfold not_gt. rewrite Hc2. simpl. lia. }
  rewrite (rep_greedy not_gt (c2 :: s2) k_gt (rest, [])); [| exact Hrun |].
  - exists (length (c2 :: s2) - length rest)%nat. f_equal.
    assert (Hlen : length (skipn (run_len not_gt (c2 :: s2)) (c2 :: s2))
                   = S (length rest)) by now rewrite Hrest.
    rewrite length_skipn in Hlen. cbn [length] in *. lia.
  - rewrite Hrest. simpl. now rewrite N.eqb_refl.
Qed.

(** Removing tags leaves no ['>'] where there was none. *)
Lemma sub_tag_no_gt (s : list N) :
  has_gt s = false -> sub tag_re [] s = s.
Proof.
  induction s as [|c s IH]; [reflexivity|].
  intros H. rewrite sub_step.
  destruct (match_len tag_re (c :: s)) as [[|n]|] eqn:Hm.
  - rewrite IH; [reflexivity|]. simpl in H. now apply orb_false_elim in H.
  - unfold match_len in Hm.
    destruct (match_ tag_re (c :: s)) as [[rest g]|] eqn:Hmm; [|discriminate].
    apply tag_at_of_match in Hmm. simpl in Hmm.
    apply andb_prop in Hmm as [_ Hafter]. apply negb_true_iff in Hafter.
    destruct s as [|c2 s2]; [discriminate|]. cbn [after_lt_ok] in Hafter.
    apply orb_false_elim in Hafter as [_ Hgt]. apply negb_false_iff in Hgt.
    unfold has_gt in H, Hgt. cbn [existsb] in H, Hgt.
    apply orb_false_elim in H as [_ H]. congruence.
  - rewrite IH; [reflexivity|]. simpl in H. now apply orb_false_elim in H.
Qed.

(** After the first pass no tag is left. *)
Lemma tagfree_sub_tag : forall s, tagfree (sub tag_re [] s) = true.
Proof.
  apply str_length_ind. intros [|c s] IH; [reflexivity|].
  rewrite sub_step.
  destruct (match_len tag_re (c :: s)) as [[|n]|] eqn:Hm.
  - (* no character matched: cannot happen, but the step copies [c] *)
    unfold match_len in Hm.
    destruct (match_ tag_re (c :: s)) as [[rest g]|] eqn:Hmm; [|discriminate].
    pose proof (tag_at_of_match _ _ Hmm) as Ht.
    apply match_of_tag_at in Ht as [n Hn].
    unfold match_len in Hn. rewrite Hmm in Hn. congruence.
  - simpl app. apply IH. rewrite length_skipn. simpl. lia.
  - cbn [tagfree]. rewrite IH by (simpl; lia). rewrite andb_true_r.
    apply negb_true_iff. cbn [tag_at].
    destruct (N.eqb c lt_) eqn:Hc; [|reflexivity]. simpl.
    apply negb_false_iff.
    assert (Hno : tag_at (c :: s) = false).
    { destruct (tag_at (c :: s)) eqn:Ht; [|reflexivity].
      apply match_of_tag_at in Ht as [n Hn]. congruence. }
    cbn [tag_at] in Hno. rewrite Hc in Hno. simpl in Hno.
    apply negb_false_iff in Hno.
    destruct s as [|c2 s2]; [reflexivity|]. cbn [after_lt_ok] in Hno.
    apply orb_prop in Hno as [Hc2|Hgt].
    + (* a ['>'] follows at once, and it is copied *)
      rewrite sub_step.
      replace (match_len tag_re (c2 :: s2)) with (@None nat).
      * cbn [after_lt_ok]. now rewrite Hc2.
      * symmetry. unfold match_len. rewrite match_tag.
        apply N.eqb_eq in Hc2. subst c2. reflexivity.
    + apply negb_true_iff in Hgt. rewrite sub_tag_no_gt by exact Hgt.
      cbn [after_lt_ok]. rewrite Hgt. apply orb_true_r.
Qed.

End Tags.

Section WhitespaceEdits.
Import Re.

#[local] Opaque lt_ gt_.
#[local] Arguments N.eqb : simpl never.

Abbreviation spaces w := (Forall (fun c => is_space c = true) w).

(** [ws_edit s t]: [t] is [s] with some non-empty runs of whitespace
    replaced by whitespace (possibly none). *)
Inductive ws_edit : list N -> list N -> Prop :=
| ws_nil : ws_edit [] []
| ws_copy (c : N) (s t : list N) : ws_edit s t -> ws_edit (c :: s) (c :: t)
| ws_repl (w w' s t : list N) :
    w <> [] -> spaces w -> spaces w' -> ws_edit s t ->
    ws_edit (w ++ s) (w' ++ t).

Lemma ws_edit_refl (s : list N) : ws_edit s s.
Proof. induction s; constructor; assumption. Qed.

Lemma ws_edit_app (s1 t1 s2 t2 : list N) :
  ws_edit s1 t1 -> ws_edit s2 t2 -> ws_edit (s1 ++ s2) (t1 ++ t2).
Proof.
  intros H1 H2. induction H1 as [|c s t _ IH|w w' s t Hne Hw Hw' _ IH]; simpl.
  - exact H2.
  - now constructor.
  - rewrite <- !app_assoc. now constructor.
Qed.

Lemma ws_edit_rev (s t : list N) : ws_edit s t -> ws_edit (rev s) (rev t).
Proof.
  induction 1 as [|c s t _ IH|w w' s t Hne Hw Hw' _ IH]; simpl.
  - constructor.
  - apply ws_edit_app; [exact IH | apply ws_edit_refl].
  - rewrite !rev_app_distr. apply ws_edit_app; [exact IH|].
    rewrite <- (app_nil_r (rev w)), <- (app_nil_r (rev w')).
    constructor; try apply Forall_rev; try assumption; [|constructor].
    intros Hrev. apply Hne. rewrite <- (rev_involutive w), Hrev. reflexivity.
Qed.

Lemma has_gt_app (a b : list N) : has_gt (a ++ b) = has_gt a || has_gt b.
Proof. apply existsb_app. Qed.

Lemma has_gt_spaces (w : list N) : spaces w -> has_gt w = false.
Proof.
  induction 1 as [|c w Hc _ IH]; [reflexivity|].
  unfold has_gt. cbn [existsb]. fold (has_gt w). rewrite IH, orb_false_r.
  apply N.eqb_neq. intros <-. discriminate Hc.
Qed.

Lemma ws_edit_has_gt (s t : list N) : ws_edit s t -> has_gt t = has_gt s.
Proof.
  induction 1 as [|c s t _ IH|w w' s t Hne Hw Hw' _ IH].
  - reflexivity.
  - unfold has_gt. cbn [existsb]. fold (has_gt s) (has_gt t). now rewrite IH.
  - rewrite !has_gt_app, (has_gt_spaces w Hw), (has_gt_spaces w' Hw'), IH.
    reflexivity.
Qed.

Lemma ws_edit_after_lt (s t : list N) :
  ws_edit s t -> after_lt_ok s = true -> after_lt_ok t = true.
Proof.
  intros He Hs. pose proof (ws_edit_has_gt s t He) as Hgt.
  destruct t as [|c t]; [reflexivity|]. cbn [after_lt_ok].
  destruct (N.eqb c gt_) eqn:Hc; [reflexivity|]. cbn [orb].
  rewrite Hgt. apply negb_true_iff.
  inversion He as [|c' s' t' He' E1 E2|w w' s' t' Hne Hw Hw' He' E1 E2]; subst.
  - cbn [after_lt_ok] in Hs. rewrite Hc in Hs. cbn [orb] in Hs.
    now apply negb_true_iff in Hs.
  - destruct w as [|x w]; [congruence|]. cbn [app after_lt_ok] in Hs.
    inversion Hw as [|? ? Hx _]; subst.
    replace (N.eqb x gt_) with false in Hs
      by (symmetry; apply N.eqb_neq; intros ->; discriminate Hx).
    cbn [orb] in Hs. now apply negb_true_iff in Hs.
Qed.

Lemma tagfree_spaces_app (w t : list N) :
  spaces w -> tagfree (w ++ t) = tagfree t.
Proof.
  induction 1 as [|c w Hc _ IH]; [reflexivity|].
  cbn [app tagfree tag_at]. rewrite IH.
  replace (N.eqb c lt_) with false
    by (symmetry; apply N.eqb_neq; intros ->; discriminate Hc).
  reflexivity.
Qed.

Lemma tagfree_suffix (a s : list N) : tagfree (a ++ s) = true -> tagfree s = true.
Proof.
  induction a as [|c a IH]; [auto|].
  cbn [app tagfree]. intros H. apply andb_prop in H as [_ H]. auto.
Qed.

(** Editing whitespace brings no tag. *)
Lemma ws_edit_tagfree (s t : list N) :
  ws_edit s t -> tagfree s = true -> tagfree t = true.
Proof.
  induction 1 as [|c s t He IH|w w' s t Hne Hw Hw' He IH]; intros Hs.
  - reflexivity.
  - cbn [tagfree] in *. apply andb_prop in Hs as [Hhead Hs].
    rewrite (IH Hs), andb_true_r. cbn [tag_at] in *.
    destruct (N.eqb c lt_); [|reflexivity]. cbn [andb] in *.
    rewrite negb_involutive in *. now apply (ws_edit_after_lt s t).
  - rewrite tagfree_spaces_app by assumption. apply IH.
    now apply (tagfree_suffix w).
Qed.

(** A substitution that replaces whitespace by whitespace is such an edit. *)
Lemma sub_ws_edit (r : regex) (repl : list N) :
  (forall s n, match_len r s = Some (S n) -> spaces (firstn (S n) s)) ->
  spaces repl ->
  forall s, ws_edit s (sub r repl s).
Proof.
  intros Hr Hrepl. apply str_length_ind. intros [|c s] IH; [constructor|].
  rewrite sub_step.
  destruct (match_len r (c :: s)) as [[|n]|] eqn:Hm;
    try (constructor; apply IH; simpl; lia).
  rewrite <- (firstn_skipn (S n) (c :: s)) at 1. cbn [skipn].
  constructor.
  - discriminate.
  - now apply Hr.
  - exact Hrepl.
  - apply IH. rewrite length_skipn. simpl. lia.
Qed.

Lemma lstrip_ws_edit (s : list N) : ws_edit s (lstrip s).
Proof.
  induction s as [|c s IH]; [constructor|]. cbn [lstrip].
  destruct (is_space c) eqn:Hc; [|apply ws_edit_refl].
  apply (ws_repl [c] [] s (lstrip s)); try assumption; [discriminate| |constructor].
  repeat constructor. exact Hc.
Qed.

Lemma strip_ws_edit (s : list N) : ws_edit s (strip s) /\ ws_edit (lstrip s) (strip s).
Proof.
  assert (H : ws_edit (lstrip s) (strip s)).
  { unfold strip. rewrite <- (rev_involutive (lstrip s)) at 1.
    apply ws_edit_rev, lstrip_ws_edit. }
  split; [|exact H].
  (* both steps remove whitespace at one end *)
  clear H. unfold strip.
  induction s as [|c s IH]; [constructor|]. cbn [lstrip].
  destruct (is_space c) eqn:Hc.
  - apply (ws_repl [c] [] s _); try assumption; [discriminate| |constructor].
    repeat constructor. exact Hc.
  - rewrite <- (rev_involutive (c :: s)) at 1.
    apply ws_edit_rev, lstrip_ws_edit.
Qed.

End WhitespaceEdits.

Section BlankLines.
Import Re.

#[local] Arguments N.eqb : simpl never.

Definition k_nl (s : list N) : option (list N * groups) :=
  match s with
  | c :: s' => if N.eqb 10 c then Some (s', []) else None
  | [] => None
  end.

Lemma match_blank (s : list N) :
  match_ blank_lines_re s
  = match s with
    | c :: s1 => if N.eqb 10 c then rep is_space 0 None s1 k_nl else None
    | [] => None
    end.
Proof. destruct s; reflexivity. Qed.

(** Index of the last newline in the whitespace that starts [s]. *)
Fixpoint last_nl (s : list N) : option nat :=
  match s with
  | c :: s' =>
      if is_space c then
        match last_nl s' with
        | Some j => Some (S j)
        | None => if N.eqb 10 c then Some 0%nat else None
        end
      else None
  | [] => None
  end.

(** [\s*] gives characters back until a newline can follow: the match ends
    at the last newline of the run. *)
Lemma rep_blank (s : list N) :
  rep is_space 0 None s k_nl
  = match last_nl s with
    | Some j => Some (skipn (S j) s, [])
    | None => None
    end.
Proof.
  induction s as [|c s IH]; [reflexivity|].
  cbn [rep last_nl may_take one_less Nat.pred]. rewrite andb_true_r.
  destruct (is_space c) eqn:Hc.
  - rewrite IH. destruct (last_nl s) as [j|]; [reflexivity|].
    cbn [k_nl]. destruct (N.eqb 10 c); reflexivity.
  - cbn [k_nl]. destruct (N.eqb_spec 10 c) as [<-|]; [discriminate Hc | reflexivity].
Qed.

Lemma last_nl_spec (s : list N) :
  forall j, last_nl s = Some j ->
            Forall (fun c => is_space c = true) (firstn (S j) s)
            /\ (S j <= length s)%nat
            /\ last_nl (skipn (S j) s) = None.
Proof.
  induction s as [|c s IH]; intros j; [discriminate|].
  cbn [last_nl]. destruct (is_space c) eqn:Hc; [|discriminate].
  destruct (last_nl s) as [i|] eqn:Hs.
  - intros [= <-]. destruct (IH i eq_refl) as (Hall & Hlen & Hrest).
    repeat split.
    + cbn [firstn]. now constructor.
    + simpl. lia.
    + exact Hrest.
  - destruct (N.eqb 10 c); [|discriminate]. intros [= <-].
    repeat split.
    + repeat constructor. exact Hc.
    + simpl. lia.
    + exact Hs.
Qed.

Lemma match_len_blank (c : N) (s : list N) :
  match_len blank_lines_re (c :: s)
  = if N.eqb 10 c
    then match last_nl s with Some j => Some (S (S j)) | None => None end
    else None.
Proof.
  unfold match_len. rewrite match_blank.
  destruct (N.eqb 10 c); [|reflexivity]. rewrite rep_blank.
  destruct (last_nl s) as [j|] eqn:Hj; [|reflexivity].
  apply last_nl_spec in Hj as (_ & Hlen & _).
  f_equal. rewrite length_skipn. simpl length. lia.
Qed.

Lemma blank_match_spaces (s : list N) (n : nat) :
  match_len blank_lines_re s = Some (S n) ->
  Forall (fun c => is_space c = true) (firstn (S n) s).
Proof.
  destruct s as [|c s]; [discriminate|]. rewrite match_len_blank.
  destruct (N.eqb_spec 10 c) as [<-|]; [|discriminate].
  destruct (last_nl s) as [j|] eqn:Hj; [|discriminate].
  intros [= <-]. apply last_nl_spec in Hj as (Hall & _ & _).
  cbn [firstn]. constructor; [reflexivity | exact Hall].
Qed.









End BlankLines.

Section SpaceRuns.
Import Re.

#[local] Arguments N.eqb : simpl never.

Definition is_sp (c : N) : bool := N.eqb (chr " ") c.

Lemma match_spaces (s : list N) :
  match_ spaces_re s = rep is_sp 1 None s (fun s' => Some (s', [])).
Proof. reflexivity. Qed.

Lemma match_len_spaces (s : list N) :
  match_len spaces_re s
  = match run_len is_sp s with
    | O => None
    | S n => Some (S n)
    end.
Proof.
  unfold match_len. rewrite match_spaces.
  destruct (run_len is_sp s) as [|n] eqn:Hrun.
  - destruct (rep is_sp 1 None s _) as [[rest g]|] eqn:Hrep; [|reflexivity].
    apply rep_some in Hrep as (j & Hj & Hall & Hlen & _).
    destruct j as [|j]; [lia|]. destruct s as [|c s]; [simpl in Hlen; lia|].
    cbn [firstn] in Hall. inversion Hall as [|? ? Hc _]; subst.
    cbn [run_len] in Hrun. rewrite Hc in Hrun. discriminate.
  - rewrite (rep_greedy is_sp s _ (skipn (run_len is_sp s) s, []));
      [| lia | reflexivity].
    f_equal. rewrite length_skipn, Hrun.
    assert (Hle : (run_len is_sp s <= length s)%nat).
    { clear. induction s as [|c s IH]; simpl; [lia|].
      destruct (is_sp c); simpl; lia. }
    lia.
Qed.

(** One step of the third pass. *)
Lemma sub_spaces_step (c : N) (s : list N) :
  sub spaces_re (py " ") (c :: s)
  = if is_sp c then chr " " :: sub spaces_re (py " ") (skipn (run_len is_sp s) s)
    else c :: sub spaces_re (py " ") s.
Proof.
  rewrite sub_step, match_len_spaces. cbn [run_len].
  destruct (is_sp c); reflexivity.
Qed.

Lemma spaces_match_spaces (s : list N) (n : nat) :
  match_len spaces_re s = Some (S n) ->
  Forall (fun c => is_space c = true) (firstn (S n) s).
Proof.
  rewrite match_len_spaces.
  destruct (run_len is_sp s) as [|r] eqn:Hrun; [discriminate|].
  intros [= <-]. rewrite <- Hrun.
  eapply List.Forall_impl; [|apply run_len_all].
  intros c Hc. unfold is_sp in Hc. apply N.eqb_eq in Hc. now subst c.
Qed.

(** The text starts with a space. *)
Definition starts_sp (s : list N) : bool :=
  match s with
  | c :: _ => is_sp c
  | [] => false
  end.

(** No space follows a space. *)
Fixpoint no_double (s : list N) : bool :=
  match s with
  | [] => true
  | c :: s' => negb (is_sp c && starts_sp s') && no_double s'
  end.

Lemma starts_sp_sub (s : list N) :
  starts_sp (sub spaces_re (py " ") s) = starts_sp s.
Proof.
  destruct s as [|c s]; [reflexivity|]. rewrite sub_spaces_step.
  destruct (is_sp c) eqn:Hc; cbn [starts_sp]; rewrite Hc; reflexivity.
Qed.

Lemma no_double_sub : forall s, no_double (sub spaces_re (py " ") s) = true.
Proof.
  apply str_length_ind. intros [|c s] IH; [reflexivity|].
  rewrite sub_spaces_step. destruct (is_sp c) eqn:Hc; cbn [no_double].
  - rewrite IH by (rewrite length_skipn; simpl; lia). rewrite andb_true_r.
    rewrite starts_sp_sub.
    destruct (skipn (run_len is_sp s) s) as [|x rest] eqn:Hrest.
    + now rewrite andb_false_r.
    + cbn [starts_sp]. rewrite (run_len_stop is_sp s x rest Hrest).
      now rewrite andb_false_r.
  - rewrite Hc, IH by (simpl; lia). reflexivity.
Qed.



Lemma no_double_suffix (a s : list N) : no_double (a ++ s) = true -> no_double s = true.
Proof.
  induction a as [|c a IH]; [auto|]. cbn [app no_double].
  intros H. apply andb_prop in H as [_ H]. auto.
Qed.

Lemma no_double_prefix (a s : list N) : no_double (a ++ s) = true -> no_double a = true.
Proof.
  induction a as [|c a IH]; [reflexivity|]. cbn [app no_double].
  intros H. apply andb_prop in H as [Hc H]. rewrite (IH H), andb_true_r.
  destruct (is_sp c); [|reflexivity]. cbn [andb] in *.
  destruct a as [|x a]; [reflexivity | exact Hc].
Qed.


End SpaceRuns.

Section Strip.

Lemma lstrip_suffix (s : list N) : exists a, s = a ++ lstrip s.
Proof.
  induction s as [|c s [a IH]]; [now exists []|]. cbn [lstrip].
  destruct (is_space c).
  - exists (c :: a). simpl. now rewrite <- IH.
  - now exists [].
Qed.

Lemma lstrip_head (s : list N) c rest : lstrip s = c :: rest -> is_space c = false.
Proof.
  induction s as [|x s IH]; [discriminate|]. cbn [lstrip].
  destruct (is_space x) eqn:Hx; [exact IH|]. now intros [= <- _].
Qed.

(** [strip s] is a piece of [s]. *)
Lemma strip_infix (s : list N) : exists a b, s = a ++ strip s ++ b.
Proof.
  destruct (lstrip_suffix s) as [a Ha].
  destruct (lstrip_suffix (rev (lstrip s))) as [b Hb].
  exists a, (rev b). unfold strip. rewrite <- rev_app_distr, <- Hb, rev_involutive.
  exact Ha.
Qed.

Lemma strip_first (s : list N) c rest : strip s = c :: rest -> is_space c = false.
Proof.
  intros H. destruct (lstrip_suffix (rev (lstrip s))) as [b Hb].
  apply (f_equal (@rev N)) in Hb. rewrite rev_involutive, rev_app_distr in Hb.
  fold (strip s) in Hb. rewrite H in Hb. simpl in Hb.
  now apply (lstrip_head s c (rest ++ rev b)).
Qed.

Lemma strip_last (s : list N) init c : strip s = init ++ [c] -> is_space c = false.
Proof.
  unfold strip. intros H. apply (f_equal (@rev N)) in H.
  rewrite rev_involutive, rev_app_distr in H. simpl in H.
  now apply (lstrip_head _ _ _ H).
Qed.

End Strip.

Section CleanHtml.
Import Re.

Lemma clean_html_passes (s : list N) :
  _clean_html s
  = strip (sub spaces_re (py " ")
             (sub blank_lines_re [10%N; 10%N] (sub tag_re [] s))).
Proof. destruct s; reflexivity. Qed.

Lemma clean_html_tagfree (s : list N) : tagfree (_clean_html s) = true.
Proof.
  rewrite clean_html_passes.
  eapply ws_edit_tagfree; [apply (proj1 (strip_ws_edit _))|].
  eapply ws_edit_tagfree;
    [apply sub_ws_edit; [apply spaces_match_spaces | repeat constructor]|].
  eapply ws_edit_tagfree;
    [apply sub_ws_edit; [apply blank_match_spaces | repeat constructor]|].
  apply tagfree_sub_tag.
Qed.


Lemma clean_html_no_double (s : list N) : no_double (_clean_html s) = true.
Proof.
  rewrite clean_html_passes.
  set (x := sub spaces_re (py " ") _).
  destruct (strip_infix x) as (a & b & Hx).
  assert (H : no_double x = true) by apply no_double_sub.
  rewrite Hx in H. apply no_double_suffix in H. now apply no_double_prefix in H.
Qed.

End CleanHtml.

(** ** Decimal digits *)

Section Digits.

Lemma digit_cases (d : Z) :
  0 <= d <= 9 ->
  d = 0 \/ d = 1 \/ d = 2 \/ d = 3 \/ d = 4 \/ d = 5 \/ d = 6 \/ d = 7 \/ d = 8
  \/ d = 9.
Proof. lia. Qed.

Ltac each_digit H :=
  apply digit_cases in H;
  repeat (destruct H as [->|H]; [vm_compute; try reflexivity; auto|]);
  subst; vm_compute; try reflexivity; auto.

Lemma digit_char_is_digit (d : Z) : 0 <= d <= 9 -> is_digit (digit_char d) = true.
Proof. intros H. each_digit H. Qed.

Lemma digit_char_ascii_digit (d : Z) :
  0 <= d <= 9 -> is_ascii_digit (digit_char d) = true.
Proof. intros H. each_digit H. Qed.

Lemma digit_char_value (d : Z) :
  0 <= d <= 9 -> decimal_value (digit_char d) = Some d.
Proof. intros H. each_digit H. Qed.

Lemma digit_char_code (d : Z) : 0 <= d <= 9 -> Z.of_N (digit_char d - 48) = d.
Proof. intros H. each_digit H. Qed.

Lemma digit_char_not_space (d : Z) : 0 <= d <= 9 -> is_space (digit_char d) = false.
Proof. intros H. each_digit H. Qed.

(** A digit is none of the characters the parsers look for. *)
Lemma digit_char_neq (d : Z) (c : N) :
  0 <= d <= 9 -> (c < 48 \/ 57 < c)%N ->
  N.eqb (digit_char d) c = false /\ N.eqb c (digit_char d) = false.
Proof.
  intros H Hc. unfold digit_char.
  split; apply N.eqb_neq; lia.
Qed.

Lemma mod10_digit (n : Z) : 0 <= n mod 10 <= 9.
Proof. pose proof (Z.mod_pos_bound n 10 ltac:(lia)). lia. Qed.

Lemma zero_pad_2 (v : Z) :
  0 <= v < 100 ->
  zero_pad 2 v = [digit_char (v / 10); digit_char (v mod 10)].
Proof.
  intros Hv. unfold zero_pad. change (10 ^ Z.of_nat 2) with 100.
  replace (v <? 100) with true by (symmetry; apply Z.ltb_lt; lia).
  cbn [seq rev app map]. change (10 ^ Z.of_nat 1) with 10.
  change (10 ^ Z.of_nat 0) with 1. rewrite Z.div_1_r.
  rewrite (Z.mod_small (v / 10)); [reflexivity|].
  split; [apply Z.div_pos; lia | apply Z.div_lt_upper_bound; lia].
Qed.

Lemma zero_pad_4 (v : Z) :
  0 <= v < 10000 ->
  zero_pad 4 v
  = [digit_char (v / 1000); digit_char (v / 100 mod 10);
     digit_char (v / 10 mod 10); digit_char (v mod 10)].
Proof.
  intros Hv. unfold zero_pad. change (10 ^ Z.of_nat 4) with 10000.
  replace (v <? 10000) with true by (symmetry; apply Z.ltb_lt; lia).
  cbn [seq rev app map]. change (10 ^ Z.of_nat 3) with 1000.
  change (10 ^ Z.of_nat 2) with 100. change (10 ^ Z.of_nat 1) with 10.
  change (10 ^ Z.of_nat 0) with 1. rewrite Z.div_1_r.
  rewrite (Z.mod_small (v / 1000)); [reflexivity|].
  split; [apply Z.div_pos; lia | apply Z.div_lt_upper_bound; lia].
Qed.

Lemma zero_pad_6 (v : Z) :
  0 <= v < 1000000 ->
  zero_pad 6 v
  = [digit_char (v / 100000); digit_char (v / 10000 mod 10);
     digit_char (v / 1000 mod 10); digit_char (v / 100 mod 10);
     digit_char (v / 10 mod 10); digit_char (v mod 10)].
Proof.
  intros Hv. unfold zero_pad. change (10 ^ Z.of_nat 6) with 1000000.
  replace (v <? 1000000) with true by (symmetry; apply Z.ltb_lt; lia).
  cbn [seq rev app map]. change (10 ^ Z.of_nat 5) with 100000.
  change (10 ^ Z.of_nat 4) with 10000. change (10 ^ Z.of_nat 3) with 1000.
  change (10 ^ Z.of_nat 2) with 100. change (10 ^ Z.of_nat 1) with 10.
  change (10 ^ Z.of_nat 0) with 1. rewrite Z.div_1_r.
  rewrite (Z.mod_small (v / 100000)); [reflexivity|].
  split; [apply Z.div_pos; lia | apply Z.div_lt_upper_bound; lia].
Qed.

(** A year of four digits is written as it is padded. *)
Lemma decimal_4 (v : Z) : 1000 <= v < 10000 -> decimal v = zero_pad 4 v.
Proof.
  intros Hv. rewrite zero_pad_4 by lia. unfold decimal.
  assert (Hlog : 9 <= Z.log2 v < 14).
  { split.
    - change 9 with (Z.log2 512). apply Z.log2_le_mono. lia.
    - apply Z.log2_lt_pow2; [lia|]. change (2 ^ 14) with 16384. lia. }
  assert (Hfuel : exists f, S (Z.to_nat (Z.log2 v)) = S (S (S (S f)))).
  { exists (Z.to_nat (Z.log2 v) - 3)%nat. lia. }
  destruct Hfuel as [f ->]. cbn [digits_of].
  replace (v <? 10) with false by (symmetry; apply Z.ltb_ge; lia).
  replace (v / 10 <? 10) with false
    by (symmetry; apply Z.ltb_ge; apply Z.div_le_lower_bound; lia).
  replace (v / 10 / 10 <? 10) with false
    by (symmetry; apply Z.ltb_ge; rewrite Z.div_div by lia;
        apply Z.div_le_lower_bound; lia).
  replace (v / 10 / 10 / 10 <? 10) with true
    by (symmetry; apply Z.ltb_lt; rewrite !Z.div_div by lia;
        apply Z.div_lt_upper_bound; lia).
  rewrite !Z.div_div by lia. change (10 * 10 * 10) with 1000.
  change (10 * 10) with 100.
  rewrite (Z.mod_small (v / 1000)); [reflexivity|].
  split; [apply Z.div_pos; lia | apply Z.div_lt_upper_bound; lia].
Qed.

(** [strip] leaves a text without whitespace as it is. *)
Lemma strip_no_space (s : list N) :
  Forall (fun c => is_space c = false) s -> strip s = s.
Proof.
  intros H.
  assert (Hl : forall t, Forall (fun c => is_space c = false) t -> lstrip t = t).
  { intros [|c t] Ht; [reflexivity|]. inversion Ht as [|? ? Hc _]; subst.
    cbn [lstrip]. now rewrite Hc. }
  unfold strip. rewrite (Hl s H), Hl by now apply Forall_rev.
  apply rev_involutive.
Qed.

Lemma int_2 (v : Z) : 0 <= v < 100 -> int_ (zero_pad 2 v) = Some v.
Proof.
  intros Hv. rewrite zero_pad_2 by exact Hv.
  assert (H1 : 0 <= v / 10 <= 9)
    by (split; [apply Z.div_pos; lia | apply Z.lt_succ_r, Z.div_lt_upper_bound; lia]).
  pose proof (mod10_digit v) as H0.
  unfold int_. rewrite strip_no_space
    by (repeat constructor; now apply digit_char_not_space).
  cbn [digits_value]. rewrite !digit_char_value by assumption.
  f_equal. Z.div_mod_to_equations. lia.
Qed.

Lemma int_4 (v : Z) : 0 <= v < 10000 -> int_ (zero_pad 4 v) = Some v.
Proof.
  intros Hv. rewrite zero_pad_4 by exact Hv.
  assert (H3 : 0 <= v / 1000 <= 9)
    by (split; [apply Z.div_pos; lia | apply Z.lt_succ_r, Z.div_lt_upper_bound; lia]).
  pose proof (mod10_digit (v / 100)) as H2.
  pose proof (mod10_digit (v / 10)) as H1.
  pose proof (mod10_digit v) as H0.
  unfold int_. rewrite strip_no_space
    by (repeat constructor; now apply digit_char_not_space).
  cbn [digits_value]. rewrite !digit_char_value by assumption.
  f_equal. Z.div_mod_to_equations. lia.
Qed.

End Digits.

(** ** strptime on a readable date (C4) *)

Section StrptimeReadable.
Import Re Strptime Datetime.

(** The text [YYYY-MM-DD HH:MM:SS] of six fields. *)
Definition readable (y mo d h mi s : Z) : list N :=
  zero_pad 4 y ++ py "-" ++ zero_pad 2 mo ++ py "-" ++ zero_pad 2 d ++ py " "
  ++ zero_pad 2 h ++ py ":" ++ zero_pad 2 mi ++ py ":" ++ zero_pad 2 s.

(** The regex [r] matches [pre] at its first attempt, whatever follows, and
    records it under [name]. *)
Definition captures (r : regex) (name : N) (pre : list N) : Prop :=
  forall (R : Type) (s' : list N) (g : groups)
         (k : list N -> groups -> option R) (x : R),
    k s' ((name, pre) :: g) = Some x -> m r (pre ++ s') g k = Some x.

Lemma firstn_prefix (pre s' : list N) :
  firstn (length (pre ++ s') - length s') (pre ++ s') = pre.
Proof.
  rewrite length_app. replace (length pre + length s' - length s')%nat
    with (length pre) by lia.
  rewrite firstn_app, Nat.sub_diag, firstn_all. simpl. apply app_nil_r.
Qed.

(** The same without a group. *)
Definition takes (r : regex) (pre : list N) : Prop :=
  forall (R : Type) (s' : list N) (g : groups)
         (k : list N -> groups -> option R) (x : R),
    k s' g = Some x -> m r (pre ++ s') g k = Some x.

Lemma captures_of_takes (name : N) (r : regex) (pre : list N) :
  takes r pre -> captures (Grp name r) name pre.
Proof.
  intros Ht R s' g k x H. cbn [m]. apply Ht. now rewrite firstn_prefix.
Qed.

Ltac run_match :=
  let H := fresh in
  intros ? ? ? ? ? H; vm_compute; rewrite H; reflexivity.

Lemma values_upto (n v : Z) (l : list Z) :
  l = map Z.of_nat (List.seq 0 (Z.to_nat n)) -> 0 <= v < n -> In v l.
Proof.
  intros -> Hv. apply in_map_iff. exists (Z.to_nat v).
  split; [lia|]. apply in_seq. lia.
Qed.

Ltac each_value v n :=
  let H := fresh in
  assert (H : In v (map Z.of_nat (List.seq 0 n)))
    by (apply (values_upto (Z.of_nat n)); [reflexivity | lia]);
  cbn [List.seq map In] in H;
  repeat (destruct H as [<-|H]; [first [lia | run_match]|]);
  destruct H.

Lemma captures_m (v : Z) : 1 <= v <= 12 -> captures re_m (chr "m") (zero_pad 2 v).
Proof. intros Hv. apply captures_of_takes. each_value v 13%nat. Qed.

Lemma captures_d (v : Z) : 1 <= v <= 31 -> captures re_d (chr "d") (zero_pad 2 v).
Proof. intros Hv. apply captures_of_takes. each_value v 32%nat. Qed.

Lemma captures_H (v : Z) : 0 <= v <= 23 -> captures re_H (chr "H") (zero_pad 2 v).
Proof. intros Hv. apply captures_of_takes. each_value v 24%nat. Qed.

Lemma captures_M (v : Z) : 0 <= v <= 59 -> captures re_M (chr "M") (zero_pad 2 v).
Proof. intros Hv. apply captures_of_takes. each_value v 60%nat. Qed.

Lemma captures_S (v : Z) : 0 <= v <= 59 -> captures re_S (chr "S") (zero_pad 2 v).
Proof. intros Hv. apply captures_of_takes. each_value v 60%nat. Qed.

Lemma div_digit (v a b : Z) : 0 <= v < a * b -> 0 < a -> 0 <= v / a <= b - 1.
Proof.
  intros Hv Ha. split; [apply Z.div_pos; lia|].
  apply Z.lt_succ_r. replace (Z.succ (b - 1)) with b by lia.
  apply Z.div_lt_upper_bound; lia.
Qed.

Lemma captures_Y (v : Z) : 0 <= v < 10000 -> captures re_Y (chr "Y") (zero_pad 4 v).
Proof.
  intros Hv. rewrite zero_pad_4 by exact Hv. apply captures_of_takes.
  intros R s' g k x H. unfold dig. cbn [seq m app].
  rewrite !digit_char_is_digit;
    first [exact H | apply mod10_digit | apply (div_digit v 1000 10); lia].
Qed.

Lemma literal_step {R : Type} (c : N) (s' : list N) (g : groups)
      (k : list N -> groups -> option R) :
  m (ichr c) (c :: s') g k = k s' g.
Proof. cbn [m ichr]. now rewrite N.eqb_refl. Qed.

Lemma space_step {R : Type} (c : N) (s' : list N) (g : groups)
      (k : list N -> groups -> option R) (x : R) :
  is_space c = false -> k (c :: s') g = Some x ->
  m (plus is_space) (chr " " :: c :: s') g k = Some x.
Proof.
  intros Hc H. unfold plus. cbn [m rep may_take one_less Nat.pred].
  change (is_space (chr " ")) with true. rewrite Hc. cbn [andb]. now rewrite H.
Qed.

Definition readable_format : list N := py "%Y-%m-%d %H:%M:%S".

Definition readable_regex : regex :=
  Cat re_Y (Cat (ichr (chr "-")) (Cat re_m (Cat (ichr (chr "-")) (Cat re_d
  (Cat (plus is_space) (Cat re_H (Cat (ichr (chr ":")) (Cat re_M
  (Cat (ichr (chr ":")) (Cat re_S Eps)))))))))).

Lemma pattern_readable : pattern readable_format = Some readable_regex.
Proof. reflexivity. Qed.

Lemma match_readable (y mo d h mi s : Z) :
  0 <= y < 10000 -> 1 <= mo <= 12 -> 1 <= d <= 31 ->
  0 <= h <= 23 -> 0 <= mi <= 59 -> 0 <= s <= 59 ->
  match_ readable_regex (readable y mo d h mi s)
  = Some ([], [(chr "S", zero_pad 2 s); (chr "M", zero_pad 2 mi);
               (chr "H", zero_pad 2 h); (chr "d", zero_pad 2 d);
               (chr "m", zero_pad 2 mo); (chr "Y", zero_pad 4 y)]).
Proof.
  intros Hy Hmo Hd Hh Hmi Hs. unfold match_, readable, readable_regex.
  cbn [m]. apply captures_Y; [exact Hy|].
  change (py "-" ++ ?t) with (chr "-" :: t). rewrite literal_step.
  apply captures_m; [exact Hmo|].
  change (py "-" ++ ?t) with (chr "-" :: t). rewrite literal_step.
  apply captures_d; [exact Hd|].
  change (py " " ++ ?t) with (chr " " :: t).
  rewrite (zero_pad_2 h) at 1 by lia. cbn [app].
  apply space_step.
  { apply digit_char_not_space, (div_digit h 10 10); lia. }
  change (digit_char (h / 10) :: digit_char (h mod 10) :: ?t)
    with ([digit_char (h / 10); digit_char (h mod 10)] ++ t).
  rewrite <- (zero_pad_2 h) by lia.
  apply captures_H; [exact Hh|].
  change (py ":" ++ ?t) with (chr ":" :: t). rewrite literal_step.
  apply captures_M; [exact Hmi|].
  change (py ":" ++ ?t) with (chr ":" :: t). rewrite literal_step.
  rewrite <- (app_nil_r (zero_pad 2 s)) at 1.
  apply captures_S; [exact Hs|]. reflexivity.
Qed.

(** [strptime] reads a readable date back. *)
Lemma strptime_readable (y mo d h mi s : Z) :
  _check_date_fields y mo d = true -> _check_time_fields h mi s 0 = true ->
  strptime (readable y mo d h mi s) readable_format
  = Ok (mk_datetime y mo d h mi s 0 None).
Proof.
  intros Hdate Htime.
  assert (Hr : 1 <= y <= 9999 /\ 1 <= mo <= 12 /\ 1 <= d <= _days_in_month y mo
               /\ 0 <= h <= 23 /\ 0 <= mi <= 59 /\ 0 <= s <= 59).
  { unfold _check_date_fields, _check_time_fields, MINYEAR, MAXYEAR in *.
    z_bools. lia. }
  destruct Hr as (Hy & Hmo & Hd & Hh & Hmi & Hs).
  pose proof (days_in_month_bounds y mo Hmo) as (Hdim & _ & _).
  unfold strptime. rewrite pattern_readable, match_readable by lia.
  cbn [truthy]. unfold int_group, name_group, int_r. cbn [group].
  repeat match goal with
         | |- context [N.eqb (chr ?a) (chr ?b)] =>
             let v := eval vm_compute in (N.eqb (chr a) (chr b)) in
             change (N.eqb (chr a) (chr b)) with v
         end.
  cbn iota. rewrite int_4, !int_2 by lia. cbn [bind default].
  rewrite Hdate. cbn [negb]. unfold new_datetime. rewrite Hdate, Htime.
  reflexivity.
Qed.

End StrptimeReadable.



Lemma validate_readable_date_result (v : list N) :
  match Strptime.strptime v readable_format with
  | Ok _ => validate_readable_date v = Ok v
  | Raise _ => validate_readable_date v = Raise ValidationError
  end.
Proof.
  unfold validate_readable_date, validator. fold readable_format.
  pose proof (strptime_only v readable_format) as Hve.
  destruct (Strptime.strptime v readable_format) as [x|e]; [reflexivity|].
  now rewrite (Hve e eq_refl).
Qed.




(** ** fromisoformat reads what isoformat writes (C3, C6) *)

Section IsoRoundTrip.
Import Datetime Isoformat.

(** The decimal digits of a field of two, four and six places. *)
Definition digits2 (v : Z) : list Z := [v / 10; v mod 10].
Definition digits4 (v : Z) : list Z :=
  [v / 1000; v / 100 mod 10; v / 10 mod 10; v mod 10].
Definition digits6 (v : Z) : list Z :=
  [v / 100000; v / 10000 mod 10; v / 1000 mod 10; v / 100 mod 10;
   v / 10 mod 10; v mod 10].

Definition digits_val (ds : list Z) (acc : Z) : Z :=
  fold_left (fun v d => v * 10 + d) ds acc.

Definition all_digits (ds : list Z) : Prop := Forall (fun d => 0 <= d <= 9) ds.

(** The buffer holds the digits [ds] from position [p] on. *)
Fixpoint digits_at (buf : list N) (p : nat) (ds : list Z) : Prop :=
  match ds with
  | [] => True
  | d :: ds' => byte_at buf p = digit_char d /\ digits_at buf (S p) ds'
  end.

Lemma first_digit (v a : Z) : 0 <= v < a * 10 -> 0 < a -> 0 <= v / a <= 9.
Proof. intros Hv Ha. apply (div_digit v a 10); lia. Qed.

Lemma digits2_ok (v : Z) :
  0 <= v < 100 -> all_digits (digits2 v) /\ digits_val (digits2 v) 0 = v.
Proof.
  intros Hv. split.
  - repeat constructor; first [apply mod10_digit | apply first_digit; lia].
  - unfold digits_val, digits2. cbn [fold_left]. Z.div_mod_to_equations. lia.
Qed.

Lemma digits4_ok (v : Z) :
  0 <= v < 10000 -> all_digits (digits4 v) /\ digits_val (digits4 v) 0 = v.
Proof.
  intros Hv. split.
  - repeat constructor; first [apply mod10_digit | apply first_digit; lia].
  - unfold digits_val, digits4. cbn [fold_left].
    pose proof (Z.div_mod v 10 ltac:(lia)) as E1.
    pose proof (Z.div_mod (v / 10) 10 ltac:(lia)) as E2.
    pose proof (Z.div_mod (v / 100) 10 ltac:(lia)) as E3.
    rewrite Z.div_div in E2 by lia. change (10 * 10) with 100 in E2.
    replace (v / 100 / 10) with (v / 1000) in E3
      by (rewrite Z.div_div by lia; reflexivity).
    lia.
Qed.

Lemma digits6_ok (v : Z) :
  0 <= v < 1000000 -> all_digits (digits6 v) /\ digits_val (digits6 v) 0 = v.
Proof.
  intros Hv. split.
  - repeat constructor; first [apply mod10_digit | apply first_digit; lia].
  - unfold digits_val, digits6. cbn [fold_left].
    pose proof (Z.div_mod v 10 ltac:(lia)) as E1.
    pose proof (Z.div_mod (v / 10) 10 ltac:(lia)) as E2.
    pose proof (Z.div_mod (v / 100) 10 ltac:(lia)) as E3.
    pose proof (Z.div_mod (v / 1000) 10 ltac:(lia)) as E4.
    pose proof (Z.div_mod (v / 10000) 10 ltac:(lia)) as E5.
    rewrite Z.div_div in E2 by lia. change (10 * 10) with 100 in E2.
    replace (v / 100 / 10) with (v / 1000) in E3
      by (rewrite Z.div_div by lia; reflexivity).
    replace (v / 1000 / 10) with (v / 10000) in E4
      by (rewrite Z.div_div by lia; reflexivity).
    replace (v / 10000 / 10) with (v / 100000) in E5
      by (rewrite Z.div_div by lia; reflexivity).
    lia.
Qed.

Lemma parse_digits_at (buf : list N) (ds : list Z) :
  forall p acc,
    all_digits ds -> digits_at buf p ds ->
    parse_digits buf p acc (length ds)
    = Some ((length ds + p)%nat, digits_val ds acc).
Proof.
  induction ds as [|d ds IH]; intros p acc Hd H; [reflexivity|].
  destruct H as [Hb H]. inversion Hd as [|? ? Hd1 Hd2]; subst.
  cbn [length parse_digits]. rewrite Hb.
  rewrite digit_char_ascii_digit, digit_char_code by assumption.
  rewrite IH by assumption. unfold digits_val. cbn [fold_left].
  do 2 f_equal. lia.
Qed.


(** Two digits at [p] are read as the value they write. *)
Lemma parse_two (buf : list N) (p : nat) (v : Z) :
  0 <= v < 100 -> digits_at buf p (digits2 v) ->
  parse_digits buf p 0 2 = Some (S (S p), v).
Proof.
  intros Hv H. destruct (digits2_ok v Hv) as [Hd Hval].
  change (parse_digits buf p 0 2)
    with (parse_digits buf p 0 (length (digits2 v))).
  rewrite (parse_digits_at buf (digits2 v) p 0 Hd H). now rewrite Hval.
Qed.

(** The three shapes of a time or an offset: [HH:MM], [HH:MM:SS] and
    [HH:MM:SS.ffffff], written from position [p] on. *)
Definition hm_at (buf : list N) (p : nat) (h mi : Z) : Prop :=
  digits_at buf p (digits2 h) /\ byte_at buf (2 + p) = chr ":"
  /\ digits_at buf (3 + p) (digits2 mi).

Definition hms_at (buf : list N) (p : nat) (h mi s : Z) : Prop :=
  hm_at buf p h mi /\ byte_at buf (5 + p) = chr ":"
  /\ digits_at buf (6 + p) (digits2 s).

Definition hmsf_at (buf : list N) (p : nat) (h mi s us : Z) : Prop :=
  hms_at buf p h mi s /\ byte_at buf (8 + p) = chr "."
  /\ digits_at buf (9 + p) (digits6 us).

Ltac nat_tests :=
  repeat match goal with
         | |- context [(?a <=? ?b)%nat] =>
             first [ replace (a <=? b)%nat with true
                       by (symmetry; apply Nat.leb_le; lia)
                   | replace (a <=? b)%nat with false
                       by (symmetry; apply Nat.leb_gt; lia) ]
         | |- context [(?a <? ?b)%nat] =>
             first [ replace (a <? b)%nat with true
                       by (symmetry; apply Nat.ltb_lt; lia)
                   | replace (a <? b)%nat with false
                       by (symmetry; apply Nat.ltb_ge; lia) ]
         | |- context [(?a =? ?b)%nat] =>
             first [ replace (a =? b)%nat with true
                       by (symmetry; apply Nat.eqb_eq; lia)
                   | replace (a =? b)%nat with false
                       by (symmetry; apply Nat.eqb_neq; lia) ]
         end.

Ltac char_tests :=
  repeat match goal with
         | |- context [N.eqb (chr ?a) (chr ?b)] =>
             let v := eval vm_compute in (N.eqb (chr a) (chr b)) in
             change (N.eqb (chr a) (chr b)) with v
         end.

Lemma parse_hm_at (buf : list N) (p e : nat) (h mi : Z) :
  0 <= h < 100 -> 0 <= mi < 100 -> hm_at buf p h mi -> e = (5 + p)%nat ->
  parse_hh_mm_ss_ff buf p e
  = Some (negb (N.eqb (byte_at buf e) 0), (h, mi, 0, 0)).
Proof.
  intros Hh Hmi (H1 & H2 & H3) He. unfold parse_hh_mm_ss_ff.
  cbn [hms_loop]. rewrite (parse_two buf p h Hh H1).
  cbn [app nth]. change (S (S p)) with (2 + p)%nat. rewrite H2.
  char_tests. nat_tests. cbn [andb].
  change (S (2 + p)) with (3 + p)%nat. rewrite (parse_two buf _ mi Hmi H3).
  cbn [app nth]. nat_tests. subst e. reflexivity.
Qed.


Lemma parse_hms_at (buf : list N) (p e : nat) (h mi s : Z) :
  0 <= h < 100 -> 0 <= mi < 100 -> 0 <= s < 100 ->
  hms_at buf p h mi s -> e = (8 + p)%nat ->
  parse_hh_mm_ss_ff buf p e
  = Some (negb (N.eqb (byte_at buf e) 0), (h, mi, s, 0)).
Proof.
  intros Hh Hmi Hs ((H1 & H2 & H3) & H4 & H5) He. unfold parse_hh_mm_ss_ff.
  cbn [hms_loop]. rewrite (parse_two buf p h Hh H1).
  cbn [app nth]. change (S (S p)) with (2 + p)%nat. rewrite H2.
  char_tests. nat_tests. cbn [andb].
  change (S (2 + p)) with (3 + p)%nat. rewrite (parse_two buf _ mi Hmi H3).
  cbn [app nth]. change (S (S (3 + p))) with (5 + p)%nat. rewrite H4.
  char_tests. nat_tests. cbn [andb].
  change (S (5 + p)) with (6 + p)%nat. rewrite (parse_two buf _ s Hs H5).
  cbn [app nth]. nat_tests. subst e. reflexivity.
Qed.

Lemma parse_hmsf_at (buf : list N) (p e : nat) (h mi s us : Z) :
  0 <= h < 100 -> 0 <= mi < 100 -> 0 <= s < 100 -> 0 <= us < 1000000 ->
  hmsf_at buf p h mi s us -> e = (15 + p)%nat ->
  is_ascii_digit (byte_at buf e) = false ->
  parse_hh_mm_ss_ff buf p e
  = Some (negb (N.eqb (byte_at buf e) 0), (h, mi, s, us)).
Proof.
  intros Hh Hmi Hs Hus (((H1 & H2 & H3) & H4 & H5) & H6 & H7) He Hend.
  unfold parse_hh_mm_ss_ff.
  cbn [hms_loop]. rewrite (parse_two buf p h Hh H1).
  cbn [app nth]. change (S (S p)) with (2 + p)%nat. rewrite H2.
  char_tests. nat_tests. cbn [andb].
  change (S (2 + p)) with (3 + p)%nat. rewrite (parse_two buf _ mi Hmi H3).
  cbn [app nth]. change (S (S (3 + p))) with (5 + p)%nat. rewrite H4.
  char_tests. nat_tests. cbn [andb].
  change (S (5 + p)) with (6 + p)%nat. rewrite (parse_two buf _ s Hs H5).
  cbn [app nth]. change (S (S (6 + p))) with (8 + p)%nat. rewrite H6.
  char_tests. nat_tests. cbn [andb orb].
  unfold parse_fraction. change (S (8 + p)) with (9 + p)%nat.
  replace (e - (9 + p))%nat with 6%nat by lia. cbn [Nat.leb Nat.ltb].
  destruct (digits6_ok us Hus) as [Hd Hval].
  change (parse_digits buf (9 + p) 0 6)
    with (parse_digits buf (9 + p) 0 (length (digits6 us))).
  rewrite (parse_digits_at buf (digits6 us) _ 0 Hd H7), Hval.
  change (length (digits6 us) + (9 + p))%nat with (15 + p)%nat. rewrite <- He.
  replace (skip_digits (length buf) buf e) with e
    by (destruct (length buf); cbn [skip_digits]; now rewrite ?Hend).
  reflexivity.
Qed.

(** [find_tzinfo] stops at the first sign or 'Z', or one past its fuel. *)
Lemma find_tzinfo_at (buf : list N) :
  forall k fuel p,
    (forall i, (i < k)%nat -> is_tz_start (byte_at buf (i + p)) = false) ->
    ((k <= fuel)%nat /\ is_tz_start (byte_at buf (k + p)) = true)
    \/ k = S fuel ->
    find_tzinfo fuel buf p = (k + p)%nat.
Proof.
  induction k as [|k IH]; intros fuel p Hno Hk.
  - destruct Hk as [[_ Hk]|Hk]; [|discriminate].
    destruct fuel; cbn [find_tzinfo]; cbn [Nat.add] in Hk; now rewrite Hk.
  - pose proof (Hno 0%nat ltac:(lia)) as H0. cbn [Nat.add] in H0.
    destruct fuel as [|fuel]; cbn [find_tzinfo]; rewrite H0.
    + destruct Hk as [[Hk _]|Hk]; [lia|]. injection Hk as ->. reflexivity.
    + rewrite (IH fuel (S p)).
      * lia.
      * intros i Hi. replace (i + S p)%nat with (S i + p)%nat by lia.
        apply Hno. lia.
      * replace (k + S p)%nat with (S k + p)%nat by lia.
        destruct Hk as [[Hk Hz]|Hk]; [left; split; [lia|exact Hz]|right; lia].
Qed.

Lemma digit_not_tz (d : Z) : 0 <= d <= 9 -> is_tz_start (digit_char d) = false.
Proof.
  intros Hd. unfold is_tz_start.
  assert (Hne : forall c, is_ascii_digit c = false -> N.eqb (digit_char d) c = false).
  { intros c Hc. apply N.eqb_neq. intros E. rewrite <- E in Hc.
    now rewrite digit_char_ascii_digit in Hc. }
  now rewrite !Hne by reflexivity.
Qed.

Ltac digit_bound := first [apply mod10_digit | apply first_digit; lia].

(** Rewrite the byte at the position the goal asks for. *)
Ltac byte_here :=
  cbn [Nat.add];
  match goal with
  | H : byte_at ?buf ?q = _ |- context [byte_at ?buf ?q] => rewrite H
  end;
  first [reflexivity | apply digit_not_tz; digit_bound].

Lemma hms_not_tz (buf : list N) (p : nat) (h mi s : Z) :
  0 <= h < 100 -> 0 <= mi < 100 -> 0 <= s < 100 -> hms_at buf p h mi s ->
  forall i, (i < 8)%nat -> is_tz_start (byte_at buf (i + p)) = false.
Proof.
  intros Hh Hmi Hs H i Hi. unfold hms_at, hm_at, digits2 in H.
  cbn [digits_at Nat.add] in H. decompose [and] H. clear H.
  do 8 (destruct i as [|i]; [byte_here|]). lia.
Qed.

Lemma hmsf_not_tz (buf : list N) (p : nat) (h mi s us : Z) :
  0 <= h < 100 -> 0 <= mi < 100 -> 0 <= s < 100 -> 0 <= us < 1000000 ->
  hmsf_at buf p h mi s us ->
  forall i, (i < 15)%nat -> is_tz_start (byte_at buf (i + p)) = false.
Proof.
  intros Hh Hmi Hs Hus H i Hi. unfold hmsf_at, hms_at, hm_at, digits2, digits6 in H.
  cbn [digits_at Nat.add] in H. decompose [and] H. clear H.
  do 15 (destruct i as [|i]; [byte_here|]). lia.
Qed.

Lemma byte_at_end (buf : list N) : byte_at buf (length buf) = 0%N.
Proof. unfold byte_at. now apply nth_overflow. Qed.

(** A time that ends the buffer: no zone. *)
Lemma parse_isoformat_time_naive (buf : list N) (p e : nat)
      (t : Z * Z * Z * Z) :
  (p < e)%nat -> length buf = e ->
  (forall i, (i < e - p)%nat -> is_tz_start (byte_at buf (i + p)) = false) ->
  parse_hh_mm_ss_ff buf p e = Some (negb (N.eqb (byte_at buf e) 0), t) ->
  parse_isoformat_time buf p (e - p) = Some (t, None).
Proof.
  intros Hp Hlen Hno Ht. unfold parse_isoformat_time.
  rewrite (find_tzinfo_at buf (e - p) (e - p - 1) p Hno) by (right; lia).
  replace (e - p + p)%nat with e by lia.
  replace (p + (e - p))%nat with e by lia.
  rewrite Ht, Nat.eqb_refl. rewrite <- Hlen at 1. now rewrite byte_at_end.
Qed.

(** A time followed by a sign and an offset. *)
Lemma parse_isoformat_time_offset (buf : list N) (p e len : nat)
      (t : Z * Z * Z * Z) (sgn a b c us : Z) :
  (p < e)%nat -> (e < len)%nat -> length buf = len ->
  (forall i, (i < e - p)%nat -> is_tz_start (byte_at buf (i + p)) = false) ->
  parse_hh_mm_ss_ff buf p e = Some (negb (N.eqb (byte_at buf e) 0), t) ->
  (byte_at buf e = chr "+" /\ sgn = 1) \/ (byte_at buf e = chr "-" /\ sgn = -1) ->
  parse_hh_mm_ss_ff buf (S e) len
  = Some (negb (N.eqb (byte_at buf len) 0), (a, b, c, us)) ->
  parse_isoformat_time buf p (len - p)
  = Some (t, Some (sgn * (a * 3600 + b * 60 + c), sgn * us)).
Proof.
  intros Hp He Hlen Hno Ht Hsign Hz. unfold parse_isoformat_time.
  rewrite (find_tzinfo_at buf (e - p) (len - p - 1) p Hno).
  - replace (e - p + p)%nat with e by lia.
    replace (p + (len - p))%nat with len by lia.
    rewrite Ht, Hz. nat_tests. rewrite <- Hlen at 1. rewrite byte_at_end.
    destruct Hsign as [[-> ->]|[-> ->]]; reflexivity.
  - left. split; [lia|]. replace (e - p + p)%nat with e by lia.
    destruct Hsign as [[-> _]|[-> _]]; reflexivity.
Qed.

(** The date [YYYY-MM-DD] at the start of the buffer. *)
Definition date_at (buf : list N) (y mo d : Z) : Prop :=
  digits_at buf 0 (digits4 y) /\ byte_at buf 4 = chr "-"
  /\ digits_at buf 5 (digits2 mo) /\ byte_at buf 7 = chr "-"
  /\ digits_at buf 8 (digits2 d).

Lemma digit_neq (d : Z) (c : N) :
  0 <= d <= 9 -> is_ascii_digit c = false -> N.eqb (digit_char d) c = false.
Proof.
  intros Hd Hc. apply N.eqb_neq. intros E. rewrite <- E in Hc.
  now rewrite digit_char_ascii_digit in Hc.
Qed.

Lemma parse_isoformat_date_at (buf : list N) (y mo d : Z) :
  0 <= y < 10000 -> 0 <= mo < 100 -> 0 <= d < 100 -> date_at buf y mo d ->
  parse_isoformat_date buf 10 = Some (y, mo, d).
Proof.
  intros Hy Hmo Hd (H1 & H2 & H3 & H4 & H5). unfold parse_isoformat_date.
  destruct (digits4_ok y Hy) as [Hdig Hval].
  change (parse_digits buf 0 0 4)
    with (parse_digits buf 0 0 (length (digits4 y))).
  rewrite (parse_digits_at buf (digits4 y) 0 0 Hdig H1), Hval.
  change (length (digits4 y) + 0)%nat with 4%nat. rewrite H2.
  char_tests. cbn iota.
  pose proof H3 as [H3' _]. rewrite H3', digit_neq by (digit_bound || reflexivity).
  rewrite (parse_two buf 5 mo Hmo H3), H4. char_tests. cbn [andb negb].
  now rewrite (parse_two buf 8 d Hd H5).
Qed.

Lemma find_separator_at (buf : list N) (y mo d : Z) :
  0 <= mo < 100 -> date_at buf y mo d -> length buf <> 7%nat ->
  _find_isoformat_datetime_separator buf (length buf) = Some 10%nat.
Proof.
  intros Hmo (_ & H2 & [H3 _] & _) Hlen. unfold _find_isoformat_datetime_separator.
  nat_tests. rewrite H2, H3. char_tests.
  now rewrite digit_neq by (digit_bound || reflexivity).
Qed.


(** An ASCII string is its own UTF-8 encoding and needs no sanitizing. *)
Lemma utf8_encode_ascii (s : list N) :
  Forall (fun c => (c < 128)%N) s ->
  utf8_encode (_sanitize_isoformat_str s) = Some s.
Proof.
  intros H.
  assert (Hsur : forall c, (c < 128)%N -> Py_UNICODE_IS_SURROGATE c = false).
  { intros c Hc. unfold Py_UNICODE_IS_SURROGATE.
    apply andb_false_iff. left. apply N.leb_gt. lia. }
  assert (Hat : forall n, surrogate_at s n = false).
  { intros n. unfold surrogate_at. destruct (nth_error s n) as [c|] eqn:Hn; [|reflexivity].
    apply Hsur. apply nth_error_In in Hn. rewrite List.Forall_forall in H. now apply H. }
  unfold _sanitize_isoformat_str. rewrite !Hat. unfold utf8_encode.
  assert (Hex : existsb Py_UNICODE_IS_SURROGATE s = false).
  { apply not_true_iff_false. intros E. apply existsb_exists in E as (c & Hin & Hc).
    rewrite List.Forall_forall in H. rewrite Hsur in Hc by now apply H. discriminate. }
  rewrite Hex. f_equal. clear Hat Hex.
  induction H as [|c s Hc _ IH]; [reflexivity|]. cbn [flat_map]. rewrite IH.
  unfold utf8_encode_char. apply N.ltb_lt in Hc. now rewrite Hc.
Qed.

(** A text made of a date, 'T' and a time that [parse_isoformat_time]
    reads is a datetime. *)
Lemma fromisoformat_at (s : list N) (y mo d h mi sec us : Z)
      (tz : option (Z * Z)) :
  Forall (fun c => (c < 128)%N) s -> (10 < length s)%nat ->
  0 <= y < 10000 -> 0 <= mo < 100 -> 0 <= d < 100 ->
  date_at s y mo d -> byte_at s 10 = chr "T" ->
  parse_isoformat_time s 11 (length s - 11) = Some ((h, mi, sec, us), tz) ->
  fromisoformat s
  = do tzi <- tzinfo_from_isoformat_results tz in
    new_datetime y mo d h mi sec us tzi.
Proof.
  intros Hascii Hlen Hy Hmo Hd Hdate HT Htime. unfold fromisoformat.
  nat_tests. rewrite (utf8_encode_ascii s Hascii).
  rewrite (find_separator_at s y mo d Hmo Hdate) by lia.
  rewrite (parse_isoformat_date_at s y mo d Hy Hmo Hd Hdate).
  nat_tests. unfold char_width. rewrite HT.
  change (N.eqb (N.land (chr "T") 128) 0) with true. cbn iota.
  change (10 + 1)%nat with 11%nat. now rewrite Htime.
Qed.

Definition valid_offset (tz : option timedelta) : Prop :=
  match tz with
  | None => True
  | Some o => - 86400000000 < o < 86400000000
  end.

(** The offset that is read back: one of less than a second reads as UTC. *)
Definition read_offset (tz : option timedelta) : option timedelta :=
  match tz with
  | None => None
  | Some o => if (- 1000000 <? o) && (o <? 1000000) then Some 0 else Some o
  end.

(** The two shapes of the time that [isoformat] writes. *)
Lemma format_time_shape (h mi s us : Z) :
  (us = 0
   /\ _format_time h mi s us
      = zero_pad 2 h ++ py ":" ++ zero_pad 2 mi ++ py ":" ++ zero_pad 2 s)
  \/ (_format_time h mi s us
      = zero_pad 2 h ++ py ":" ++ zero_pad 2 mi ++ py ":" ++ zero_pad 2 s
        ++ py "." ++ zero_pad 6 us).
Proof.
  unfold _format_time. destruct (us =? 0) eqn:E.
  - left. apply Z.eqb_eq in E. split; [exact E|]. now rewrite app_nil_r.
  - right. reflexivity.
Qed.

(** The three shapes of the offset that [isoformat] writes. *)
Lemma format_offset_shape (o : Z) :
  - 86400000000 < o < 86400000000 ->
  exists sc sgn hh mm secs us,
    ((sc = chr "+" /\ sgn = 1) \/ (sc = chr "-" /\ sgn = -1))
    /\ 0 <= hh < 24 /\ 0 <= mm < 60 /\ 0 <= secs < 60 /\ 0 <= us < 1000000
    /\ o = sgn * ((hh * 3600 + mm * 60 + secs) * 1000000 + us)
    /\ ((secs = 0 /\ us = 0
         /\ _format_offset (Some o)
            = [sc] ++ zero_pad 2 hh ++ py ":" ++ zero_pad 2 mm)
        \/ (us = 0
            /\ _format_offset (Some o)
               = [sc] ++ zero_pad 2 hh ++ py ":" ++ zero_pad 2 mm
                 ++ py ":" ++ zero_pad 2 secs)
        \/ _format_offset (Some o)
           = [sc] ++ zero_pad 2 hh ++ py ":" ++ zero_pad 2 mm
             ++ py ":" ++ zero_pad 2 secs ++ py "." ++ zero_pad 6 us).
Proof.
  intros Ho. unfold _format_offset. cbv zeta.
  assert (Hneg : (td_days o <? 0) = (o <? 0)).
  { unfold td_days. destruct (o <? 0) eqn:E.
    - apply Z.ltb_lt in E. apply Z.ltb_lt. Z.div_mod_to_equations. lia.
    - apply Z.ltb_ge in E. apply Z.ltb_ge. Z.div_mod_to_equations. lia. }
  rewrite Hneg.
  set (a := if o <? 0 then - o else o).
  assert (Ha : 0 <= a < 86400000000 /\ o = (if o <? 0 then -1 else 1) * a).
  { subst a. destruct (o <? 0) eqn:E;
      [apply Z.ltb_lt in E | apply Z.ltb_ge in E]; lia. }
  destruct Ha as [Ha Hoa].
  exists (if o <? 0 then chr "-" else chr "+"), (if o <? 0 then -1 else 1),
    (a / 3600000000), (a mod 3600000000 / 60000000),
    (td_seconds (a mod 3600000000 mod 60000000)),
    (td_microseconds (a mod 3600000000 mod 60000000)).
  assert (Hsec : a mod 3600000000 mod 60000000
                 = td_seconds (a mod 3600000000 mod 60000000) * 1000000
                   + td_microseconds (a mod 3600000000 mod 60000000)
                 /\ 0 <= td_seconds (a mod 3600000000 mod 60000000) < 60
                 /\ 0 <= td_microseconds (a mod 3600000000 mod 60000000) < 1000000).
  { unfold td_seconds, td_microseconds. Z.div_mod_to_equations. lia. }
  destruct Hsec as (Hss & Hsecs & Hus).
  set (secs := td_seconds (a mod 3600000000 mod 60000000)) in *.
  set (us := td_microseconds (a mod 3600000000 mod 60000000)) in *.
  clearbody secs us.
  split; [destruct (o <? 0); [right|left]; split; reflexivity|].
  split; [Z.div_mod_to_equations; lia|].
  split; [Z.div_mod_to_equations; lia|].
  split; [exact Hsecs|]. split; [exact Hus|].
  split; [rewrite Hoa at 1; f_equal; Z.div_mod_to_equations; lia|].
  replace (if o <? 0 then py "-" else py "+")
    with [if o <? 0 then chr "-" else chr "+"] by (now destruct (o <? 0)).
  destruct (a mod 3600000000 mod 60000000 =? 0) eqn:E0.
  - left. apply Z.eqb_eq in E0. rewrite E0 in Hss.
    split; [lia|]. split; [lia|]. now rewrite app_nil_r.
  - destruct (us =? 0) eqn:E1.
    + right; left. apply Z.eqb_eq in E1. split; [exact E1|]. now rewrite app_nil_r.
    + right; right. reflexivity.
Qed.


Lemma read_offset_spec (o sgn hh mm secs us : Z) :
  sgn = 1 \/ sgn = -1 ->
  0 <= hh < 24 -> 0 <= mm < 60 -> 0 <= secs < 60 -> 0 <= us < 1000000 ->
  o = sgn * ((hh * 3600 + mm * 60 + secs) * 1000000 + us) ->
  - 86400000000 < o < 86400000000 ->
  tzinfo_from_isoformat_results
    (Some (sgn * (hh * 3600 + mm * 60 + secs), sgn * us))
  = Ok (read_offset (Some o)).
Proof.
  intros Hsgn Hhh Hmm Hsecs Hus Ho Hrange.
  unfold tzinfo_from_isoformat_results, read_offset.
  destruct (sgn * (hh * 3600 + mm * 60 + secs) =? 0) eqn:E.
  - apply Z.eqb_eq in E.
    replace ((- 1000000 <? o) && (o <? 1000000)) with true; [reflexivity|].
    symmetry. apply andb_true_iff. split; apply Z.ltb_lt;
      destruct Hsgn as [-> | ->]; lia.
  - apply Z.eqb_neq in E.
    replace ((- 1000000 <? o) && (o <? 1000000)) with false.
    + unfold timezone, td.
      replace (0 * 86400 + sgn * (hh * 3600 + mm * 60 + secs)) with
        (sgn * (hh * 3600 + mm * 60 + secs)) by lia.
      replace (sgn * (hh * 3600 + mm * 60 + secs) * 1000000 + sgn * us)
        with o by lia.
      replace ((- 86400000000 <? o) && (o <? 86400000000)) with true;
        [reflexivity|].
      symmetry. apply andb_true_iff. split; apply Z.ltb_lt; lia.
    + symmetry. apply andb_false_iff.
      destruct Hsgn as [-> | ->]; [right|left]; apply Z.ltb_ge; lia.
Qed.

Lemma digit_lt_128 (d : Z) : 0 <= d <= 9 -> (digit_char d < 128)%N.
Proof. intros Hd. unfold digit_char. lia. Qed.

Ltac ascii_text :=
  repeat (apply List.Forall_cons;
          [first [reflexivity | assumption | apply digit_lt_128; digit_bound]|]);
  apply List.Forall_nil.

Ltac text_at :=
  unfold date_at, hmsf_at, hms_at, hm_at, digits2, digits4, digits6;
  cbn [digits_at]; repeat split.

Ltac plain_text :=
  rewrite ?zero_pad_4, ?zero_pad_6, ?zero_pad_2 by lia;
  change (py "-") with [chr "-"]; change (py "T") with [chr "T"];
  change (py ":") with [chr ":"]; change (py ".") with [chr "."];
  cbn [app].

(** [fromisoformat] reads every text that [isoformat] writes. *)
Lemma fromisoformat_isoformat (d : datetime) :
  valid_datetime d -> valid_offset (tzinfo d) ->
  fromisoformat (isoformat d)
  = Ok (mk_datetime (year d) (month d) (day d) (hour d) (minute d)
          (second d) (microsecond d) (read_offset (tzinfo d))).
Proof.
  intros Hv Htz.
  pose proof (valid_fields d Hv) as (Hy & Hmo & Hd & Hh & Hmi & Hs & Hus).
  pose proof (days_in_month_bounds (year d) (month d) Hmo) as (Hdim & _ & _).
  destruct Hv as [Hcd Hct].
  destruct d as [y mo dd h mi s us tz].
  cbn [year month day hour minute second microsecond tzinfo] in *.
  assert (Hnew : forall tz', new_datetime y mo dd h mi s us tz'
                             = Ok (mk_datetime y mo dd h mi s us tz')).
  { intros tz'. unfold new_datetime. now rewrite Hcd, Hct. }
  unfold isoformat.
  cbn [year month day hour minute second microsecond tzinfo].
  destruct tz as [o|].
  - destruct (format_offset_shape o Htz)
      as (sc & sgn & hh & mm & secs & ous & Hsign & Hhh & Hmm & Hsecs & Hous
          & Ho & Hshape).
    assert (Hsgn : sgn = 1 \/ sgn = -1) by (destruct Hsign as [[_ ->]|[_ ->]]; auto).
    pose proof (read_offset_spec o sgn hh mm secs ous Hsgn Hhh Hmm Hsecs Hous
                  Ho Htz) as Hread.
    assert (Hsc : (sc < 128)%N /\ is_ascii_digit sc = false)
      by (destruct Hsign as [[-> _]|[-> _]]; split; reflexivity).
    destruct Hsc as [Hsc Hscd].
    change (_format_offset (Some o)) with (_format_offset (@Some Z o)).
    destruct (format_time_shape h mi s us) as [[Hus0 ->] | ->];
      destruct Hshape as [(Hs0 & Hu0 & ->) | [(Hu0 & ->) | ->]];
      plain_text;
      match goal with |- fromisoformat ?t = _ => set (buf := t) end;
      rewrite (fromisoformat_at buf y mo dd h mi s us
                 (Some (sgn * (hh * 3600 + mm * 60 + secs), sgn * ous)));
      try first
        [ rewrite Hread; cbn [bind]; apply Hnew
        | subst buf; ascii_text
        | subst buf; cbn [length]; lia
        | lia
        | text_at; reflexivity
        | reflexivity ].
    + assert (Ht : hms_at buf 11 h mi s) by (text_at; reflexivity).
      assert (Hz : hm_at buf 20 hh mm) by (text_at; reflexivity).
      subst us secs ous.
      apply (parse_isoformat_time_offset buf 11 19 25 (h, mi, s, 0) sgn hh mm 0 0);
        [ lia | lia | reflexivity
        | apply (hms_not_tz buf 11 h mi s); (lia || exact Ht)
        | apply (parse_hms_at buf 11 19 h mi s); (lia || exact Ht || reflexivity)
        | exact Hsign
        | apply (parse_hm_at buf 20 25 hh mm); (lia || exact Hz || reflexivity) ].
    + assert (Ht : hms_at buf 11 h mi s) by (text_at; reflexivity).
      assert (Hz : hms_at buf 20 hh mm secs) by (text_at; reflexivity).
      subst us ous.
      apply (parse_isoformat_time_offset buf 11 19 28 (h, mi, s, 0) sgn hh mm secs 0);
        [ lia | lia | reflexivity
        | apply (hms_not_tz buf 11 h mi s); (lia || exact Ht)
        | apply (parse_hms_at buf 11 19 h mi s); (lia || exact Ht || reflexivity)
        | exact Hsign
        | apply (parse_hms_at buf 20 28 hh mm secs);
          (lia || exact Hz || reflexivity) ].
    + assert (Ht : hms_at buf 11 h mi s) by (text_at; reflexivity).
      assert (Hz : hmsf_at buf 20 hh mm secs ous) by (text_at; reflexivity).
      subst us.
      apply (parse_isoformat_time_offset buf 11 19 35 (h, mi, s, 0) sgn hh mm secs ous);
        [ lia | lia | reflexivity
        | apply (hms_not_tz buf 11 h mi s); (lia || exact Ht)
        | apply (parse_hms_at buf 11 19 h mi s); (lia || exact Ht || reflexivity)
        | exact Hsign
        | apply (parse_hmsf_at buf 20 35 hh mm secs ous);
          (lia || exact Hz || reflexivity) ].
    + assert (Ht : hmsf_at buf 11 h mi s us) by (text_at; reflexivity).
      assert (Hz : hm_at buf 27 hh mm) by (text_at; reflexivity).
      subst secs ous.
      apply (parse_isoformat_time_offset buf 11 26 32 (h, mi, s, us) sgn hh mm 0 0);
        [ lia | lia | reflexivity
        | apply (hmsf_not_tz buf 11 h mi s us); (lia || exact Ht)
        | apply (parse_hmsf_at buf 11 26 h mi s us);
          (lia || exact Ht || exact Hscd || reflexivity)
        | exact Hsign
        | apply (parse_hm_at buf 27 32 hh mm); (lia || exact Hz || reflexivity) ].
    + assert (Ht : hmsf_at buf 11 h mi s us) by (text_at; reflexivity).
      assert (Hz : hms_at buf 27 hh mm secs) by (text_at; reflexivity).
      subst ous.
      apply (parse_isoformat_time_offset buf 11 26 35 (h, mi, s, us) sgn hh mm secs 0);
        [ lia | lia | reflexivity
        | apply (hmsf_not_tz buf 11 h mi s us); (lia || exact Ht)
        | apply (parse_hmsf_at buf 11 26 h mi s us);
          (lia || exact Ht || exact Hscd || reflexivity)
        | exact Hsign
        | apply (parse_hms_at buf 27 35 hh mm secs);
          (lia || exact Hz || reflexivity) ].
    + assert (Ht : hmsf_at buf 11 h mi s us) by (text_at; reflexivity).
      assert (Hz : hmsf_at buf 27 hh mm secs ous) by (text_at; reflexivity).
      apply (parse_isoformat_time_offset buf 11 26 42 (h, mi, s, us) sgn hh mm secs ous);
        [ lia | lia | reflexivity
        | apply (hmsf_not_tz buf 11 h mi s us); (lia || exact Ht)
        | apply (parse_hmsf_at buf 11 26 h mi s us);
          (lia || exact Ht || exact Hscd || reflexivity)
        | exact Hsign
        | apply (parse_hmsf_at buf 27 42 hh mm secs ous);
          (lia || exact Hz || reflexivity) ].
  - cbn [_format_offset read_offset]. rewrite !app_nil_r.
    destruct (format_time_shape h mi s us) as [[Hus0 ->] | ->]; plain_text;
      match goal with |- fromisoformat ?t = _ => set (buf := t) end.
    + assert (Ht : hms_at buf 11 h mi s) by (text_at; reflexivity).
      rewrite (fromisoformat_at buf y mo dd h mi s us None);
        [ cbn [tzinfo_from_isoformat_results bind]; apply Hnew
        | subst buf; ascii_text | subst buf; cbn [length]; lia | lia | lia | lia
        | text_at; reflexivity | reflexivity | ].
      subst us. apply (parse_isoformat_time_naive buf 11 19);
        [ lia | reflexivity | apply (hms_not_tz buf 11 h mi s); (lia || exact Ht)
        | apply (parse_hms_at buf 11 19 h mi s); (lia || exact Ht || reflexivity) ].
    + assert (Ht : hmsf_at buf 11 h mi s us) by (text_at; reflexivity).
      rewrite (fromisoformat_at buf y mo dd h mi s us None);
        [ cbn [tzinfo_from_isoformat_results bind]; apply Hnew
        | subst buf; ascii_text | subst buf; cbn [length]; lia | lia | lia | lia
        | text_at; reflexivity | reflexivity | ].
      apply (parse_isoformat_time_naive buf 11 26);
        [ lia | reflexivity
        | apply (hmsf_not_tz buf 11 h mi s us); (lia || exact Ht)
        | apply (parse_hmsf_at buf 11 26 h mi s us);
          (lia || exact Ht || reflexivity) ].
Qed.


Lemma replace_char_absent (old : N) (new s : list N) :
  Forall (fun c => N.eqb c old = false) s -> replace_char old new s = s.
Proof.
  induction 1 as [|c s Hc _ IH]; [reflexivity|].
  unfold replace_char in *. cbn [flat_map]. now rewrite Hc, IH.
Qed.

Ltac no_Z_text :=
  repeat (apply List.Forall_cons;
          [first [ reflexivity | assumption
                 | apply digit_neq; [digit_bound | reflexivity] ]|]);
  apply List.Forall_nil.

(** [isoformat] writes no 'Z'. *)
Lemma isoformat_no_Z (d : datetime) :
  valid_datetime d -> valid_offset (tzinfo d) ->
  Forall (fun c => N.eqb c (chr "Z") = false) (isoformat d).
Proof.
  intros Hv Htz.
  pose proof (valid_fields d Hv) as (Hy & Hmo & Hd & Hh & Hmi & Hs & Hus).
  pose proof (days_in_month_bounds (year d) (month d) Hmo) as (Hdim & _ & _).
  destruct d as [y mo dd h mi s us tz].
  cbn [year month day hour minute second microsecond tzinfo] in *.
  unfold isoformat.
  cbn [year month day hour minute second microsecond tzinfo].
  destruct tz as [o|].
  - destruct (format_offset_shape o Htz)
      as (sc & sgn & hh & mm & secs & ous & Hsign & Hhh & Hmm & Hsecs & Hous
          & _ & Hshape).
    assert (Hsc : N.eqb sc (chr "Z") = false)
      by (destruct Hsign as [[-> _]|[-> _]]; reflexivity).
    change (_format_offset (Some o)) with (_format_offset (@Some Z o)).
    destruct (format_time_shape h mi s us) as [[Hus0 ->] | ->];
      destruct Hshape as [(Hs0 & Hu0 & ->) | [(Hu0 & ->) | ->]];
      plain_text; no_Z_text.
  - cbn [_format_offset]. rewrite !app_nil_r.
    destruct (format_time_shape h mi s us) as [[Hus0 ->] | ->];
      plain_text; no_Z_text.
Qed.

(** The validator of [date] accepts what [isoformat] writes. *)
Lemma validate_date_format_isoformat (d : datetime) :
  valid_datetime d -> valid_offset (tzinfo d) ->
  Gmail.validate_date_format (isoformat d) = Ok (isoformat d).
Proof.
  intros Hv Htz. unfold Gmail.validate_date_format.
  rewrite (replace_char_absent _ _ _ (isoformat_no_Z d Hv Htz)).
  now rewrite (fromisoformat_isoformat d Hv Htz).
Qed.

End IsoRoundTrip.

(** ** The date of a basic record (C3) *)

(** ISO 8601, as the specification names it: the representations of a date
    (calendar, ordinal and week dates, complete or of reduced precision) and
    of a complete date with a time of day ('T', then hours, minutes and
    seconds with an optional decimal fraction, then an optional 'Z' or
    offset from UTC), in the extended format or in the basic format. *)
Module Iso8601.

Definition num (name : ascii) (n : nat) : Re.regex :=
  Re.Grp (chr name) (Re.Rep n (Some n) is_ascii_digit).

Definition sign : Re.regex :=
  Re.Chr (fun c => N.eqb c (chr "+") || N.eqb c (chr "-")).

Definition fraction : Re.regex :=
  Re.Opt (Re.Cat (Re.Chr (fun c => N.eqb c (chr ".") || N.eqb c (chr ",")))
                 (Re.plus is_ascii_digit)).

Definition complete_date (extended : bool) : Re.regex :=
  let dash := if extended then Re.lit (chr "-") else Re.Eps in
  Re.alts
    [Re.seq [num "y" 4; dash; num "m" 2; dash; num "d" 2];
     Re.seq [num "y" 4; dash; num "o" 3];
     Re.seq [num "y" 4; dash; Re.lit (chr "W"); num "w" 2; dash; num "k" 1]].

Definition reduced_date : Re.regex :=
  Re.alts
    [Re.seq [num "y" 4; Re.lit (chr "-"); num "m" 2];
     Re.seq [num "y" 4; Re.Opt (Re.lit (chr "-")); Re.lit (chr "W"); num "w" 2];
     num "y" 4].

Definition time_of_day (extended : bool) : Re.regex :=
  let colon := if extended then Re.lit (chr ":") else Re.Eps in
  Re.seq [num "H" 2;
          Re.Opt (Re.seq [colon; num "M" 2; Re.Opt (Re.seq [colon; num "S" 2])]);
          fraction].

Definition zone (extended : bool) : Re.regex :=
  let colon := if extended then Re.lit (chr ":") else Re.Eps in
  Re.Opt (Re.alts
            [Re.lit (chr "Z");
             Re.seq [sign; num "h" 2; Re.Opt (Re.seq [colon; num "n" 2])]]).

Definition date_time (extended : bool) : Re.regex :=
  Re.seq [complete_date extended;
          Re.Opt (Re.seq [Re.lit (chr "T"); time_of_day extended; zone extended])].

Definition representation : Re.regex :=
  Re.alts [date_time true; date_time false; reduced_date].

Definition field (name : ascii) (g : Re.groups) : option Z :=
  match Re.group (chr name) g with
  | Some v => digits_value 0 v
  | None => None
  end.

(** A field that is written lies in its range. *)
Definition within (lo hi : Z) (v : option Z) : bool :=
  match v with
  | Some n => (lo <=? n) && (n <=? hi)
  | None => true
  end.

(** A year of 53 weeks starts on a Thursday, or on a Wednesday when it is
    a leap year. *)
Definition long_year (y : Z) : bool :=
  let first_weekday := (Datetime._ymd2ord y 1 1 + 6) mod 7 in
  (first_weekday =? 3) || ((first_weekday =? 2) && Datetime._is_leap y).

Definition fields_in_range (g : Re.groups) : bool :=
  let y := match field "y" g with Some n => n | None => 0 end in
  let mo := match field "m" g with Some n => n | None => 1 end in
  within 1 12 (field "m" g)
  && within 1 (if (1 <=? mo) && (mo <=? 12)
               then Datetime._days_in_month y mo else 0) (field "d" g)
  && within 1 (if Datetime._is_leap y then 366 else 365) (field "o" g)
  && within 1 (if long_year y then 53 else 52) (field "w" g)
  && within 1 7 (field "k" g)
  && within 0 23 (field "H" g) && within 0 59 (field "M" g)
  && within 0 60 (field "S" g)
  && within 0 23 (field "h" g) && within 0 59 (field "n" g).

Definition iso8601 (s : list N) : bool :=
  match Re.m representation s []
             (fun rest g =>
                match rest with
                | [] => if fields_in_range g then Some tt else None
                | _ :: _ => None
                end) with
  | Some _ => true
  | None => false
  end.

End Iso8601.


Section BasicDate.
Import Datetime.

(** The keyword arguments [id=i, from=f, subject=s, date=v]. *)
Definition kwargs (i f s v : list N) : gmap (list N) pyval :=
  <[py "date" := VStr v]>
  (<[py "subject" := VStr s]>
  (<[py "from" := VStr f]>
  (<[py "id" := VStr i]> ∅))).

Ltac other_key := intros Hk; vm_compute in Hk; discriminate Hk.

Ltac dict_lookup :=
  repeat first [ rewrite lookup_insert_eq
               | rewrite lookup_insert_ne by other_key
               | rewrite lookup_empty ].

(** Of these arguments only the date is validated. *)
Lemma new_GMailData_kwargs (i f s v : list N) :
  new_GMailData (kwargs i f s v)
  = do dt <- validate_date_format v in Ok (mk_GMailData i None f s dt []).
Proof.
  unfold new_GMailData, kwargs, required_str, optional_str, default_str.
  dict_lookup. reflexivity.
Qed.

Lemma validate_date_format_result (v : list N) :
  match Isoformat.fromisoformat (replace_char (chr "Z") (py "+00:00") v) with
  | Ok _ => validate_date_format v = Ok v
  | Raise _ => validate_date_format v = Raise ValidationError
  end.
Proof.
  unfold validate_date_format, validator.
  pose proof (fromisoformat_only (replace_char (chr "Z") (py "+00:00") v)) as Hve.
  destruct (Isoformat.fromisoformat _) as [x|e]; [reflexivity|].
  now rewrite (Hve e eq_refl).
Qed.

(** A naive text followed by 'Z' is validated as the text of the same time
    in UTC. *)
Lemma replace_Z_isoformat (d : datetime) :
  valid_datetime d -> tzinfo d = None ->
  replace_char (chr "Z") (py "+00:00") (isoformat d ++ py "Z")
  = isoformat (mk_datetime (year d) (month d) (day d) (hour d) (minute d)
                 (second d) (microsecond d) (Some 0)).
Proof.
  intros Hv Hnaive.
  assert (Hoff : valid_offset (tzinfo d)) by (now rewrite Hnaive).
  unfold replace_char. rewrite flat_map_app.
  fold (replace_char (chr "Z") (py "+00:00") (isoformat d)).
  rewrite (replace_char_absent _ _ _ (isoformat_no_Z d Hv Hoff)).
  unfold isoformat. rewrite Hnaive.
  cbn [year month day hour minute second microsecond tzinfo].
  change (_format_offset None) with (@nil N).
  change (_format_offset (Some 0)) with (py "+00:00").
  change (flat_map _ (py "Z")) with (py "+00:00").
  rewrite app_nil_r, <- !app_assoc. reflexivity.
Qed.

End BasicDate.

(** C3 as stated fails both ways: the ordinal date of ISO 8601 with a time
    is rejected, and a text with another letter than 'T' between date and
    time, which ISO 8601 does not have, is accepted. *)
Lemma iso8601_differs_from_fromisoformat :
  Iso8601.iso8601 (py "2024-015T10:30:00") = true
  /\ new_GMailData (kwargs (py "m1") (py "ann@example.com") (py "Hello")
                      (py "2024-015T10:30:00"))
     = Raise ValidationError
  /\ Iso8601.iso8601 (py "2024-01-15x10:30:00") = false
  /\ new_GMailData (kwargs (py "m1") (py "ann@example.com") (py "Hello")
                      (py "2024-01-15x10:30:00"))
     = Ok (mk_GMailData (py "m1") None (py "ann@example.com") (py "Hello")
             (py "2024-01-15x10:30:00") []).
Proof. vm_compute. repeat split. Qed.

(** C3, as the code has it.  A basic record is built for every date that
    [isoformat] writes for a valid datetime, naive or with an offset of less
    than a day, and for the naive text followed by 'Z'; in general it is
    built exactly when [fromisoformat] reads the date with every 'Z'
    replaced by [+00:00], and a validation error is raised for the rest. *)
Theorem isoformat_dates_accepted (d : Datetime.datetime) (i f s : list N) :
  valid_datetime d -> valid_offset (Datetime.tzinfo d) ->
  new_GMailData (kwargs i f s (Datetime.isoformat d))
  = Ok (mk_GMailData i None f s (Datetime.isoformat d) [])
  /\ (Datetime.tzinfo d = None ->
      new_GMailData (kwargs i f s (Datetime.isoformat d ++ py "Z"))
      = Ok (mk_GMailData i None f s (Datetime.isoformat d ++ py "Z") []))
  /\ (forall v,
         (is_ok (Isoformat.fromisoformat
                   (replace_char (chr "Z") (py "+00:00") v)) = true ->
          new_GMailData (kwargs i f s v) = Ok (mk_GMailData i None f s v []))
         /\ (is_ok (Isoformat.fromisoformat
                      (replace_char (chr "Z") (py "+00:00") v)) = false ->
             new_GMailData (kwargs i f s v) = Raise ValidationError)).
Proof.
  intros Hv Hoff.
  assert (Hall : forall v,
             (is_ok (Isoformat.fromisoformat
                       (replace_char (chr "Z") (py "+00:00") v)) = true ->
              new_GMailData (kwargs i f s v) = Ok (mk_GMailData i None f s v []))
             /\ (is_ok (Isoformat.fromisoformat
                          (replace_char (chr "Z") (py "+00:00") v)) = false ->
                 new_GMailData (kwargs i f s v) = Raise ValidationError)).
  { intros v. rewrite new_GMailData_kwargs.
    pose proof (validate_date_format_result v) as H.
    destruct (Isoformat.fromisoformat _); split; intros Hok;
      first [discriminate Hok | now rewrite H]. }
  split; [|split].
  - rewrite new_GMailData_kwargs, (validate_date_format_isoformat d Hv Hoff).
    reflexivity.
  - intros Hnaive. apply Hall. rewrite (replace_Z_isoformat d Hv Hnaive).
    rewrite fromisoformat_isoformat; [reflexivity| |exact (conj (Z.lt_0_1) Z.lt_0_1)].
    exact Hv.
  - exact Hall.
Qed.

Lemma isoformat_dates_accepted_witness :
  new_GMailData (kwargs (py "m1") (py "ann@example.com") (py "Hello")
                   (Datetime.isoformat sample_now))
  = Ok (mk_GMailData (py "m1") None (py "ann@example.com") (py "Hello")
          (Datetime.isoformat sample_now) [])
  /\ new_GMailData (kwargs (py "m1") (py "ann@example.com") (py "Hello")
                      (Datetime.isoformat sample_now ++ py "Z"))
     = Ok (mk_GMailData (py "m1") None (py "ann@example.com") (py "Hello")
             (Datetime.isoformat sample_now ++ py "Z") []).
Proof.
  destruct (isoformat_dates_accepted sample_now (py "m1") (py "ann@example.com")
              (py "Hello"))
    as (H1 & H2 & _).
  - split; reflexivity.
  - exact I.
  - split; [exact H1 | exact (H2 eq_refl)].
Defined.

(** ** The Date header and the fall back to the clock (C6) *)

Section DateFallback.
Import Datetime.

Ltac other_key := intros Hk; vm_compute in Hk; discriminate Hk.

Ltac dict_lookup :=
  repeat first [ rewrite lookup_insert_eq
               | rewrite lookup_insert_ne by other_key
               | rewrite lookup_empty ].

(** What follows the first [" ("] is cut off. *)
Lemma split_head_paren (s t : list N) :
  contains (py " (") s = false ->
  split_head (py " (") (s ++ py " (" ++ t) = s.
Proof.
  induction s as [|c s IH]; intros Hs; [reflexivity|].
  cbn [contains] in Hs. apply orb_false_iff in Hs as [Hhere Hrest].
  cbn [app split_head].
  replace (starts_with (py " (") (c :: s ++ py " (" ++ t)) with false.
  - now rewrite IH.
  - destruct s as [|c' s]; [|exact (eq_sym Hhere)].
    change (py " (") with [chr " "; chr "("]. cbn [app starts_with].
    change (N.eqb (chr "(") (chr " ")) with false. now rewrite andb_false_r.
Qed.

Lemma contains_paren (s t : list N) :
  contains (py " (") (s ++ py " (" ++ t) = true.
Proof.
  induction s as [|c s IH]; [reflexivity|].
  cbn [app contains]. rewrite IH. apply orb_true_r.
Qed.

Lemma date_to_parse_strips (s t : list N) :
  contains (py " (") s = false -> date_to_parse (s ++ py " (" ++ t) = s.
Proof.
  intros Hs. unfold date_to_parse. rewrite contains_paren.
  now apply split_head_paren.
Qed.



Lemma optional_thread_id (d : gmap (list N) pyval) (t : option (list N)) :
  d !! py "thread_id" = Some (opt_str t) -> optional_str d "thread_id" = Ok t.
Proof. intros H. unfold optional_str. rewrite H. now destruct t. Qed.

Lemma new_GMailData_basic_dict
      (message : message) (md : message_details)
      (hs : gmap (list N) (list N)) (d : datetime) :
  validate_date_format (isoformat d) = Ok (isoformat d) ->
  new_GMailData (basic_dict message md hs d)
  = Ok (mk_GMailData (msg_id message) (threadId md) (get_str hs "From" "Unknown")
          (get_str hs "Subject" "No Subject") (isoformat d)
          (match snippet_ md with Some s => s | None => [] end)).
Proof.
  intros Hdate. unfold new_GMailData.
  rewrite (optional_thread_id _ (threadId md))
    by (unfold basic_dict; dict_lookup; reflexivity).
  unfold basic_dict, required_str, default_str. dict_lookup.
  cbn [bind]. rewrite Hdate. reflexivity.
Qed.

Lemma new_GMailData_extended_dict
      (message : message) (md : message_details)
      (hs : gmap (list N) (list N)) (d : datetime) :
  validate_date_format (isoformat d) = Ok (isoformat d) ->
  new_GMailData (extended_dict message md hs d)
  = Ok (mk_GMailData (msg_id message) (threadId md) (get_str hs "From" "Unknown")
          (get_str hs "Subject" "No Subject") (isoformat d)
          (match snippet_ md with Some s => s | None => [] end)).
Proof.
  intros Hdate. unfold new_GMailData.
  rewrite (optional_thread_id _ (threadId md))
    by (unfold extended_dict; dict_lookup; reflexivity).
  unfold extended_dict, required_str, default_str. dict_lookup.
  cbn [bind]. rewrite Hdate. reflexivity.
Qed.


(** The keyword dict with or without the key ['body']. *)
Definition add_body (ob : option (list N)) (d : gmap (list N) pyval)
  : gmap (list N) pyval :=
  match ob with
  | Some b => <[py "body" := VStr b]> d
  | None => d
  end.

Lemma new_GMailData_add_body (ob : option (list N)) (d : gmap (list N) pyval) :
  new_GMailData (add_body ob d) = new_GMailData d.
Proof. destruct ob; [apply new_GMailData_ignores_body|reflexivity]. Qed.

Lemma new_GMailDataExtended_extended_dict
      (message : message) (md : message_details)
      (hs : gmap (list N) (list N)) (d : datetime) (ob : option (list N)) :
  validate_date_format (isoformat d) = Ok (isoformat d) ->
  validate_readable_date (strftime_readable d) = Ok (strftime_readable d) ->
  (forall n, sizeEstimate md = Some n -> 0 <= n) ->
  new_GMailDataExtended (add_body ob (extended_dict message md hs d))
  = Ok (mk_GMailDataExtended
          (mk_GMailData (msg_id message) (threadId md)
             (get_str hs "From" "Unknown") (get_str hs "Subject" "No Subject")
             (isoformat d) (match snippet_ md with Some s => s | None => [] end))
          (get_str hs "To" "Unknown") (strftime_readable d)
          (match labelIds md with Some l => l | None => [] end)
          (match sizeEstimate md with Some n => n | None => 0 end) ob).
Proof.
  intros Hdate Hreadable Hsize. unfold new_GMailDataExtended.
  rewrite new_GMailData_add_body, (new_GMailData_extended_dict _ _ _ _ Hdate).
  cbn [bind].
  assert (Hn : (0 <=? match sizeEstimate md with Some n => n | None => 0 end)
               = true).
  { apply Z.leb_le. destruct (sizeEstimate md) as [n|]; [now apply Hsize|lia]. }
  unfold extended_dict, required_str, default_list, default_nonneg_int,
    optional_str.
  destruct ob as [b|]; cbn [add_body]; dict_lookup; cbn [bind];
    rewrite Hreadable; cbn [bind]; rewrite Hn; reflexivity.
Qed.

(** The clock is written in the readable format as [strptime] reads it. *)
Lemma validate_readable_date_strftime (d : datetime) :
  valid_datetime d -> 1000 <= year d ->
  validate_readable_date (strftime_readable d) = Ok (strftime_readable d).
Proof.
  intros Hv Hy. pose proof (valid_fields d Hv) as (Hy' & _).
  assert (E : strftime_readable d
              = readable (year d) (month d) (day d) (hour d) (minute d) (second d)).
  { unfold strftime_readable, readable. now rewrite decimal_4 by lia. }
  rewrite E.
  pose proof (validate_readable_date_result
                (readable (year d) (month d) (day d) (hour d) (minute d)
                   (second d))) as H.
  destruct Hv as [Hcd Hct].
  assert (Hct' : _check_time_fields (hour d) (minute d) (second d) 0 = true).
  { unfold _check_time_fields in *. z_bools. repeat (apply andb_true_iff; split);
      first [apply Z.leb_le; lia | reflexivity]. }
  now rewrite (strptime_readable _ _ _ _ _ _ Hcd Hct') in H.
Qed.

End DateFallback.

(** The header of the first sample message: the zone name is cut off and the
    rest is parsed. *)
Example date_header_with_zone_name :
  date_to_parse (py "Mon, 15 Jan 2024 10:30:00 -0800 (PST)")
  = py "Mon, 15 Jan 2024 10:30:00 -0800"
  /\ parse_date sample_now (py "Mon, 15 Jan 2024 10:30:00 -0800 (PST)")
     = Datetime.mk_datetime 2024 1 15 10 30 0 0 (Some (- 28800000000)).
Proof. vm_compute. split; reflexivity. Qed.

(** ** What strptime returns *)

Section StrptimeResult.
Import Datetime Strptime.

Lemma bind_inv {A B : Type} (r : result A) (k : A -> result B) (b : B) :
  bind r k = Ok b -> exists a, r = Ok a /\ k a = Ok b.
Proof. destruct r as [a|e]; [now exists a|discriminate]. Qed.

Lemma new_datetime_inv (y mo d h mi s us : Z) (tz : option timedelta)
      (dt : datetime) :
  new_datetime y mo d h mi s us tz = Ok dt ->
  dt = mk_datetime y mo d h mi s us tz /\ valid_datetime dt.
Proof.
  unfold new_datetime.
  destruct (_check_date_fields y mo d && _check_time_fields h mi s us) eqn:E;
    [|discriminate].
  intros [= <-]. apply andb_true_iff in E. split; [reflexivity|exact E].
Qed.

Lemma timezone_inv (o o' : timedelta) :
  timezone o = Ok o' -> o' = o /\ valid_offset (Some o').
Proof.
  unfold timezone.
  destruct ((- 86400000000 <? o) && (o <? 86400000000)) eqn:E; [|discriminate].
  intros [= <-]. split; [reflexivity|]. apply andb_true_iff in E as [E1 E2].
  apply Z.ltb_lt in E1, E2. exact (conj E1 E2).
Qed.

(** A datetime that [strptime] returns has fields in range, whole seconds
    and an offset within a day; it is naive when no [%z] took part in the
    match. *)
Lemma strptime_result (data_string format : list N) (dt : datetime) :
  strptime data_string format = Ok dt ->
  valid_datetime dt /\ valid_offset (tzinfo dt) /\ microsecond dt = 0.
Proof.
  unfold strptime. destruct (pattern format) as [r|]; [|discriminate].
  destruct (Re.match_ r data_string) as [[rest g]|]; [|discriminate].
  destruct (truthy rest); [discriminate|].
  repeat (let H := fresh in
          intros H; apply bind_inv in H as (? & _ & H); revert H).
  destruct (negb _); [discriminate|].
  intros H. apply bind_inv in H as (tz & Htz & H).
  apply new_datetime_inv in H as [-> Hv].
  split; [exact Hv|]. split; [|reflexivity]. cbn [tzinfo].
  match type of Htz with
  | match ?gmt with _ => _ end = _ => destruct gmt as [[gmtoff frac]|]
  end.
  - apply bind_inv in Htz as (o & Ho & [= <-]). now apply timezone_inv in Ho.
  - injection Htz as <-. exact I.
Qed.

Lemma parse_date_valid (now : datetime) (date_str : list N) :
  valid_datetime now -> valid_offset (tzinfo now) ->
  valid_datetime (parse_date now date_str)
  /\ valid_offset (tzinfo (parse_date now date_str)).
Proof.
  intros Hv Hoff. unfold parse_date.
  destruct (strptime _ _) as [d|e] eqn:E; [|now split].
  apply strptime_result in E as (H1 & H2 & _). now split.
Qed.

End StrptimeResult.

(** ** What _parse_email_data returns *)

Section ParseEmailData.
Import Datetime.

(** The headers of a payload as the dict comprehension reads them. *)
Definition headers_of (pl : part) : gmap (list N) (list N) :=
  headers_dict (match p_headers pl with Some l => l | None => [] end).

(** The basic record of a fetched message. *)
Definition basic_record (now : datetime) (message : message)
           (md : message_details) (pl : part) : GMailData :=
  mk_GMailData (msg_id message) (threadId md)
    (get_str (headers_of pl) "From" "Unknown")
    (get_str (headers_of pl) "Subject" "No Subject")
    (isoformat (parse_date now (get_str (headers_of pl) "Date" "")))
    (match snippet_ md with Some s => s | None => [] end).

Lemma parse_email_data_basic
      (svc : service) (now : datetime) (message : message)
      (md : message_details) (pl : part) (include_body : bool) :
  valid_datetime now -> valid_offset (tzinfo now) ->
  messages_get svc (msg_id message) = Ok md -> payload md = Some pl ->
  _parse_email_data svc now message include_body true
  = if include_body
    then do body <- _extract_email_body md in
         Ok (Basic (basic_record now message md pl))
    else Ok (Basic (basic_record now message md pl)).
Proof.
  intros Hv Hoff Hget Hpl.
  destruct (parse_date_valid now (get_str (headers_of pl) "Date" "") Hv Hoff)
    as [Hpv Hpo].
  pose proof (validate_date_format_isoformat _ Hpv Hpo) as Hdate.
  unfold _parse_email_data. rewrite Hget. cbn [bind]. rewrite Hpl. cbn [bind].
  fold (headers_of pl). cbv zeta.
  destruct include_body.
  - destruct (_extract_email_body md) as [body|e]; [|reflexivity]. cbn [bind].
    rewrite new_GMailData_ignores_body,
      (new_GMailData_basic_dict _ _ _ _ Hdate).
    reflexivity.
  - cbn [bind]. rewrite (new_GMailData_basic_dict _ _ _ _ Hdate). reflexivity.
Qed.


(** The extended record of a fetched message; [ob] is the body, if asked
    for. *)
Definition extended_record (now : datetime) (message : message)
           (md : message_details) (pl : part) (ob : option (list N))
  : GMailDataExtended :=
  mk_GMailDataExtended (basic_record now message md pl)
    (get_str (headers_of pl) "To" "Unknown")
    (strftime_readable (parse_date now (get_str (headers_of pl) "Date" "")))
    (match labelIds md with Some l => l | None => [] end)
    (match sizeEstimate md with Some n => n | None => 0 end) ob.

Lemma parse_email_data_extended
      (svc : service) (now : datetime) (message : message)
      (md : message_details) (pl : part) (include_body : bool) :
  valid_datetime now -> valid_offset (tzinfo now) ->
  messages_get svc (msg_id message) = Ok md -> payload md = Some pl ->
  1000 <= year (parse_date now (get_str (headers_of pl) "Date" "")) ->
  (forall n, sizeEstimate md = Some n -> 0 <= n) ->
  _parse_email_data svc now message include_body false
  = if include_body
    then do body <- _extract_email_body md in
         Ok (Extended (extended_record now message md pl
                         (Some (if truthy body then _clean_html body else []))))
    else Ok (Extended (extended_record now message md pl None)).
Proof.
  intros Hv Hoff Hget Hpl Hyear Hsize.
  destruct (parse_date_valid now (get_str (headers_of pl) "Date" "") Hv Hoff)
    as [Hpv Hpo].
  pose proof (validate_date_format_isoformat _ Hpv Hpo) as Hdate.
  pose proof (validate_readable_date_strftime _ Hpv Hyear) as Hreadable.
  unfold _parse_email_data. rewrite Hget. cbn [bind]. rewrite Hpl. cbn [bind].
  fold (headers_of pl). cbv zeta.
  destruct include_body.
  - destruct (_extract_email_body md) as [body|e]; [|reflexivity]. cbn [bind].
    pose proof (new_GMailDataExtended_extended_dict message md (headers_of pl) _
                  (Some (if truthy body then _clean_html body else []))
                  Hdate Hreadable Hsize) as H.
    cbn [add_body] in H. rewrite H. reflexivity.
  - cbn [bind].
    pose proof (new_GMailDataExtended_extended_dict message md (headers_of pl) _
                  None Hdate Hreadable Hsize) as H.
    cbn [add_body] in H. rewrite H. reflexivity.
Qed.

End ParseEmailData.

(** ** Records, their validators and their dumps *)

Section Records.
Import Dump.

Ltac other_key := intros Hk; vm_compute in Hk; discriminate Hk.

Ltac dict_lookup :=
  repeat first [ rewrite lookup_insert_eq
               | rewrite lookup_insert_ne by other_key
               | rewrite lookup_empty ].

Lemma validator_inv {A : Type} (r : result A) (v v' : list N) :
  validator r v = Ok v' -> v' = v /\ is_ok r = true.
Proof.
  unfold validator. destruct r as [a|e].
  - intros [= <-]. now split.
  - destruct e; discriminate.
Qed.

Lemma required_str_inv (d : gmap (list N) pyval) (key : string) (s : list N) :
  required_str d key = Ok s -> d !! py key = Some (VStr s).
Proof.
  unfold required_str. destruct (d !! py key) as [[]|]; try discriminate.
  now intros [= <-].
Qed.

(** What a basic record that was built tells of its arguments. *)
Lemma new_GMailData_inv (d : gmap (list N) pyval) (g : GMailData) :
  new_GMailData d = Ok g ->
  d !! py "id" = Some (VStr (id_ g))
  /\ d !! py "from" = Some (VStr (from_ g))
  /\ d !! py "subject" = Some (VStr (subject g))
  /\ d !! py "date" = Some (VStr (date g))
  /\ validate_date_format (date g) = Ok (date g).
Proof.
  unfold new_GMailData. intros H.
  apply bind_inv in H as (i & Hi & H). apply bind_inv in H as (t & Ht & H).
  apply bind_inv in H as (f & Hf & H). apply bind_inv in H as (s & Hs & H).
  apply bind_inv in H as (dt0 & Hdt0 & H). apply bind_inv in H as (dt & Hdt & H).
  apply bind_inv in H as (sn & Hsn & H). injection H as <-.
  cbn [id_ from_ subject date].
  pose proof (validator_inv _ _ _ Hdt) as [-> _].
  repeat split; try now apply required_str_inv. exact Hdt.
Qed.

Lemma new_GMailData_dump (g : GMailData) (more : list (list N * pyval)) :
  validate_date_format (date g) = Ok (date g) ->
  new_GMailData (kwargs_of (dump_basic g ++ more)) = Ok g.
Proof.
  intros Hdate. destruct g as [i t f s dt sn]. cbn [date] in Hdate.
  unfold new_GMailData, kwargs_of, dump_basic, required_str, optional_str,
    default_str.
  cbn [id_ thread_id from_ subject date snippet app list_to_map foldr uncurry
       fst snd].
  dict_lookup. cbn [bind]. rewrite Hdate. cbn [bind].
  destruct t; reflexivity.
Qed.


(** What an extended record that was built tells of its arguments. *)
Lemma new_GMailDataExtended_inv (d : gmap (list N) pyval)
      (x : GMailDataExtended) :
  new_GMailDataExtended d = Ok x ->
  new_GMailData d = Ok (basic x)
  /\ validate_readable_date (date_readable x) = Ok (date_readable x)
  /\ 0 <= size_estimate x.
Proof.
  unfold new_GMailDataExtended. intros H.
  apply bind_inv in H as (b & Hb & H). apply bind_inv in H as (t & Ht & H).
  apply bind_inv in H as (dr0 & Hdr0 & H). apply bind_inv in H as (dr & Hdr & H).
  apply bind_inv in H as (l & Hl & H). apply bind_inv in H as (sz & Hsz & H).
  apply bind_inv in H as (bd & Hbd & H). injection H as <-.
  cbn [basic date_readable size_estimate].
  pose proof (validator_inv _ _ _ Hdr) as [-> _].
  split; [exact Hb|]. split; [exact Hdr|].
  unfold default_nonneg_int in Hsz.
  destruct (d !! py "size_estimate") as [[| |n|]|]; try discriminate.
  - destruct (0 <=? n) eqn:E; [|discriminate]. injection Hsz as <-.
    now apply Z.leb_le.
  - injection Hsz as <-. lia.
Qed.

Lemma new_GMailDataExtended_dump (x : GMailDataExtended) :
  validate_date_format (date (basic x)) = Ok (date (basic x)) ->
  validate_readable_date (date_readable x) = Ok (date_readable x) ->
  0 <= size_estimate x ->
  new_GMailDataExtended (kwargs_of (model_dump (Extended x))) = Ok x.
Proof.
  intros Hdate Hreadable Hsize. unfold new_GMailDataExtended.
  cbn [model_dump]. rewrite (new_GMailData_dump _ _ Hdate). cbn [bind].
  destruct x as [[i t f s dt sn] tt dr l sz bd].
  cbn [basic to date_readable labels size_estimate body_] in *.
  unfold kwargs_of, dump_basic, required_str, default_list, default_nonneg_int,
    optional_str.
  cbn [id_ thread_id from_ subject date snippet app list_to_map foldr uncurry
       fst snd].
  dict_lookup. cbn [bind]. rewrite Hreadable. cbn [bind].
  replace (0 <=? sz) with true by (symmetry; now apply Z.leb_le).
  cbn [bind]. destruct bd; reflexivity.
Qed.

End Records.

(** Every record that the constructors return satisfies the validators of
    its class: its date is read by [fromisoformat] (with 'Z' for [+00:00]),
    and for an extended record the readable date is read by [strptime] and
    the size estimate is not negative. *)
Theorem records_are_validated (d : gmap (list N) pyval) :
  (forall g, new_GMailData d = Ok g ->
             is_ok (Isoformat.fromisoformat
                      (replace_char (chr "Z") (py "+00:00") (date g))) = true)
  /\ (forall x, new_GMailDataExtended d = Ok x ->
                is_ok (Isoformat.fromisoformat
                         (replace_char (chr "Z") (py "+00:00") (date (basic x))))
                = true
                /\ is_ok (Strptime.strptime (date_readable x)
                            (py "%Y-%m-%d %H:%M:%S")) = true
                /\ 0 <= size_estimate x).
Proof.
  assert (Hbasic : forall g, new_GMailData d = Ok g ->
             is_ok (Isoformat.fromisoformat
                      (replace_char (chr "Z") (py "+00:00") (date g))) = true).
  { intros g Hg. apply new_GMailData_inv in Hg as (_ & _ & _ & _ & Hdate).
    now apply validator_inv in Hdate. }
  split; [exact Hbasic|].
  intros x Hx. apply new_GMailDataExtended_inv in Hx as (Hb & Hr & Hsz).
  split; [now apply Hbasic|]. split; [|exact Hsz].
  now apply validator_inv in Hr.
Qed.

(** An extended record and the keyword arguments that build it. *)
Definition sample_record : GMailDataExtended :=
  mk_GMailDataExtended
    (mk_GMailData (py "m1") (Some (py "t1")) (py "ann@example.com") (py "Hello")
                  (py "2024-01-15T10:30:00Z") (py "hi there"))
    (py "bob@example.com") (py "2024-01-15 10:30:00") [py "INBOX"; py "UNREAD"]
    2048 None.

Definition sample_kwargs : gmap (list N) pyval :=
  Dump.kwargs_of (Dump.model_dump (Extended sample_record)).

Lemma records_are_validated_witness :
  new_GMailDataExtended sample_kwargs = Ok sample_record
  /\ is_ok (Isoformat.fromisoformat (py "2024-01-15T10:30:00+00:00")) = true
  /\ is_ok (Strptime.strptime (py "2024-01-15 10:30:00")
              (py "%Y-%m-%d %H:%M:%S")) = true
  /\ 0 <= 2048.
Proof.
  assert (H : new_GMailDataExtended sample_kwargs = Ok sample_record)
    by (vm_compute; reflexivity).
  split; [exact H|].
  exact (proj2 (records_are_validated sample_kwargs) sample_record H).
Defined.

(** A record is rebuilt unchanged from its own dump: for every record [e]
    that a constructor returned, the constructor of its class applied to
    [e.model_dump(by_alias=True)] returns [e]. *)
Theorem dump_rebuilds_record (d : gmap (list N) pyval) :
  (forall g, new_GMailData d = Ok g ->
             new_GMailData (Dump.kwargs_of (Dump.model_dump (Basic g))) = Ok g)
  /\ (forall x, new_GMailDataExtended d = Ok x ->
                new_GMailDataExtended
                  (Dump.kwargs_of (Dump.model_dump (Extended x))) = Ok x).
Proof.
  split.
  - intros g Hg. apply new_GMailData_inv in Hg as (_ & _ & _ & _ & Hdate).
    cbn [Dump.model_dump]. rewrite <- (app_nil_r (Dump.dump_basic g)).
    now apply new_GMailData_dump.
  - intros x Hx. apply new_GMailDataExtended_inv in Hx as (Hb & Hr & Hsz).
    apply new_GMailData_inv in Hb as (_ & _ & _ & _ & Hdate).
    now apply new_GMailDataExtended_dump.
Qed.

Lemma dump_rebuilds_record_witness :
  new_GMailData sample_kwargs = Ok (basic sample_record)
  /\ new_GMailData (Dump.kwargs_of (Dump.model_dump (Basic (basic sample_record))))
     = Ok (basic sample_record)
  /\ new_GMailDataExtended sample_kwargs = Ok sample_record.
Proof.
  assert (H : new_GMailData sample_kwargs = Ok (basic sample_record))
    by (vm_compute; reflexivity).
  split; [exact H|]. split.
  - exact (proj1 (dump_rebuilds_record sample_kwargs) (basic sample_record) H).
  - apply (proj2 (dump_rebuilds_record sample_kwargs) sample_record).
    vm_compute. reflexivity.
Defined.

(** ** Which records a retrieval returns *)

Section ReturnedRecords.

Ltac other_key := intros Hk; vm_compute in Hk; discriminate Hk.

Ltac dict_lookup :=
  repeat first [ rewrite lookup_insert_eq
               | rewrite lookup_insert_ne by other_key
               | rewrite lookup_empty ].

Definition email_id (e : email) : list N :=
  match e with
  | Basic g => id_ g
  | Extended x => id_ (basic x)
  end.

Definition is_basic (e : email) : bool :=
  match e with
  | Basic _ => true
  | Extended _ => false
  end.

(** A record carries the id of the listed message it was parsed from, and
    is of the class that was asked for. *)
Lemma parse_email_data_id
      (svc : service) (now : Datetime.datetime) (message : message)
      (include_body basic_data : bool) (e : email) :
  _parse_email_data svc now message include_body basic_data = Ok e ->
  email_id e = msg_id message /\ is_basic e = basic_data.
Proof.
  unfold _parse_email_data. intros H.
  apply bind_inv in H as (md & _ & H). apply bind_inv in H as (pl & _ & H).
  cbv zeta in H. apply bind_inv in H as (d & Hd & H).
  assert (Hid : d !! py "id" = Some (VStr (msg_id message))).
  { destruct include_body.
    - apply bind_inv in Hd as (body & _ & [= <-]).
      destruct basic_data; unfold basic_dict, extended_dict; dict_lookup;
        reflexivity.
    - injection Hd as <-.
      destruct basic_data; unfold basic_dict, extended_dict; dict_lookup;
        reflexivity. }
  destruct basic_data.
  - apply bind_inv in H as (g & Hg & [= <-]).
    apply new_GMailData_inv in Hg as (Hi & _). rewrite Hid in Hi.
    injection Hi as Hi. now split.
  - apply bind_inv in H as (x & Hx & [= <-]).
    apply new_GMailDataExtended_inv in Hx as (Hb & _).
    apply new_GMailData_inv in Hb as (Hi & _). rewrite Hid in Hi.
    injection Hi as Hi. now split.
Qed.

Lemma successes_ids (svc : service) (clock : nat -> Datetime.datetime)
      (include_body basic_data : bool) (messages : list message) :
  forall i,
    map email_id
        (successes (fun i m => _parse_email_data svc (clock i) m include_body
                                                 basic_data) i messages)
      `sublist_of` map msg_id messages
    /\ Forall (fun e => is_basic e = basic_data)
              (successes (fun i m => _parse_email_data svc (clock i) m
                                                       include_body basic_data)
                         i messages).
Proof.
  induction messages as [|m rest IH]; intros i; cbn [successes map].
  - split; constructor.
  - destruct (IH (S i)) as [IH1 IH2].
    destruct (_parse_email_data svc (clock i) m include_body basic_data)
      as [e|err] eqn:E.
    + apply parse_email_data_id in E as [Hid Hb]. cbn [map]. rewrite Hid.
      split; [now apply sublist_skip|now constructor].
    + split; [now apply sublist_cons|exact IH2].
Qed.

End ReturnedRecords.

(** Whatever a retrieval returns, the ids of the records are ids of listed
    messages, in the order of the listing and each message at most once, and
    every record is of the class that was asked for. *)
Theorem returned_ids_are_listed
        (svc : service) (clock : nat -> Datetime.datetime)
        (start_date end_date : Datetime.datetime) (max_results : Z)
        (query_filter : list N) (include_body basic_data : bool)
        (results : option (list message)) (emails : list email) :
  messages_list svc (query start_date end_date query_filter) max_results
  = Ok results ->
  get_emails_by_date_range svc clock start_date end_date max_results query_filter
                           include_body basic_data = Ok emails ->
  map email_id emails
    `sublist_of` map msg_id (match results with Some l => l | None => [] end)
  /\ Forall (fun e => is_basic e = basic_data) emails.
Proof.
  intros Hlist. unfold get_emails_by_date_range. rewrite Hlist.
  destruct (match results with Some l => l | None => [] end) as [|m rest] eqn:E.
  - intros [= <-]. split; constructor.
  - rewrite retrieve_spec. intros [= <-].
    apply (successes_ids svc clock include_body basic_data (m :: rest) 1).
Qed.

Lemma returned_ids_are_listed_witness :
  exists emails,
    get_emails_by_date_range sample_service (fun _ => sample_now) sample_now
                             sample_now 10 [] false true = Ok emails
    /\ map email_id emails = [py "m1"; py "m3"]
    /\ map email_id emails `sublist_of` [py "m1"; py "m2"; py "m3"].
Proof.
  eexists. split; [vm_compute; reflexivity|]. split; [vm_compute; reflexivity|].
  apply (returned_ids_are_listed sample_service (fun _ => sample_now) sample_now
           sample_now 10 [] false true
           (Some [mk_message (py "m1"); mk_message (py "m2");
                  mk_message (py "m3")])).
  - reflexivity.
  - vm_compute. reflexivity.
Defined.

(** ** How many characters a format can take *)

Section Width.
Import Re.

(** The longest text a regex can match, when there is a bound. *)
Fixpoint width (r : regex) : option nat :=
  match r with
  | Eps => Some 0%nat
  | Chr _ => Some 1%nat
  | Cat r1 r2 =>
      match width r1, width r2 with
      | Some a, Some b => Some (a + b)%nat
      | _, _ => None
      end
  | Alt r1 r2 =>
      match width r1, width r2 with
      | Some a, Some b => Some (Nat.max a b)
      | _, _ => None
      end
  | Opt r1 => width r1
  | Rep _ hi _ => hi
  | Grp _ r1 => width r1
  end.

Lemma rep_width {R : Type} (p : N -> bool) (s : list N) :
  forall lo hi (k : list N -> option R) (x : R),
    rep p lo (Some hi) s k = Some x ->
    exists s', k s' = Some x /\ (length s <= length s' + hi)%nat.
Proof.
  induction s as [|c s IH]; intros lo hi k x H.
  - cbn [rep] in H. destruct lo; [|discriminate]. exists []. split; [exact H|lia].
  - cbn [rep] in H.
    assert (Hstop : match lo with O => k (c :: s) | S _ => None end = Some x ->
                    exists s', k s' = Some x
                               /\ (length (c :: s) <= length s' + hi)%nat).
    { destruct lo; [|discriminate]. intros Hk. exists (c :: s). split; [exact Hk|lia]. }
    destruct (p c && may_take (Some hi)) eqn:E; [|now apply Hstop].
    destruct (rep p (Nat.pred lo) (one_less (Some hi)) s k) as [y|] eqn:Er;
      [|now apply Hstop].
    injection H as ->. cbn [one_less] in Er.
    apply IH in Er as (s' & Hk & Hlen). exists s'. split; [exact Hk|].
    apply andb_true_iff in E as [_ E]. destruct hi; [discriminate|].
    cbn [length Nat.pred] in *. lia.
Qed.

Lemma m_width (r : regex) :
  forall (w : nat), width r = Some w ->
  forall (R : Type) (s : list N) (g : groups)
         (k : list N -> groups -> option R) (x : R),
    m r s g k = Some x ->
    exists s' g', k s' g' = Some x /\ (length s <= length s' + w)%nat.
Proof.
  induction r as [|p|r1 IH1 r2 IH2|r1 IH1 r2 IH2|r1 IH1|lo hi p|name r1 IH1];
    intros w Hw R s g k x H; cbn [width] in Hw; cbn [m] in H.
  - injection Hw as <-. exists s, g. split; [exact H|lia].
  - injection Hw as <-. destruct s as [|c s]; [discriminate|].
    destruct (p c); [|discriminate]. exists s, g. split; [exact H|cbn; lia].
  - destruct (width r1) as [a|]; [|discriminate].
    destruct (width r2) as [b|]; [|discriminate]. injection Hw as <-.
    apply (IH1 a eq_refl) in H as (s1 & g1 & H & Hlen1).
    apply (IH2 b eq_refl) in H as (s2 & g2 & H & Hlen2).
    exists s2, g2. split; [exact H|lia].
  - destruct (width r1) as [a|]; [|discriminate].
    destruct (width r2) as [b|]; [|discriminate]. injection Hw as <-.
    destruct (m r1 s g k) as [y|] eqn:E1.
    + injection H as ->. apply (IH1 a eq_refl) in E1 as (s1 & g1 & H & Hlen).
      exists s1, g1. split; [exact H|lia].
    + apply (IH2 b eq_refl) in H as (s1 & g1 & H & Hlen).
      exists s1, g1. split; [exact H|lia].
  - destruct (m r1 s g k) as [y|] eqn:E1.
    + injection H as ->. now apply (IH1 w Hw) in E1.
    + exists s, g. split; [exact H|lia].
  - subst hi. apply rep_width in H as (s' & H & Hlen). now exists s', g.
  - apply (IH1 w Hw) in H as (s1 & g1 & H & Hlen). eauto.
Qed.

(** [strptime] raises on a text longer than its format can take. *)
Lemma strptime_too_long (data_string format : list N) (r : regex) (w : nat) :
  Strptime.pattern format = Some r -> width r = Some w ->
  (w < length data_string)%nat ->
  Strptime.strptime data_string format = Raise ValueError.
Proof.
  intros Hp Hw Hlen. unfold Strptime.strptime. rewrite Hp.
  destruct (match_ r data_string) as [[rest found]|] eqn:E; [|reflexivity].
  unfold match_ in E. apply (m_width r w Hw) in E as (s' & g' & [= <- <-] & Hl).
  destruct s'; [cbn in Hl; lia|reflexivity].
Qed.

End Width.

(** ** The dates that ensure_datetime reads *)

Ltac char_tests :=
  repeat match goal with
         | |- context [N.eqb (chr ?a) (chr ?b)] =>
             let v := eval vm_compute in (N.eqb (chr a) (chr b)) in
             change (N.eqb (chr a) (chr b)) with v
         end.

Ltac date_bounds Hdate :=
  let Hr := fresh "Hr" in
  match type of Hdate with
  | Datetime._check_date_fields ?y ?mo ?d = true =>
      assert (Hr : 1 <= y <= 9999 /\ 1 <= mo <= 12 /\ 1 <= d <= 31);
      [ pose proof Hdate as Hr;
        unfold Datetime._check_date_fields, Datetime.MINYEAR, Datetime.MAXYEAR in Hr; z_bools;
        pose proof (days_in_month_bounds y mo ltac:(lia)); lia
      | ]
  end.

Ltac time_bounds Htime :=
  let Hr := fresh "Ht" in
  match type of Htime with
  | Datetime._check_time_fields ?h ?mi ?s 0 = true =>
      assert (Hr : 0 <= h <= 23 /\ 0 <= mi <= 59 /\ 0 <= s <= 59);
      [ pose proof Htime as Hr; unfold Datetime._check_time_fields in Hr; z_bools; lia
      | ]
  end.

Section DateFormats.
Import Re Strptime Datetime Utils.

(** The texts [YYYY-MM-DD], [AA/BB/YYYY] and [AA/BB/YYYY HH:MM:SS]. *)
Definition iso_date (y mo d : Z) : list N :=
  zero_pad 4 y ++ py "-" ++ zero_pad 2 mo ++ py "-" ++ zero_pad 2 d.

Definition slash_date (a b y : Z) : list N :=
  zero_pad 2 a ++ py "/" ++ zero_pad 2 b ++ py "/" ++ zero_pad 4 y.

Definition slash_timestamp (a b y h mi s : Z) : list N :=
  zero_pad 2 a ++ py "/" ++ zero_pad 2 b ++ py "/" ++ zero_pad 4 y ++ py " "
  ++ zero_pad 2 h ++ py ":" ++ zero_pad 2 mi ++ py ":" ++ zero_pad 2 s.

(** What [strptime] makes of the groups of a match. *)
Ltac read_groups Hdate :=
  cbn [truthy]; unfold int_group, name_group, int_r; cbn [group];
  char_tests; cbn iota; rewrite ?int_4, ?int_2 by lia; cbn [bind default];
  rewrite Hdate; cbn [negb]; unfold new_datetime; rewrite Hdate.

Lemma strptime_iso_date (y mo d : Z) :
  _check_date_fields y mo d = true ->
  strptime (iso_date y mo d) (py "%Y-%m-%d") = Ok (mk_datetime y mo d 0 0 0 0 None).
Proof.
  intros Hdate. date_bounds Hdate. destruct Hr as (Hy & Hmo & Hd).
  assert (Hm : match_ (Cat re_Y (Cat (ichr (chr "-")) (Cat re_m
                 (Cat (ichr (chr "-")) (Cat re_d Eps))))) (iso_date y mo d)
               = Some ([], [(chr "d", zero_pad 2 d); (chr "m", zero_pad 2 mo);
                            (chr "Y", zero_pad 4 y)])).
  { unfold match_, iso_date. cbn [m]. apply captures_Y; [lia|].
    change (py "-" ++ ?t) with (chr "-" :: t). rewrite literal_step.
    apply captures_m; [exact Hmo|].
    change (py "-" ++ ?t) with (chr "-" :: t). rewrite literal_step.
    rewrite <- (app_nil_r (zero_pad 2 d)) at 1.
    apply captures_d; [exact Hd|]. reflexivity. }
  unfold strptime.
  change (pattern (py "%Y-%m-%d"))
    with (Some (Cat re_Y (Cat (ichr (chr "-")) (Cat re_m
                 (Cat (ichr (chr "-")) (Cat re_d Eps)))))).
  cbv beta iota. rewrite Hm. read_groups Hdate. reflexivity.
Qed.

Lemma strptime_month_first (y mo d : Z) :
  _check_date_fields y mo d = true ->
  strptime (slash_date mo d y) (py "%m/%d/%Y")
  = Ok (mk_datetime y mo d 0 0 0 0 None).
Proof.
  intros Hdate. date_bounds Hdate. destruct Hr as (Hy & Hmo & Hd).
  assert (Hm : match_ (Cat re_m (Cat (ichr (chr "/")) (Cat re_d
                 (Cat (ichr (chr "/")) (Cat re_Y Eps))))) (slash_date mo d y)
               = Some ([], [(chr "Y", zero_pad 4 y); (chr "d", zero_pad 2 d);
                            (chr "m", zero_pad 2 mo)])).
  { unfold match_, slash_date. cbn [m]. apply captures_m; [exact Hmo|].
    change (py "/" ++ ?t) with (chr "/" :: t). rewrite literal_step.
    apply captures_d; [exact Hd|].
    change (py "/" ++ ?t) with (chr "/" :: t). rewrite literal_step.
    rewrite <- (app_nil_r (zero_pad 4 y)) at 1.
    apply captures_Y; [lia|]. reflexivity. }
  unfold strptime.
  change (pattern (py "%m/%d/%Y"))
    with (Some (Cat re_m (Cat (ichr (chr "/")) (Cat re_d
                 (Cat (ichr (chr "/")) (Cat re_Y Eps)))))).
  cbv beta iota. rewrite Hm. read_groups Hdate. reflexivity.
Qed.

Lemma strptime_day_first (y mo d : Z) :
  _check_date_fields y mo d = true ->
  strptime (slash_date d mo y) (py "%d/%m/%Y")
  = Ok (mk_datetime y mo d 0 0 0 0 None).
Proof.
  intros Hdate. date_bounds Hdate. destruct Hr as (Hy & Hmo & Hd).
  assert (Hm : match_ (Cat re_d (Cat (ichr (chr "/")) (Cat re_m
                 (Cat (ichr (chr "/")) (Cat re_Y Eps))))) (slash_date d mo y)
               = Some ([], [(chr "Y", zero_pad 4 y); (chr "m", zero_pad 2 mo);
                            (chr "d", zero_pad 2 d)])).
  { unfold match_, slash_date. cbn [m]. apply captures_d; [exact Hd|].
    change (py "/" ++ ?t) with (chr "/" :: t). rewrite literal_step.
    apply captures_m; [exact Hmo|].
    change (py "/" ++ ?t) with (chr "/" :: t). rewrite literal_step.
    rewrite <- (app_nil_r (zero_pad 4 y)) at 1.
    apply captures_Y; [lia|]. reflexivity. }
  unfold strptime.
  change (pattern (py "%d/%m/%Y"))
    with (Some (Cat re_d (Cat (ichr (chr "/")) (Cat re_m
                 (Cat (ichr (chr "/")) (Cat re_Y Eps)))))).
  cbv beta iota. rewrite Hm. read_groups Hdate. reflexivity.
Qed.


Lemma strptime_slash_timestamp (y mo d h mi s : Z) :
  _check_date_fields y mo d = true -> _check_time_fields h mi s 0 = true ->
  strptime (slash_timestamp mo d y h mi s) (py "%m/%d/%Y %H:%M:%S")
  = Ok (mk_datetime y mo d h mi s 0 None).
Proof.
  intros Hdate Htime. date_bounds Hdate. destruct Hr as (Hy & Hmo & Hd).
  time_bounds Htime. destruct Ht as (Hh & Hmi & Hs).
  assert (Hm : match_ (Cat re_m (Cat (ichr (chr "/")) (Cat re_d
                 (Cat (ichr (chr "/")) (Cat re_Y (Cat (plus is_space)
                 (Cat re_H (Cat (ichr (chr ":")) (Cat re_M
                 (Cat (ichr (chr ":")) (Cat re_S Eps)))))))))))
                 (slash_timestamp mo d y h mi s)
               = Some ([], [(chr "S", zero_pad 2 s); (chr "M", zero_pad 2 mi);
                            (chr "H", zero_pad 2 h); (chr "Y", zero_pad 4 y);
                            (chr "d", zero_pad 2 d); (chr "m", zero_pad 2 mo)])).
  { unfold match_, slash_timestamp. cbn [m]. apply captures_m; [exact Hmo|].
    change (py "/" ++ ?t) with (chr "/" :: t). rewrite literal_step.
    apply captures_d; [exact Hd|].
    change (py "/" ++ ?t) with (chr "/" :: t). rewrite literal_step.
    apply captures_Y; [lia|].
    change (py " " ++ ?t) with (chr " " :: t).
    rewrite (zero_pad_2 h) at 1 by lia. cbn [app].
    apply space_step.
    { apply digit_char_not_space, (div_digit h 10 10); lia. }
    change (digit_char (h / 10) :: digit_char (h mod 10) :: ?t)
      with ([digit_char (h / 10); digit_char (h mod 10)] ++ t).
    rewrite <- (zero_pad_2 h) by lia.
    apply captures_H; [exact Hh|].
    change (py ":" ++ ?t) with (chr ":" :: t). rewrite literal_step.
    apply captures_M; [exact Hmi|].
    change (py ":" ++ ?t) with (chr ":" :: t). rewrite literal_step.
    rewrite <- (app_nil_r (zero_pad 2 s)) at 1.
    apply captures_S; [exact Hs|]. reflexivity. }
  unfold strptime.
  change (pattern (py "%m/%d/%Y %H:%M:%S"))
    with (Some (Cat re_m (Cat (ichr (chr "/")) (Cat re_d
                 (Cat (ichr (chr "/")) (Cat re_Y (Cat (plus is_space)
                 (Cat re_H (Cat (ichr (chr ":")) (Cat re_M
                 (Cat (ichr (chr ":")) (Cat re_S Eps)))))))))))).
  cbv beta iota. rewrite Hm. read_groups Hdate. rewrite Htime. reflexivity.
Qed.

(** A year needs four digits: a text with a slash in third place is read
    by no format that starts with [%Y]. *)
Lemma year_needs_digits {R : Type} (c1 c2 : N) (t : list N) (g : groups)
      (k : list N -> groups -> option R) :
  m re_Y (c1 :: c2 :: chr "/" :: t) g k = None.
Proof.
  unfold re_Y, dig. cbn [m seq].
  destruct (is_digit c1); [|reflexivity]. destruct (is_digit c2); [|reflexivity].
  change (is_digit (chr "/")) with false. reflexivity.
Qed.

Lemma strptime_year_first_slash (a : Z) (t fmt : list N) :
  0 <= a < 100 ->
  strptime (zero_pad 2 a ++ py "/" ++ t) (py "%Y" ++ fmt) = Raise ValueError.
Proof.
  intros Ha. unfold strptime, pattern.
  change (py "%Y" ++ fmt) with (chr "%" :: chr "Y" :: fmt).
  cbn [pattern_from]. change (is_space (chr "%")) with false.
  change (N.eqb (chr "%") (chr "%")) with true. cbv beta iota.
  change (TimeRE (chr "Y")) with (Some re_Y). cbv beta iota.
  destruct (pattern_from fmt false) as [r|]; [|reflexivity]. cbn [option_map].
  unfold match_. cbn [m]. rewrite zero_pad_2 by exact Ha.
  change (py "/" ++ t) with (chr "/" :: t). cbn [app].
  now rewrite year_needs_digits.
Qed.

(** A month is at most 12: a text that starts with 13 to 31 is read by no
    format that starts with [%m/]. *)
Lemma strptime_month_first_day (a : Z) (t fmt : list N) :
  13 <= a <= 31 ->
  strptime (zero_pad 2 a ++ py "/" ++ t) (py "%m/" ++ fmt) = Raise ValueError.
Proof.
  intros Ha. unfold strptime, pattern.
  change (py "%m/" ++ fmt) with (chr "%" :: chr "m" :: chr "/" :: fmt).
  cbn [pattern_from]. change (is_space (chr "%")) with false.
  change (N.eqb (chr "%") (chr "%")) with true. cbv beta iota.
  change (TimeRE (chr "m")) with (Some re_m). cbv beta iota.
  change (is_space (chr "/")) with false.
  change (N.eqb (chr "/") (chr "%")) with false. cbv beta iota.
  destruct (pattern_from fmt false) as [r|]; [|reflexivity]. cbn [option_map].
  assert (Hnone : match_ (Cat re_m (Cat (ichr (chr "/")) r))
                         (zero_pad 2 a ++ py "/" ++ t) = None).
  { assert (H : In a (map Z.of_nat (List.seq 13 19)))
      by (apply in_map_iff; exists (Z.to_nat a); split; [lia|apply in_seq; lia]).
    cbn [List.seq map In] in H.
    repeat (destruct H as [<-|H]; [vm_compute; reflexivity|]). destruct H. }
  now rewrite Hnone.
Qed.

End DateFormats.

Section EnsureDatetimeFormats.
Import Re Strptime Datetime Utils.

Lemma digit_first_not_keyword (d : Z) (t : list N) :
  0 <= d <= 9 -> ~ In (digit_char d :: t) (map py keywords).
Proof.
  intros Hd Hin. pose proof (digit_char_ascii_digit d Hd) as Hdig.
  cbn [keywords map In] in Hin.
  repeat (destruct Hin as [Hin|Hin];
          [injection Hin as Hc _; rewrite <- Hc in Hdig; discriminate Hdig|]).
  destruct Hin.
Qed.

Lemma iso_date_not_keyword (y : Z) (t : list N) :
  0 <= y < 10000 -> ~ In (zero_pad 4 y ++ t) (map py keywords).
Proof.
  intros Hy. rewrite zero_pad_4 by exact Hy. cbn [app].
  apply digit_first_not_keyword, (div_digit y 1000 10); lia.
Qed.

Lemma slash_date_not_keyword (a : Z) (t : list N) :
  0 <= a < 100 -> ~ In (zero_pad 2 a ++ t) (map py keywords).
Proof.
  intros Ha. rewrite zero_pad_2 by exact Ha. cbn [app].
  apply digit_first_not_keyword, (div_digit a 10 10); lia.
Qed.

Lemma try_formats_skip (s fmt : list N) (rest : list (list N)) :
  strptime s fmt = Raise ValueError ->
  try_formats s (fmt :: rest) = try_formats s rest.
Proof. intros H. cbn [try_formats]. now rewrite H. Qed.

Lemma try_formats_take (s fmt : list N) (rest : list (list N)) (d : datetime) :
  strptime s fmt = Ok d -> try_formats s (fmt :: rest) = Ok d.
Proof. intros H. cbn [try_formats]. now rewrite H. Qed.

(** The three date formats take ten characters at most. *)
Lemma date_format_too_long (s fmt : list N) :
  In fmt [py "%Y-%m-%d"; py "%m/%d/%Y"; py "%d/%m/%Y"] ->
  (10 < length s)%nat -> strptime s fmt = Raise ValueError.
Proof.
  intros Hin Hlen. cbn [In] in Hin.
  destruct Hin as [<-|[<-|[<-|[]]]];
    (eapply strptime_too_long; [reflexivity|reflexivity|exact Hlen]).
Qed.

Lemma length_zero_pad_2 (v : Z) : 0 <= v < 100 -> length (zero_pad 2 v) = 2%nat.
Proof. intros Hv. now rewrite zero_pad_2. Qed.

Lemma length_zero_pad_4 (v : Z) : 0 <= v < 10000 -> length (zero_pad 4 v) = 4%nat.
Proof. intros Hv. now rewrite zero_pad_4. Qed.


End EnsureDatetimeFormats.

Ltac text_length :=
  unfold readable, slash_timestamp;
  rewrite !length_app, ?length_zero_pad_4, ?length_zero_pad_2 by lia;
  cbn [length py]; lia.

(** A date written [YYYY-MM-DD] resolves to the midnight that starts it. *)
Theorem iso_date_resolves_to_midnight (now : Datetime.datetime) (y mo d : Z) :
  Datetime._check_date_fields y mo d = true ->
  Utils.ensure_datetime now (iso_date y mo d)
  = Ok (Datetime.mk_datetime y mo d 0 0 0 0 None).
Proof.
  intros Hdate. date_bounds Hdate.
  unfold iso_date. rewrite not_keyword by (apply iso_date_not_keyword; lia).
  apply try_formats_take. now apply strptime_iso_date.
Qed.

Lemma iso_date_resolves_to_midnight_witness :
  Utils.ensure_datetime sample_now (py "2024-02-29")
  = Ok (Datetime.mk_datetime 2024 2 29 0 0 0 0 None).
Proof.
  apply (iso_date_resolves_to_midnight sample_now 2024 2 29). reflexivity.
Defined.

(** A date and time written [YYYY-MM-DD HH:MM:SS] resolves to that second:
    the three date formats refuse it and the fourth format reads it. *)
Theorem iso_timestamp_resolves (now : Datetime.datetime) (y mo d h mi s : Z) :
  Datetime._check_date_fields y mo d = true ->
  Datetime._check_time_fields h mi s 0 = true ->
  Utils.ensure_datetime now (readable y mo d h mi s)
  = Ok (Datetime.mk_datetime y mo d h mi s 0 None).
Proof.
  intros Hdate Htime. date_bounds Hdate. time_bounds Htime.
  assert (Hlen : (10 < length (readable y mo d h mi s))%nat) by text_length.
  rewrite not_keyword by (unfold readable; apply iso_date_not_keyword; lia).
  unfold Utils.formats.
  rewrite !try_formats_skip
    by (apply date_format_too_long; [cbn [In]; tauto|exact Hlen]).
  apply try_formats_take. now apply strptime_readable.
Qed.

Lemma iso_timestamp_resolves_witness :
  Utils.ensure_datetime sample_now (py "2024-01-15 10:30:00")
  = Ok (Datetime.mk_datetime 2024 1 15 10 30 0 0 None).
Proof.
  apply (iso_timestamp_resolves sample_now 2024 1 15 10 30 0); reflexivity.
Defined.

(** A date written with slashes is read month first whenever that is a
    date, also when it would be one read day first. *)
Theorem slash_date_is_month_first (now : Datetime.datetime) (y mo d : Z) :
  Datetime._check_date_fields y mo d = true ->
  Utils.ensure_datetime now (slash_date mo d y)
  = Ok (Datetime.mk_datetime y mo d 0 0 0 0 None).
Proof.
  intros Hdate. date_bounds Hdate.
  unfold slash_date. rewrite not_keyword by (apply slash_date_not_keyword; lia).
  unfold Utils.formats.
  rewrite try_formats_skip
    by (apply (strptime_year_first_slash mo _ (py "-%m-%d")); lia).
  apply try_formats_take. now apply strptime_month_first.
Qed.

Lemma slash_date_is_month_first_witness :
  Utils.ensure_datetime sample_now (py "03/04/2024")
  = Ok (Datetime.mk_datetime 2024 3 4 0 0 0 0 None).
Proof.
  apply (slash_date_is_month_first sample_now 2024 3 4). reflexivity.
Defined.

(** A date written with slashes whose first field is above 12 is read day
    first. *)
Theorem slash_date_day_first_above_12 (now : Datetime.datetime) (y mo d : Z) :
  Datetime._check_date_fields y mo d = true -> 13 <= d ->
  Utils.ensure_datetime now (slash_date d mo y)
  = Ok (Datetime.mk_datetime y mo d 0 0 0 0 None).
Proof.
  intros Hdate Hd. date_bounds Hdate.
  unfold slash_date. rewrite not_keyword by (apply slash_date_not_keyword; lia).
  unfold Utils.formats.
  rewrite try_formats_skip
    by (apply (strptime_year_first_slash d _ (py "-%m-%d")); lia).
  rewrite try_formats_skip
    by (apply (strptime_month_first_day d _ (py "%d/%Y")); lia).
  apply try_formats_take. now apply strptime_day_first.
Qed.

Lemma slash_date_day_first_above_12_witness :
  Utils.ensure_datetime sample_now (py "25/12/2024")
  = Ok (Datetime.mk_datetime 2024 12 25 0 0 0 0 None).
Proof.
  apply (slash_date_day_first_above_12 sample_now 2024 12 25);
    [reflexivity|lia].
Defined.

(** With a time of day the slashes are read month first only: there is no
    day-first format with a time, so a first field above 12 raises
    [ValueError]. *)
Theorem slash_timestamp_is_month_first_only
        (now : Datetime.datetime) (y mo d h mi s : Z) :
  Datetime._check_date_fields y mo d = true ->
  Datetime._check_time_fields h mi s 0 = true ->
  Utils.ensure_datetime now (slash_timestamp mo d y h mi s)
  = Ok (Datetime.mk_datetime y mo d h mi s 0 None)
  /\ (13 <= d ->
      Utils.ensure_datetime now (slash_timestamp d mo y h mi s)
      = Raise ValueError).
Proof.
  intros Hdate Htime. date_bounds Hdate. time_bounds Htime. split.
  - assert (Hlen : (10 < length (slash_timestamp mo d y h mi s))%nat)
      by text_length.
    rewrite not_keyword
      by (unfold slash_timestamp; apply slash_date_not_keyword; lia).
    unfold Utils.formats.
    rewrite !try_formats_skip
      by (apply date_format_too_long; [cbn [In]; tauto|exact Hlen]).
    rewrite try_formats_skip
      by (apply (strptime_year_first_slash mo _ (py "-%m-%d %H:%M:%S")); lia).
    apply try_formats_take. now apply strptime_slash_timestamp.
  - intros Hd.
    assert (Hlen : (10 < length (slash_timestamp d mo y h mi s))%nat)
      by text_length.
    rewrite not_keyword
      by (unfold slash_timestamp; apply slash_date_not_keyword; lia).
    unfold Utils.formats.
    rewrite !try_formats_skip
      by (apply date_format_too_long; [cbn [In]; tauto|exact Hlen]).
    rewrite try_formats_skip
      by (apply (strptime_year_first_slash d _ (py "-%m-%d %H:%M:%S")); lia).
    rewrite try_formats_skip
      by (apply (strptime_month_first_day d _ (py "%d/%Y %H:%M:%S")); lia).
    reflexivity.
Qed.

Lemma slash_timestamp_is_month_first_only_witness :
  Utils.ensure_datetime sample_now (py "12/25/2024 08:05:09")
  = Ok (Datetime.mk_datetime 2024 12 25 8 5 9 0 None)
  /\ Utils.ensure_datetime sample_now (py "25/12/2024 08:05:09")
     = Raise ValueError.
Proof.
  destruct (slash_timestamp_is_month_first_only sample_now 2024 12 25 8 5 9)
    as [H1 H2]; [reflexivity|reflexivity|].
  split; [exact H1|apply H2; lia].
Defined.

(** ** What ensure_datetime returns for a text that is no keyword *)

Section GroupNames.
Import Re.

(** The names of the groups of a regex. *)
Fixpoint names (r : regex) : list N :=
  match r with
  | Eps | Chr _ | Rep _ _ _ => []
  | Cat r1 r2 | Alt r1 r2 => names r1 ++ names r2
  | Opt r1 => names r1
  | Grp name r1 => name :: names r1
  end.

Lemma rep_continues {R : Type} (p : N -> bool) (s : list N) :
  forall lo hi (k : list N -> option R) (x : R),
    rep p lo hi s k = Some x -> exists s', k s' = Some x.
Proof.
  induction s as [|c s IH]; intros lo hi k x H; cbn [rep] in H.
  - destruct lo; [now exists []|discriminate].
  - assert (Hstop : match lo with O => k (c :: s) | S _ => None end = Some x ->
                    exists s', k s' = Some x).
    { destruct lo; [|discriminate]. intros Hk. now exists (c :: s). }
    destruct (p c && may_take hi); [|now apply Hstop].
    destruct (rep p (Nat.pred lo) (one_less hi) s k) as [y|] eqn:Er;
      [|now apply Hstop].
    injection H as ->. now apply IH in Er.
Qed.

(** A match records groups of the regex only. *)
Lemma m_groups (r : regex) :
  forall (R : Type) (s : list N) (g : groups)
         (k : list N -> groups -> option R) (x : R),
    m r s g k = Some x ->
    exists s' g',
      k s' g' = Some x
      /\ forall n, ~ In n (names r) -> group n g' = group n g.
Proof.
  induction r as [|p|r1 IH1 r2 IH2|r1 IH1 r2 IH2|r1 IH1|lo hi p|name r1 IH1];
    intros R s g k x H; cbn [m] in H; cbn [names].
  - now exists s, g.
  - destruct s as [|c s]; [discriminate|]. destruct (p c); [|discriminate].
    now exists s, g.
  - apply IH1 in H as (s1 & g1 & H & Hg1). apply IH2 in H as (s2 & g2 & H & Hg2).
    exists s2, g2. split; [exact H|]. intros n Hn.
    rewrite Hg2, Hg1; [reflexivity| |]; intros Hin; apply Hn, in_or_app; auto.
  - destruct (m r1 s g k) as [y|] eqn:E1.
    + injection H as ->. apply IH1 in E1 as (s1 & g1 & H & Hg1).
      exists s1, g1. split; [exact H|]. intros n Hn. apply Hg1.
      intros Hin; apply Hn, in_or_app; auto.
    + apply IH2 in H as (s1 & g1 & H & Hg1).
      exists s1, g1. split; [exact H|]. intros n Hn. apply Hg1.
      intros Hin; apply Hn, in_or_app; auto.
  - destruct (m r1 s g k) as [y|] eqn:E1.
    + injection H as ->. now apply IH1 in E1.
    + now exists s, g.
  - apply rep_continues in H as (s' & H). now exists s', g.
  - apply IH1 in H as (s1 & g1 & H & Hg1).
    eexists _, _. split; [exact H|]. intros n Hn. cbn [group].
    destruct (N.eqb name n) eqn:E.
    + apply N.eqb_eq in E. exfalso. apply Hn. now left.
    + apply Hg1. intros Hin. apply Hn. now right.
Qed.

End GroupNames.

Section NaiveResults.
Import Datetime Strptime Utils.

(** A format without [%z] gives a naive datetime. *)
Lemma strptime_naive (data_string format : list N) (r : Re.regex)
      (dt : datetime) :
  pattern format = Some r -> ~ In (chr "z") (names r) ->
  strptime data_string format = Ok dt -> tzinfo dt = None.
Proof.
  intros Hp Hz. unfold strptime. rewrite Hp.
  destruct (Re.match_ r data_string) as [[rest g]|] eqn:E; [|discriminate].
  unfold Re.match_ in E. apply m_groups in E as (s' & g' & [= <- <-] & Hg).
  rewrite (Hg _ Hz). cbn [Re.group].
  destruct (truthy s'); [discriminate|].
  repeat (let H := fresh in
          intros H; apply bind_inv in H as (? & ? & H); revert H).
  destruct (negb _); [discriminate|].
  intros H. apply bind_inv in H as (tz & Htz & H).
  apply new_datetime_inv in H as [-> _]. cbn [tzinfo].
  match goal with
  | Hgmt : Ok None = Ok ?gmt |- _ => injection Hgmt as <-
  end.
  now injection Htz as <-.
Qed.

(** [a], the character [c], then [b]. *)
Definition sep (c : ascii) (a b : Re.regex) : Re.regex :=
  Re.Cat a (Re.Cat (ichr (chr c)) b).

Definition time_regex : Re.regex :=
  Re.Cat (Re.plus is_space)
         (sep ":" re_H (sep ":" re_M (Re.Cat re_S Re.Eps))).

(** The regexes of the five formats. *)
Definition format_regexes : list Re.regex :=
  [sep "-" re_Y (sep "-" re_m (Re.Cat re_d Re.Eps));
   sep "/" re_m (sep "/" re_d (Re.Cat re_Y Re.Eps));
   sep "/" re_d (sep "/" re_m (Re.Cat re_Y Re.Eps));
   sep "-" re_Y (sep "-" re_m (Re.Cat re_d time_regex));
   sep "/" re_m (sep "/" re_d (Re.Cat re_Y time_regex))].

Lemma pattern_formats : map pattern formats = map Some format_regexes.
Proof. reflexivity. Qed.

Lemma formats_naive (fmt : list N) :
  In fmt formats -> exists r, pattern fmt = Some r /\ ~ In (chr "z") (names r).
Proof.
  unfold formats. cbn [In].
  intros [<-|[<-|[<-|[<-|[<-|[]]]]]];
    [ exists (nth 0 format_regexes Re.Eps) | exists (nth 1 format_regexes Re.Eps)
    | exists (nth 2 format_regexes Re.Eps) | exists (nth 3 format_regexes Re.Eps)
    | exists (nth 4 format_regexes Re.Eps) ];
    (split; [reflexivity|intros Hz; vm_compute in Hz; intuition discriminate]).
Qed.

Lemma try_formats_inv (s : list N) (fmts : list (list N)) :
  (forall d, try_formats s fmts = Ok d ->
             exists fmt, In fmt fmts /\ strptime s fmt = Ok d)
  /\ (forall e, try_formats s fmts = Raise e -> e = ValueError).
Proof.
  induction fmts as [|fmt fmts [IH1 IH2]]; cbn [try_formats].
  - split; [discriminate|]. now intros e [= <-].
  - pose proof (strptime_only s fmt) as Hve.
    destruct (strptime s fmt) as [d|e] eqn:E.
    + split; [|discriminate]. intros d' [= <-]. exists fmt. split; [now left|exact E].
    + rewrite (Hve e eq_refl). split.
      * intros d Hd. apply IH1 in Hd as (f & Hin & Hf). exists f. split; [now right|exact Hf].
      * exact IH2.
Qed.

End NaiveResults.

(** For a text that is none of the five keywords, [ensure_datetime] either
    returns a naive datetime with fields in range and whole seconds, or
    raises [ValueError]; it raises nothing else. *)
Theorem other_texts_give_naive_dates (now : Datetime.datetime) (s : list N) :
  ~ In s (map py keywords) ->
  (forall d, Utils.ensure_datetime now s = Ok d ->
             valid_datetime d /\ Datetime.tzinfo d = None
             /\ Datetime.microsecond d = 0)
  /\ (forall e, Utils.ensure_datetime now s = Raise e -> e = ValueError).
Proof.
  intros Hs. rewrite not_keyword by exact Hs.
  destruct (try_formats_inv s Utils.formats) as [Hok Hraise].
  split; [|exact Hraise].
  intros d Hd. apply Hok in Hd as (fmt & Hin & Hfmt).
  destruct (strptime_result _ _ _ Hfmt) as (Hv & _ & Hus).
  split; [exact Hv|]. split; [|exact Hus].
  destruct (formats_naive fmt Hin) as (r & Hp & Hz).
  exact (strptime_naive s fmt r d Hp Hz Hfmt).
Qed.

Lemma other_texts_give_naive_dates_witness :
  (forall d, Utils.ensure_datetime sample_now (py "2024-02-29") = Ok d ->
             valid_datetime d /\ Datetime.tzinfo d = None
             /\ Datetime.microsecond d = 0)
  /\ (forall e, Utils.ensure_datetime sample_now (py "next week") = Raise e ->
                e = ValueError)
  /\ is_ok (Utils.ensure_datetime sample_now (py "2024-02-29")) = true
  /\ is_ok (Utils.ensure_datetime sample_now (py "next week")) = false.
Proof.
  split; [|split; [|split; vm_compute; reflexivity]].
  - apply (other_texts_give_naive_dates sample_now (py "2024-02-29")).
    intros H; cbn in H; intuition discriminate.
  - apply (other_texts_give_naive_dates sample_now (py "next week")).
    intros H; cbn in H; intuition discriminate.
Defined.

(** ** _clean_html only deletes *)

Section OnlyDeletes.
Import Re.

(** A substitution whose replacement is taken from the text it replaces
    leaves a subsequence of its input. *)
Lemma sub_sublist (r : regex) (repl : list N) :
  (forall s n, match_len r s = Some (S n) -> repl `sublist_of` firstn (S n) s) ->
  forall s, sub r repl s `sublist_of` s.
Proof.
  intros Hrepl. apply (str_length_ind (fun s => sub r repl s `sublist_of` s)).
  intros [|c s] IH; [constructor|].
  rewrite sub_step. destruct (match_len r (c :: s)) as [[|n]|] eqn:E.
  - apply sublist_skip, IH. cbn [length]. lia.
  - rewrite <- (firstn_skipn (S n) (c :: s)) at 1. cbn [skipn].
    apply sublist_app; [now apply Hrepl|].
    apply IH. rewrite length_skipn. cbn [length]. lia.
  - apply sublist_skip, IH. cbn [length]. lia.
Qed.

Lemma last_nl_newline (s : list N) :
  forall j, last_nl s = Some j -> [10%N] `sublist_of` firstn (S j) s.
Proof.
  induction s as [|c s IH]; intros j Hj; [discriminate|].
  cbn [last_nl] in Hj. destruct (is_space c); [|discriminate].
  destruct (last_nl s) as [i|] eqn:E.
  - injection Hj as <-. change (firstn (S (S i)) (c :: s)) with (c :: firstn (S i) s).
    apply sublist_cons. now apply IH.
  - destruct (N.eqb 10 c) eqn:Ec; [|discriminate]. injection Hj as <-.
    apply N.eqb_eq in Ec. subst c. cbn [firstn]. apply sublist_skip. constructor.
Qed.

Lemma blank_repl_sublist (s : list N) (n : nat) :
  match_len blank_lines_re s = Some (S n) ->
  [10%N; 10%N] `sublist_of` firstn (S n) s.
Proof.
  destruct s as [|c s]; [discriminate|]. rewrite match_len_blank.
  destruct (N.eqb 10 c) eqn:Ec; [|discriminate].
  destruct (last_nl s) as [j|] eqn:E; [|discriminate]. intros [= <-].
  apply N.eqb_eq in Ec. subst c.
  change (firstn (S (S j)) (10%N :: s)) with (10%N :: firstn (S j) s).
  apply sublist_skip. now apply last_nl_newline.
Qed.

Lemma spaces_repl_sublist (s : list N) (n : nat) :
  match_len spaces_re s = Some (S n) -> py " " `sublist_of` firstn (S n) s.
Proof.
  rewrite match_len_spaces. destruct s as [|c s]; [discriminate|].
  cbn [run_len]. destruct (is_sp c) eqn:Ec; [|discriminate]. intros _.
  apply N.eqb_eq in Ec. subst c. cbn [firstn]. apply sublist_skip, sublist_nil_l.
Qed.

Lemma strip_sublist (s : list N) : strip s `sublist_of` s.
Proof.
  destruct (strip_infix s) as (a & b & E). rewrite E at 2.
  apply sublist_inserts_l, sublist_inserts_r. reflexivity.
Qed.

End OnlyDeletes.

(** Cleaning only deletes: the result is a subsequence of the input, so it
    is never longer and holds no character that the input has not, in the
    order of the input. *)
Theorem clean_html_only_deletes (html_content : list N) :
  _clean_html html_content `sublist_of` html_content
  /\ (length (_clean_html html_content) <= length html_content)%nat
  /\ (forall c, In c (_clean_html html_content) -> In c html_content).
Proof.
  assert (H : _clean_html html_content `sublist_of` html_content).
  { rewrite clean_html_passes.
    etransitivity; [apply strip_sublist|].
    etransitivity; [apply sub_sublist, spaces_repl_sublist|].
    etransitivity; [apply sub_sublist, blank_repl_sublist|].
    apply sub_sublist. intros s n _. apply sublist_nil_l. }
  split; [exact H|]. split; [now apply sublist_length|].
  intros c Hc. apply list_elem_of_In. apply list_elem_of_In in Hc.
  exact (elem_of_sublist _ _ _ Hc H).
Qed.

(** ** _clean_html is idempotent *)

Section CleanTwice.
Import Re.

(** The newlines of a run of whitespace that follows: none, or one that
    starts the run. *)
Definition one_newline (s : list N) : bool :=
  match last_nl s with
  | Some (S _) => false
  | _ => true
  end.

(** After a newline at most one more newline comes before the next
    character that is no whitespace, and it comes at once. *)
Fixpoint blank_ok (s : list N) : bool :=
  match s with
  | [] => true
  | c :: s' => (if N.eqb 10 c then one_newline s' else true) && blank_ok s'
  end.

Lemma last_nl_none_head (c : N) (s : list N) :
  last_nl (c :: s) = None -> N.eqb 10 c = false.
Proof.
  cbn [last_nl]. destruct (N.eqb 10 c) eqn:E; [|reflexivity].
  apply N.eqb_eq in E. subst c. change (is_space 10) with true.
  destruct (last_nl s); discriminate.
Qed.

Lemma last_nl_none_tail (c : N) (s : list N) :
  last_nl (c :: s) = None -> is_space c = true -> last_nl s = None.
Proof.
  cbn [last_nl]. intros H Hc. rewrite Hc in H. now destruct (last_nl s).
Qed.

Lemma last_nl_not_space (c : N) (s : list N) :
  is_space c = false -> last_nl (c :: s) = None.
Proof. intros H. cbn [last_nl]. now rewrite H. Qed.

Lemma sub_blank_step (c : N) (s : list N) :
  sub blank_lines_re [10%N; 10%N] (c :: s)
  = if N.eqb 10 c
    then match last_nl s with
         | Some j => 10%N :: 10%N :: sub blank_lines_re [10%N; 10%N] (skipn (S j) s)
         | None => c :: sub blank_lines_re [10%N; 10%N] s
         end
    else c :: sub blank_lines_re [10%N; 10%N] s.
Proof.
  rewrite sub_step, match_len_blank.
  destruct (N.eqb 10 c); [|reflexivity]. now destruct (last_nl s).
Qed.

(** A run of whitespace without a newline is left as it is. *)
Lemma last_nl_sub_blank (s : list N) :
  last_nl s = None -> last_nl (sub blank_lines_re [10%N; 10%N] s) = None.
Proof.
  induction s as [|c s IH]; intros H; [reflexivity|].
  rewrite sub_blank_step, (last_nl_none_head c s H).
  destruct (is_space c) eqn:Ec.
  - pose proof (last_nl_none_tail c s H Ec) as Hs.
    cbn [last_nl]. rewrite Ec, (IH Hs). cbn [last_nl] in H.
    rewrite Ec, Hs in H. exact H.
  - now apply last_nl_not_space.
Qed.

Lemma blank_ok_sub_blank :
  forall s, blank_ok (sub blank_lines_re [10%N; 10%N] s) = true.
Proof.
  apply (str_length_ind
           (fun s => blank_ok (sub blank_lines_re [10%N; 10%N] s) = true)).
  intros [|c s] IH; [reflexivity|].
  rewrite sub_blank_step. destruct (N.eqb 10 c) eqn:Ec.
  - destruct (last_nl s) as [j|] eqn:E.
    + destruct (last_nl_spec s j E) as (_ & Hlen & Hrest).
      pose proof (last_nl_sub_blank _ Hrest) as Hsub.
      cbn [blank_ok]. change (N.eqb 10 10) with true.
      unfold one_newline. cbn [last_nl]. change (is_space 10) with true.
      rewrite Hsub. change (N.eqb 10 10) with true. cbn [andb].
      apply IH. rewrite length_skipn. cbn [length]. lia.
    + cbn [blank_ok]. rewrite Ec. unfold one_newline.
      rewrite (last_nl_sub_blank _ E). cbn [andb]. apply IH. cbn [length]. lia.
  - cbn [blank_ok]. rewrite Ec. cbn [andb]. apply IH. cbn [length]. lia.
Qed.

(** On a text in that form the blank-line pass changes nothing. *)
Lemma sub_blank_fixed (s : list N) :
  blank_ok s = true -> sub blank_lines_re [10%N; 10%N] s = s.
Proof.
  apply (str_length_ind
           (fun s => blank_ok s = true
                     -> sub blank_lines_re [10%N; 10%N] s = s)).
  clear s. intros [|c s] IH H; [reflexivity|].
  cbn [blank_ok] in H. apply andb_true_iff in H as [Hc Hs].
  rewrite sub_blank_step. destruct (N.eqb 10 c) eqn:Ec.
  - apply N.eqb_eq in Ec. subst c. unfold one_newline in Hc.
    destruct (last_nl s) as [[|j]|] eqn:E; [|discriminate|].
    + destruct s as [|c' s']; [discriminate|].
      cbn [last_nl] in E. destruct (is_space c'); [|discriminate].
      destruct (last_nl s') eqn:E'; [discriminate|].
      destruct (N.eqb 10 c') eqn:Ec'; [|discriminate].
      apply N.eqb_eq in Ec'. subst c'. change (skipn 1 (10%N :: s')) with s'.
      cbn [blank_ok] in Hs. apply andb_true_iff in Hs as [_ Hs'].
      rewrite IH; [reflexivity|cbn [length]; lia|exact Hs'].
    + rewrite IH; [reflexivity|cbn [length]; lia|exact Hs].
  - rewrite IH; [reflexivity|cbn [length]; lia|exact Hs].
Qed.


Lemma is_sp_space (c : N) : is_sp c = true -> c = chr " ".
Proof. unfold is_sp. intros H. apply N.eqb_eq in H. now subst c. Qed.

Lemma last_nl_drop_spaces (s : list N) :
  last_nl s = None -> last_nl (skipn (run_len is_sp s) s) = None.
Proof.
  induction s as [|c s IH]; intros H; [reflexivity|].
  cbn [run_len]. destruct (is_sp c) eqn:Ec; [|exact H].
  cbn [skipn]. apply IH. apply (last_nl_none_tail c s H).
  apply is_sp_space in Ec. now subst c.
Qed.

Lemma last_nl_sub_spaces :
  forall s, last_nl s = None -> last_nl (sub spaces_re (py " ") s) = None.
Proof.
  apply (str_length_ind
           (fun s => last_nl s = None
                     -> last_nl (sub spaces_re (py " ") s) = None)).
  intros [|c s] IH H; [reflexivity|].
  rewrite sub_spaces_step. destruct (is_space c) eqn:Espace.
  - pose proof (last_nl_none_tail c s H Espace) as Hs.
    pose proof (last_nl_none_head c s H) as Hc.
    destruct (is_sp c) eqn:Ec.
    + cbn [last_nl]. change (is_space (chr " ")) with true.
      rewrite IH; [reflexivity| |now apply last_nl_drop_spaces].
      rewrite length_skipn. cbn [length]. lia.
    + cbn [last_nl]. rewrite Espace, IH, Hc; [reflexivity|cbn [length]; lia|exact Hs].
  - assert (Ec : is_sp c = false).
    { destruct (is_sp c) eqn:Ec; [|reflexivity].
      apply is_sp_space in Ec. subst c. discriminate Espace. }
    rewrite Ec. now apply last_nl_not_space.
Qed.

Lemma one_newline_sub_spaces (s : list N) :
  one_newline s = true -> one_newline (sub spaces_re (py " ") s) = true.
Proof.
  unfold one_newline. destruct (last_nl s) as [[|j]|] eqn:E; [|discriminate|].
  - intros _. destruct s as [|c s]; [discriminate|].
    cbn [last_nl] in E. destruct (is_space c) eqn:Espace; [|discriminate].
    destruct (last_nl s) eqn:Es; [discriminate|].
    destruct (N.eqb 10 c) eqn:Ec; [|discriminate].
    apply N.eqb_eq in Ec. subst c. rewrite sub_spaces_step.
    change (is_sp 10) with false. cbn [last_nl]. change (is_space 10) with true.
    now rewrite (last_nl_sub_spaces s Es).
  - intros _. now rewrite (last_nl_sub_spaces s E).
Qed.

Lemma blank_ok_suffix (a s : list N) : blank_ok (a ++ s) = true -> blank_ok s = true.
Proof.
  induction a as [|c a IH]; [trivial|]. cbn [app blank_ok].
  intros H. apply andb_true_iff in H as [_ H]. now apply IH.
Qed.

Lemma blank_ok_skipn (n : nat) (s : list N) :
  blank_ok s = true -> blank_ok (skipn n s) = true.
Proof.
  intros H. apply (blank_ok_suffix (firstn n s)). now rewrite firstn_skipn.
Qed.

Lemma blank_ok_sub_spaces :
  forall s, blank_ok s = true -> blank_ok (sub spaces_re (py " ") s) = true.
Proof.
  apply (str_length_ind
           (fun s => blank_ok s = true
                     -> blank_ok (sub spaces_re (py " ") s) = true)).
  intros [|c s] IH H; [reflexivity|].
  cbn [blank_ok] in H. apply andb_true_iff in H as [Hc Hs].
  rewrite sub_spaces_step. destruct (is_sp c) eqn:Ec.
  - cbn [blank_ok]. change (N.eqb 10 (chr " ")) with false. cbn [andb].
    apply IH; [|now apply blank_ok_skipn].
    rewrite length_skipn. cbn [length]. lia.
  - cbn [blank_ok]. apply andb_true_iff. split.
    + destruct (N.eqb 10 c); [now apply one_newline_sub_spaces|reflexivity].
    + apply IH; [cbn [length]; lia|exact Hs].
Qed.

Lemma last_nl_prefix (t b : list N) :
  last_nl (t ++ b) = None -> last_nl t = None.
Proof.
  induction t as [|c t IH]; intros H; [reflexivity|].
  cbn [app] in H. destruct (is_space c) eqn:Ec.
  - pose proof (last_nl_none_tail _ _ H Ec) as Ht.
    pose proof (last_nl_none_head _ _ H) as Hc.
    cbn [last_nl]. now rewrite Ec, (IH Ht), Hc.
  - now apply last_nl_not_space.
Qed.

Lemma one_newline_prefix (t b : list N) :
  one_newline (t ++ b) = true -> one_newline t = true.
Proof.
  unfold one_newline. destruct (last_nl (t ++ b)) as [[|j]|] eqn:E;
    [|discriminate|].
  - intros _. destruct t as [|c t]; [reflexivity|].
    cbn [app last_nl] in E. destruct (is_space c) eqn:Ec; [|discriminate].
    destruct (last_nl (t ++ b)) eqn:Et; [discriminate|].
    cbn [last_nl]. rewrite Ec, (last_nl_prefix t b Et).
    now destruct (N.eqb 10 c).
  - intros _. now rewrite (last_nl_prefix t b E).
Qed.

Lemma blank_ok_prefix (t b : list N) : blank_ok (t ++ b) = true -> blank_ok t = true.
Proof.
  induction t as [|c t IH]; [trivial|]. cbn [app blank_ok].
  intros H. apply andb_true_iff in H as [Hc H]. apply andb_true_iff. split.
  - destruct (N.eqb 10 c); [now apply (one_newline_prefix t b)|reflexivity].
  - now apply IH.
Qed.

Lemma clean_html_blank_ok (s : list N) : blank_ok (_clean_html s) = true.
Proof.
  rewrite clean_html_passes.
  set (t := sub spaces_re (py " ")
              (sub blank_lines_re [10%N; 10%N] (sub tag_re [] s))).
  assert (Ht : blank_ok t = true)
    by (apply blank_ok_sub_spaces, blank_ok_sub_blank).
  destruct (strip_infix t) as (a & b & E). rewrite E in Ht.
  apply blank_ok_suffix in Ht. now apply blank_ok_prefix in Ht.
Qed.

(** A text without a tag, without two spaces in a row and without spaces
    at its ends is left as it is by the passes that look for them. *)
Lemma sub_tag_fixed (s : list N) : tagfree s = true -> sub tag_re [] s = s.
Proof.
  induction s as [|c s IH]; intros H; [reflexivity|].
  cbn [tagfree] in H. apply andb_true_iff in H as [Hc Hs].
  rewrite sub_step. unfold match_len.
  destruct (match_ tag_re (c :: s)) as [[rest g]|] eqn:E.
  - apply tag_at_of_match in E. rewrite E in Hc. discriminate Hc.
  - now rewrite IH.
Qed.

Lemma sub_spaces_fixed (s : list N) :
  no_double s = true -> sub spaces_re (py " ") s = s.
Proof.
  induction s as [|c s IH]; intros H; [reflexivity|].
  cbn [no_double] in H. apply andb_true_iff in H as [Hc Hs].
  rewrite sub_spaces_step. destruct (is_sp c) eqn:Ec.
  - cbn [andb] in Hc. apply negb_true_iff in Hc.
    assert (Hrun : run_len is_sp s = 0%nat).
    { destruct s as [|c' s']; [reflexivity|]. cbn [starts_sp] in Hc.
      cbn [run_len]. now rewrite Hc. }
    rewrite Hrun. change (skipn 0 s) with s. rewrite (IH Hs).
    apply is_sp_space in Ec. now subst c.
  - now rewrite IH.
Qed.

Lemma lstrip_fixed (s : list N) :
  match s with c :: _ => is_space c = false | [] => True end -> lstrip s = s.
Proof. destruct s as [|c s]; [reflexivity|]. intros H. cbn [lstrip]. now rewrite H. Qed.

Lemma strip_strip (s : list N) : strip (strip s) = strip s.
Proof.
  set (t := strip s). assert (Ht : t = strip s) by reflexivity.
  unfold strip at 1.
  rewrite (lstrip_fixed t).
  - destruct (rev t) as [|c r] eqn:Er.
    + apply (f_equal (@rev N)) in Er. rewrite rev_involutive in Er.
      now rewrite Er.
    + rewrite lstrip_fixed; [now rewrite <- Er, rev_involutive|].
      apply (f_equal (@rev N)) in Er. rewrite rev_involutive in Er.
      cbn [rev] in Er. rewrite Er in Ht. symmetry in Ht.
      now apply strip_last in Ht.
  - destruct t as [|c r] eqn:Et; [exact I|]. symmetry in Ht.
    now apply strip_first in Ht.
Qed.

(** A cleaned text is a fixed point of each of the four passes. *)
Lemma clean_html_clean_again (s : list N) :
  _clean_html (_clean_html s) = _clean_html s.
Proof.
  rewrite (clean_html_passes (_clean_html s)).
  rewrite (sub_tag_fixed _ (clean_html_tagfree s)).
  rewrite (sub_blank_fixed _ (clean_html_blank_ok s)).
  rewrite (sub_spaces_fixed _ (clean_html_no_double s)).
  rewrite clean_html_passes. apply strip_strip.
Qed.

End CleanTwice.

(** Cleaning twice is cleaning once. *)
Theorem clean_html_idempotent (html_content : list N) :
  _clean_html (_clean_html html_content) = _clean_html html_content.
Proof. apply clean_html_clean_again. Qed.

(** ** What _clean_html leaves as it is *)

Section CleanFixed.
Import Re.













End CleanFixed.



(** ** The text of the profile tool *)

Section ProfileFacts.
Import Profile.

Ltac other_key := intros Hk; vm_compute in Hk; discriminate Hk.

Lemma truthy_insert (k : list N) (v : value) (d : gmap (list N) value) :
  truthy_dict (<[k := v]> d) = true.
Proof.
  unfold truthy_dict. destruct (map_to_list (<[k := v]> d)) eqn:E; [|reflexivity].
  apply map_to_list_empty_iff in E. now apply insert_non_empty in E.
Qed.

End ProfileFacts.

(** The profile tool answers with the error text exactly when the call of
    the provider raises [HttpError].  When the call returns, the text shows
    the address and the total of the response, and ["None"] for one that
    the response does not have: the default ["Unknown"] of the tool is
    never used, because the client always sets the key.  Any other
    exception of the call is passed on. *)
Theorem profile_tool_text (response : result (gmap (list N) Profile.value)) :
  Profile.tool response
  = match response with
    | Ok profile =>
        Ok ([Profile.bust] ++ py " Authenticated as: "
            ++ Profile.format (Profile.get profile "emailAddress")
            ++ [10%N; Profile.envelope] ++ py " Total messages in account: "
            ++ Profile.format (Profile.get profile "messagesTotal"))
    | Raise HttpError => Ok ([Profile.cross] ++ py " Error getting profile")
    | Raise e => Raise e
    end.
Proof.
  destruct response as [profile|e]; [|now destruct e].
  unfold Profile.tool, Profile.get_user_profile. cbn [bind].
  rewrite truthy_insert. unfold Profile.get at 1, Profile.get_default.
  rewrite !lookup_insert_ne by (intros Hk; vm_compute in Hk; discriminate Hk).
  rewrite !lookup_insert_eq.
  rewrite !lookup_insert_ne by (intros Hk; vm_compute in Hk; discriminate Hk).
  rewrite !lookup_insert_eq. reflexivity.
Qed.

(** ** The JSON text of the records and the tool get_emails *)

Section JsonFacts.
Import Json.

(** A character of the output: a newline or a printable ASCII character. *)
Definition plain (c : N) : bool :=
  N.eqb c 10 || ((32 <=? c) && (c <=? 126))%N.

Abbreviation all_plain s := (Forall (fun c => plain c = true) s).

Lemma hex_plain (n : N) : (n < 16)%N -> plain (hex n) = true.
Proof.
  intros Hn. unfold plain, hex. apply orb_true_iff. right.
  destruct (n <? 10)%N eqn:E;
    [apply N.ltb_lt in E | apply N.ltb_ge in E];
    apply andb_true_iff; split; apply N.leb_le; lia.
Qed.

Lemma u_escape_plain (n : N) : all_plain (u_escape n).
Proof.
  unfold u_escape.
  repeat (apply List.Forall_cons;
          [first [reflexivity | apply hex_plain, N.mod_lt; discriminate]|]).
  apply List.Forall_nil.
Qed.

Lemma escape_plain (c : N) : all_plain (escape c).
Proof.
  unfold escape.
  repeat match goal with
         | |- all_plain (if ?b then _ else _) =>
             let E := fresh "E" in destruct b eqn:E
         end;
    try (repeat constructor; fail).
  - repeat constructor. unfold plain.
    match goal with
    | H : (_ && _)%bool = true |- _ => now rewrite H, orb_true_r
    end.
  - apply u_escape_plain.
  - apply Forall_app. split; apply u_escape_plain.
Qed.

Lemma encode_string_plain (s : list N) : all_plain (encode_string s).
Proof.
  unfold encode_string. apply Forall_app. split; [repeat constructor|].
  apply Forall_app. split; [|repeat constructor].
  induction s as [|c s IH]; [constructor|]. cbn [flat_map].
  apply Forall_app. split; [apply escape_plain|exact IH].
Qed.

Lemma py_plain_spaces (n : nat) : all_plain (repeat (chr " ") n).
Proof. induction n; cbn [repeat]; now constructor. Qed.

Lemma newline_indent_plain (level : nat) : all_plain (newline_indent level).
Proof. unfold newline_indent. constructor; [reflexivity|apply py_plain_spaces]. Qed.

Lemma join_plain (sep : list N) (l : list (list N)) :
  all_plain sep -> Forall (fun x => all_plain x) l -> all_plain (join sep l).
Proof.
  intros Hsep Hl. induction Hl as [|x l Hx Hl IH]; [constructor|].
  cbn [join]. destruct l as [|y l]; [exact Hx|].
  apply Forall_app. split; [exact Hx|]. apply Forall_app. split; [exact Hsep|exact IH].
Qed.

Lemma bracket_plain (open close : ascii) (level : nat) (items : list (list N)) :
  plain (chr open) = true -> plain (chr close) = true ->
  Forall (fun x => all_plain x) items ->
  all_plain (bracket open close level items).
Proof.
  intros Ho Hc Hitems. unfold bracket.
  destruct items as [|x items]; [repeat constructor; assumption|].
  apply Forall_app. split; [repeat constructor; assumption|].
  apply Forall_app. split; [apply newline_indent_plain|].
  apply Forall_app. split.
  - apply join_plain; [|exact Hitems].
    apply Forall_app. split; [repeat constructor|apply newline_indent_plain].
  - apply Forall_app. split; [apply newline_indent_plain|].
    repeat constructor; assumption.
Qed.

Lemma digits_of_plain (fuel : nat) :
  forall n acc, all_plain acc -> all_plain (digits_of fuel n acc).
Proof.
  induction fuel as [|fuel IH]; intros n acc Hacc; [exact Hacc|].
  cbn [digits_of].
  assert (Hd : all_plain (digit_char (n mod 10) :: acc)).
  { constructor; [|exact Hacc]. pose proof (mod10_digit n) as Hm.
    unfold plain, digit_char. apply orb_true_iff. right.
    apply andb_true_iff. split; apply N.leb_le; lia. }
  destruct (n <? 10); [exact Hd|now apply IH].
Qed.

Lemma int_str_plain (n : Z) : all_plain (Profile.int_str n).
Proof.
  unfold Profile.int_str, decimal.
  destruct (n <? 0); [apply Forall_app; split; [repeat constructor|]|];
    apply digits_of_plain; constructor.
Qed.

Lemma encode_value_plain (level : nat) (v : pyval) :
  all_plain (encode_value level v).
Proof.
  destruct v as [|s|n|l]; cbn [encode_value].
  - repeat constructor.
  - apply encode_string_plain.
  - apply int_str_plain.
  - apply bracket_plain; [reflexivity|reflexivity|].
    apply List.Forall_forall. intros x Hx. apply in_map_iff in Hx as (s & <- & _).
    apply encode_string_plain.
Qed.

Lemma dumps_plain (dicts : list (list (list N * pyval))) :
  all_plain (dumps dicts).
Proof.
  unfold dumps. apply bracket_plain; [reflexivity|reflexivity|].
  apply List.Forall_forall. intros x Hx. apply in_map_iff in Hx as (d & <- & _).
  unfold encode_dict. apply bracket_plain; [reflexivity|reflexivity|].
  apply List.Forall_forall. intros y Hy. apply in_map_iff in Hy as (kv & <- & _).
  apply Forall_app. split; [apply encode_string_plain|].
  apply Forall_app. split; [repeat constructor|apply encode_value_plain].
Qed.

End JsonFacts.

(** The JSON text of any list of records is made of printable ASCII
    characters and newlines only, whatever the records hold; for no record
    it is ["[]"]. *)
Theorem emails_to_json_is_ascii (emails : list email) :
  Forall (fun c => plain c = true) (emails_to_json emails)
  /\ emails_to_json [] = py "[]".
Proof. split; [apply dumps_plain|reflexivity]. Qed.

Section GetEmails.
Import Datetime.

Lemma get_emails_by_date_range_returns
      (svc : service) (clock : nat -> datetime) (start_date end_date : datetime)
      (max_results : Z) :
  (forall q n e, messages_list svc q n = Raise e -> e = HttpError) ->
  exists emails,
    get_emails_by_date_range svc clock start_date end_date max_results []
                             false true = Ok emails
    /\ Forall (fun e => is_basic e = true) emails
    /\ ((forall q n r, messages_list svc q n = Ok r -> r = None \/ r = Some []) ->
        emails = []).
Proof.
  intros Hsafe. unfold get_emails_by_date_range.
  destruct (messages_list svc (query start_date end_date []) max_results)
    as [results|e] eqn:E.
  - destruct (match results with Some l => l | None => [] end) as [|m rest] eqn:El.
    + exists []. repeat split; constructor.
    + rewrite retrieve_spec. cbn [fst app]. eexists. split; [reflexivity|].
      split.
      * apply (successes_ids svc clock false true (m :: rest) 1).
      * intros Hnone. apply Hnone in E as [->| ->]; discriminate El.
  - rewrite (Hsafe _ _ _ E). exists []. repeat split; constructor.
Qed.

End GetEmails.

(** With its default dates the tool always answers: for a clock that reads
    a valid datetime after the first day of year 1, and a listing call that
    raises nothing but [HttpError], [get_emails("yesterday", "today")]
    returns the JSON text of basic records, and ["[]"] when nothing is
    listed. *)
Theorem get_emails_defaults_answer
        (svc : service) (now_start now_end : Datetime.datetime)
        (clock : nat -> Datetime.datetime) (max_emails : Z) :
  valid_datetime now_start -> 1 < Datetime.toordinal now_start ->
  (forall q n e, messages_list svc q n = Raise e -> e = HttpError) ->
  exists emails,
    Main.get_emails svc now_start now_end clock (py "yesterday") (py "today")
                    max_emails = Ok (emails_to_json emails)
    /\ Forall (fun e => is_basic e = true) emails
    /\ ((forall q n r, messages_list svc q n = Ok r -> r = None \/ r = Some []) ->
        Main.get_emails svc now_start now_end clock (py "yesterday") (py "today")
                        max_emails = Ok (py "[]")).
Proof.
  intros Hv Hord Hsafe. unfold Main.get_emails.
  change (Utils.ensure_datetime now_start (py "yesterday"))
    with (Datetime.sub now_start (Datetime.td 1 0 0)).
  change (Utils.ensure_datetime now_end (py "today")) with (Ok now_end).
  destruct (sub_days now_start 1 Hv ltac:(lia)) as (d & -> & _).
  cbn [bind].
  destruct (get_emails_by_date_range_returns svc clock d now_end max_emails Hsafe)
    as (emails & -> & Hbasic & Hnone).
  cbn [bind]. exists emails. split; [reflexivity|]. split; [exact Hbasic|].
  intros Hempty. now rewrite (Hnone Hempty).
Qed.

Lemma get_emails_defaults_answer_witness :
  exists emails,
    Main.get_emails sample_service sample_now sample_now (fun _ => sample_now)
                    (py "yesterday") (py "today") 10
    = Ok (emails_to_json emails)
    /\ Forall (fun e => is_basic e = true) emails.
Proof.
  destruct (get_emails_defaults_answer sample_service sample_now sample_now
              (fun _ => sample_now) 10)
    as (emails & H & Hb & _).
  - split; reflexivity.
  - vm_compute. reflexivity.
  - intros q n e He. discriminate He.
  - exists emails. split; [exact H|exact Hb].
Defined.

(** ** The records of the two modes *)

Section Modes.

Ltac other_key := intros Hk; vm_compute in Hk; discriminate Hk.

Ltac dict_lookup :=
  repeat first [ rewrite lookup_insert_eq
               | rewrite lookup_insert_ne by other_key
               | rewrite lookup_empty ].

(** The constructor of the basic class reads the same from the two dicts. *)
Lemma new_GMailData_extended_basic
      (message : message) (md : message_details)
      (hs : gmap (list N) (list N)) (d : Datetime.datetime) :
  new_GMailData (extended_dict message md hs d)
  = new_GMailData (basic_dict message md hs d).
Proof.
  unfold new_GMailData, extended_dict, basic_dict, required_str, optional_str,
    default_str.
  dict_lookup. reflexivity.
Qed.

Lemma negative_size_rejected
      (message : message) (md : message_details)
      (hs : gmap (list N) (list N)) (d : Datetime.datetime)
      (ob : option (list N)) (n : Z) :
  sizeEstimate md = Some n -> n < 0 ->
  is_ok (new_GMailData (basic_dict message md hs d)) = true ->
  new_GMailDataExtended (add_body ob (extended_dict message md hs d))
  = Raise ValidationError.
Proof.
  intros Hsize Hn Hbasic. unfold new_GMailDataExtended.
  rewrite new_GMailData_add_body, new_GMailData_extended_basic.
  destruct (new_GMailData (basic_dict message md hs d)) as [g|e];
    [|discriminate Hbasic].
  cbn [bind].
  pose proof (validate_readable_date_result (Datetime.strftime_readable d)) as Hr.
  unfold extended_dict, required_str, default_list, default_nonneg_int.
  destruct ob as [b|]; cbn [add_body]; dict_lookup; cbn [bind];
    (destruct (Strptime.strptime _ readable_format); rewrite Hr; cbn [bind];
     [rewrite Hsize; replace (0 <=? n) with false
        by (symmetry; apply Z.leb_gt; lia); reflexivity
     |reflexivity]).
Qed.

End Modes.

(** In basic mode the headers never make the parse fail.  For a clock that
    reads a valid datetime, [_parse_email_data] raises what the fetch
    raises, raises [KeyError] for a message without payload, raises what
    the extraction of the body raises when the body is asked for, and in
    every other case returns the record of the message: its id, its thread,
    the last [From] and [Subject] headers or ["Unknown"] and
    ["No Subject"], the Date header in ISO form, or the clock when it does
    not parse, and the snippet. *)
Theorem basic_parse_builds_record
        (svc : service) (now : Datetime.datetime) (message : message)
        (include_body : bool) :
  valid_datetime now -> valid_offset (Datetime.tzinfo now) ->
  _parse_email_data svc now message include_body true
  = match messages_get svc (msg_id message) with
    | Raise e => Raise e
    | Ok md =>
        match payload md with
        | None => Raise KeyError
        | Some pl =>
            if include_body
            then do body <- _extract_email_body md in
                 Ok (Basic (basic_record now message md pl))
            else Ok (Basic (basic_record now message md pl))
        end
    end.
Proof.
  intros Hv Hoff.
  destruct (messages_get svc (msg_id message)) as [md|e] eqn:Hget.
  - destruct (payload md) as [pl|] eqn:Hpl.
    + now apply parse_email_data_basic.
    + unfold _parse_email_data. rewrite Hget. cbn [bind]. now rewrite Hpl.
  - unfold _parse_email_data. now rewrite Hget.
Qed.

Lemma basic_parse_builds_record_witness :
  _parse_email_data sample_service sample_now (mk_message (py "m1")) false true
  = Ok (Basic (mk_GMailData (py "m1") (Some (py "t1")) (py "ann@example.com")
                 (py "Hello") (py "2024-01-15T10:30:00-08:00") (py "hi there")))
  /\ _parse_email_data sample_service sample_now (mk_message (py "m2")) false true
     = Raise HttpError.
Proof.
  split.
  - rewrite (basic_parse_builds_record sample_service sample_now
               (mk_message (py "m1")) false);
      [vm_compute; reflexivity|split; reflexivity|exact I].
  - rewrite (basic_parse_builds_record sample_service sample_now
               (mk_message (py "m2")) false);
      [reflexivity|split; reflexivity|exact I].
Defined.

(** In extended mode a fetched message with a payload gives its record
    whenever the size estimate is not negative and the date that is
    written, parsed or read from the clock, has a year of four digits.  The
    body is [None] when it is not asked for, and the cleaned body when it
    is. *)
Theorem extended_parse_builds_record
        (svc : service) (now : Datetime.datetime) (message : message)
        (md : message_details) (pl : part) (include_body : bool) :
  valid_datetime now -> valid_offset (Datetime.tzinfo now) ->
  messages_get svc (msg_id message) = Ok md -> payload md = Some pl ->
  1000 <= Datetime.year (parse_date now (get_str (headers_of pl) "Date" "")) ->
  (forall n, sizeEstimate md = Some n -> 0 <= n) ->
  _parse_email_data svc now message include_body false
  = if include_body
    then do body <- _extract_email_body md in
         Ok (Extended (extended_record now message md pl
                         (Some (if truthy body then _clean_html body else []))))
    else Ok (Extended (extended_record now message md pl None)).
Proof. apply parse_email_data_extended. Qed.

Lemma extended_parse_builds_record_witness :
  _parse_email_data sample_service sample_now (mk_message (py "m3")) true false
  = Ok (Extended
          (mk_GMailDataExtended
             (mk_GMailData (py "m3") (Some (py "t1")) (py "ann@example.com")
                (py "Hello") (py "2024-01-15T10:30:00") (py "hi there"))
             (py "bob@example.com") (py "2024-01-15 10:30:00") [py "INBOX"]
             2048 (Some (py "hi")))).
Proof.
  rewrite (extended_parse_builds_record sample_service sample_now
             (mk_message (py "m3")) (sample_details "yesterday evening")
             (sample_payload "yesterday evening") true).
  - vm_compute. reflexivity.
  - split; reflexivity.
  - exact I.
  - reflexivity.
  - reflexivity.
  - vm_compute. discriminate.
  - intros n [= <-]. lia.
Defined.

(** A negative size estimate is refused in extended mode only: the same
    message gives a validation error in extended mode and its record in
    basic mode. *)
Theorem negative_size_fails_extended_only
        (svc : service) (now : Datetime.datetime) (message : message)
        (md : message_details) (pl : part) (n : Z) :
  valid_datetime now -> valid_offset (Datetime.tzinfo now) ->
  messages_get svc (msg_id message) = Ok md -> payload md = Some pl ->
  sizeEstimate md = Some n -> n < 0 ->
  _parse_email_data svc now message false false = Raise ValidationError
  /\ _parse_email_data svc now message false true
     = Ok (Basic (basic_record now message md pl)).
Proof.
  intros Hv Hoff Hget Hpl Hsize Hn.
  pose proof (parse_email_data_basic svc now message md pl false Hv Hoff Hget Hpl)
    as Hbasic.
  split; [|exact Hbasic].
  unfold _parse_email_data in *. rewrite Hget in *. cbn [bind] in *.
  rewrite Hpl in *. cbn [bind] in *. cbv zeta in *.
  match type of Hbasic with
  | bind (new_GMailData (basic_dict _ _ ?hs ?d)) _ = _ =>
      pose proof (negative_size_rejected message md hs d None n Hsize Hn) as H
  end.
  cbn [add_body] in H. rewrite H; [reflexivity|].
  now destruct (new_GMailData _).
Qed.

Lemma negative_size_fails_extended_only_witness :
  let svc := mk_service (fun _ _ => Ok None)
               (fun _ => Ok (mk_details None None None (Some (-1))
                               (Some (sample_payload "no date")))) in
  _parse_email_data svc sample_now (mk_message (py "m")) false false
  = Raise ValidationError
  /\ is_ok (_parse_email_data svc sample_now (mk_message (py "m")) false true)
     = true.
Proof.
  intros svc.
  destruct (negative_size_fails_extended_only svc sample_now
              (mk_message (py "m"))
              (mk_details None None None (Some (-1))
                 (Some (sample_payload "no date")))
              (sample_payload "no date") (-1)) as [H1 H2].
  - split; reflexivity.
  - exact I.
  - reflexivity.
  - reflexivity.
  - reflexivity.
  - lia.
  - split; [exact H1|]. now rewrite H2.
Defined.

(** The two modes agree: when a message parses in extended mode, it parses
    in basic mode, for the same reading of the clock, to the basic part of
    the extended record. *)
Theorem modes_agree_on_basic_fields
        (svc : service) (now : Datetime.datetime) (message : message)
        (include_body : bool) (x : GMailDataExtended) :
  _parse_email_data svc now message include_body false = Ok (Extended x) ->
  _parse_email_data svc now message false true = Ok (Basic (basic x)).
Proof.
  unfold _parse_email_data. intros H.
  apply bind_inv in H as (md & -> & H). cbn [bind].
  apply bind_inv in H as (pl & -> & H). cbn [bind].
  cbv zeta in *. apply bind_inv in H as (d & Hd & H).
  apply bind_inv in H as (x' & Hx & [= <-]).
  apply new_GMailDataExtended_inv in Hx as (Hb & _).
  assert (Hbasic : new_GMailData d
                   = new_GMailData
                       (basic_dict message md
                          (headers_dict (match p_headers pl with
                                         | Some l => l | None => [] end))
                          (parse_date now
                             (get_str (headers_dict
                                         (match p_headers pl with
                                          | Some l => l | None => [] end))
                                      "Date" "")))).
  { destruct include_body.
    - apply bind_inv in Hd as (body & _ & [= <-]).
      now rewrite new_GMailData_ignores_body, new_GMailData_extended_basic.
    - injection Hd as <-. apply new_GMailData_extended_basic. }
  rewrite <- Hbasic, Hb. reflexivity.
Qed.

Lemma modes_agree_on_basic_fields_witness :
  exists x,
    _parse_email_data sample_service sample_now (mk_message (py "m1")) true false
    = Ok (Extended x)
    /\ _parse_email_data sample_service sample_now (mk_message (py "m1")) false
                         true = Ok (Basic (basic x)).
Proof.
  eexists. split; [vm_compute; reflexivity|].
  apply (modes_agree_on_basic_fields sample_service sample_now
           (mk_message (py "m1")) true).
  vm_compute. reflexivity.
Defined.

(** ** A Date header in the form of RFC 2822 *)

Section DateHeader.
Import Re Strptime Datetime.

Definition weekday_names : list string :=
  ["Mon"; "Tue"; "Wed"; "Thu"; "Fri"; "Sat"; "Sun"]%string.

Definition month_name (mo : Z) : string :=
  nth (Z.to_nat mo)
      [""; "Jan"; "Feb"; "Mar"; "Apr"; "May"; "Jun"; "Jul"; "Aug"; "Sep"; "Oct";
       "Nov"; "Dec"]%string ""%string.

(** The header [Www, DD Mon YYYY HH:MM:SS +HHMM]; [day] is the day of the
    month as it is written, [sign] the sign of the offset. *)
Definition date_header (wd : string) (day : list N) (mo y h mi s : Z)
           (sign : N) (oh om : Z) : list N :=
  py wd ++ py ", " ++ day ++ py " " ++ py (month_name mo) ++ py " "
  ++ zero_pad 4 y ++ py " " ++ zero_pad 2 h ++ py ":" ++ zero_pad 2 mi
  ++ py ":" ++ zero_pad 2 s ++ py " " ++ [sign] ++ zero_pad 2 oh ++ zero_pad 2 om.

Definition header_format : list N := py "%a, %d %b %Y %H:%M:%S %z".

Definition header_regex : regex :=
  Cat (__seqToRE a_weekday "a") (Cat (ichr (chr ",")) (Cat (plus is_space)
  (Cat re_d (Cat (plus is_space) (Cat (__seqToRE (tl a_month) "b")
  (Cat (plus is_space) (Cat re_Y (Cat (plus is_space) (Cat re_H
  (Cat (ichr (chr ":")) (Cat re_M (Cat (ichr (chr ":")) (Cat re_S
  (Cat (plus is_space) (Cat re_z Eps))))))))))))))).

Lemma pattern_header : pattern header_format = Some header_regex.
Proof. reflexivity. Qed.

Ltac run_match :=
  let H := fresh in
  intros ? ? ? ? ? H; vm_compute; rewrite H; reflexivity.

Lemma captures_a (wd : string) :
  In wd weekday_names -> captures (__seqToRE a_weekday "a") (chr "a") (py wd).
Proof.
  intros Hin. apply captures_of_takes. unfold weekday_names in Hin.
  cbn [In] in Hin.
  repeat (destruct Hin as [<-|Hin]; [run_match|]). destruct Hin.
Qed.

Lemma captures_b (mo : Z) :
  1 <= mo <= 12 ->
  captures (__seqToRE (tl a_month) "b") (chr "b") (py (month_name mo)).
Proof.
  intros Hmo. apply captures_of_takes.
  assert (H : In mo (map Z.of_nat (List.seq 1 12)))
    by (apply in_map_iff; exists (Z.to_nat mo); split; [lia|apply in_seq; lia]).
  cbn [List.seq map In] in H.
  repeat (destruct H as [<-|H]; [run_match|]). destruct H.
Qed.

(** A day of one digit, before a space. *)
Lemma captures_d_short {R : Type} (d : Z) (s' : list N) (g : groups)
      (k : list N -> groups -> option R) (x : R) :
  1 <= d <= 9 ->
  k (chr " " :: s') ((chr "d", decimal d) :: g) = Some x ->
  m re_d (decimal d ++ chr " " :: s') g k = Some x.
Proof.
  intros Hd H. unfold re_d. cbn [m].
  assert (Hinner : forall (k' : list N -> groups -> option R),
             k' (chr " " :: s') g = Some x ->
             m (alts [Cat (ch "3") (cls "0" "1"); Cat (cls "1" "2") dig;
                      Cat (ch "0") (cls "1" "9"); cls "1" "9";
                      Cat (ch " ") (cls "1" "9")])
               (decimal d ++ chr " " :: s') g k' = Some x).
  { intros k' Hk.
    assert (Hin : In d (map Z.of_nat (List.seq 1 9)))
      by (apply in_map_iff; exists (Z.to_nat d); split; [lia|apply in_seq; lia]).
    cbn [List.seq map In] in Hin.
    repeat (destruct Hin as [<-|Hin];
            [vm_compute; vm_compute in Hk; now rewrite Hk|]).
    destruct Hin. }
  apply Hinner. now rewrite firstn_prefix.
Qed.

(** What can follow a space: a text that does not start with one. *)
Definition head_ok (s : list N) : Prop :=
  match s with
  | c :: _ => is_space c = false
  | [] => True
  end.

Lemma space_then {R : Type} (s : list N) (g : groups)
      (k : list N -> groups -> option R) (x : R) :
  head_ok s -> k s g = Some x ->
  m (plus is_space) (chr " " :: s) g k = Some x.
Proof.
  intros Hs H. destruct s as [|c s]; [|now apply space_step].
  unfold plus. cbn [m rep may_take one_less Nat.pred].
  change (is_space (chr " ")) with true. cbn [andb]. now rewrite H.
Qed.

Lemma head_ok_app (a b : list N) :
  a <> [] -> head_ok a -> head_ok (a ++ b).
Proof. destruct a; [congruence|trivial]. Qed.


Lemma tens_upto_5 (v : Z) : 0 <= v <= 59 -> 0 <= v / 10 <= 5.
Proof.
  intros Hv. split; [apply Z.div_pos; lia|].
  apply Z.lt_succ_r, Z.div_lt_upper_bound; lia.
Qed.

Lemma range_0_5 (a : Z) : 0 <= a <= 5 -> range "0" "5" (digit_char a) = true.
Proof.
  intros Ha. unfold range, digit_char.
  apply andb_true_iff. split; apply N.leb_le; cbn; lia.
Qed.

(** One step of the matcher on a character class, on an optional
    character that is not there, and on an option at the end. *)
Lemma m_cat_chr {R : Type} (p : N -> bool) (r : regex) (c : N) (s : list N)
      (g : groups) (k : list N -> groups -> option R) :
  p c = true -> m (Cat (Chr p) r) (c :: s) g k = m r s g k.
Proof. intros H. cbn [m]. now rewrite H. Qed.

Lemma m_cat_opt_skip {R : Type} (p : N -> bool) (r : regex) (c : N)
      (s : list N) (g : groups) (k : list N -> groups -> option R) :
  p c = false -> m (Cat (Opt (Chr p)) r) (c :: s) g k = m r (c :: s) g k.
Proof. intros H. cbn [m]. now rewrite H. Qed.

Lemma m_grp {R : Type} (name : N) (r : regex) (s : list N) (g : groups)
      (k : list N -> groups -> option R) :
  m (Grp name r) s g k
  = m r s g (fun s' g' =>
               k s' ((name, firstn (length s - length s')%nat s) :: g')).
Proof. reflexivity. Qed.

Lemma m_alt_left {R : Type} (a b : regex) (s : list N) (g : groups)
      (k : list N -> groups -> option R) (x : R) :
  m a s g k = Some x -> m (Alt a b) s g k = Some x.
Proof. intros H. cbn [m]. now rewrite H. Qed.

Lemma captures_z {R : Type} (sc : N) (oh om : Z) (g : groups)
      (k : list N -> groups -> option R) (x : R) :
  sc = chr "+" \/ sc = chr "-" -> 0 <= oh < 100 -> 0 <= om <= 59 ->
  k [] ((chr "z", [sc] ++ zero_pad 2 oh ++ zero_pad 2 om) :: g) = Some x ->
  m re_z ([sc] ++ zero_pad 2 oh ++ zero_pad 2 om) g k = Some x.
Proof.
  intros Hsc Hoh Hom H. rewrite !zero_pad_2 in * by lia. cbn [app] in *.
  pose proof (tens_upto_5 om Hom) as Hom10.
  assert (Hoh10 : 0 <= oh / 10 <= 9) by (apply (div_digit oh 10 10); lia).
  unfold re_z. rewrite m_grp. apply m_alt_left.
  cbn [seq]. unfold dig, cls, ch, lit.
  rewrite m_cat_chr by (destruct Hsc as [-> | ->]; reflexivity).
  rewrite !m_cat_chr by (apply digit_char_is_digit; first [lia|apply mod10_digit]).
  rewrite m_cat_opt_skip
    by (apply (digit_char_neq (om / 10) (chr ":")); [lia|right; reflexivity]).
  rewrite m_cat_chr by (apply range_0_5; lia).
  rewrite m_cat_chr by (apply digit_char_is_digit, mod10_digit).
  exact H.
Qed.


Lemma month_cases (mo : Z) :
  1 <= mo <= 12 -> In mo (map Z.of_nat (List.seq 1 12)).
Proof.
  intros Hmo. apply in_map_iff. exists (Z.to_nat mo). split; [lia|].
  apply in_seq. lia.
Qed.

Lemma month_index (mo : Z) :
  1 <= mo <= 12 ->
  index_of a_month (map lower (py (month_name mo))) 0 = Some mo.
Proof.
  intros Hmo. pose proof (month_cases mo Hmo) as H. cbn [List.seq map In] in H.
  repeat (destruct H as [<-|H]; [reflexivity|]). destruct H.
Qed.

Lemma month_head (mo : Z) (t : list N) :
  1 <= mo <= 12 -> head_ok (py (month_name mo) ++ t).
Proof.
  intros Hmo. pose proof (month_cases mo Hmo) as H. cbn [List.seq map In] in H.
  repeat (destruct H as [<-|H]; [reflexivity|]). destruct H.
Qed.

Lemma weekday_index (wd : string) :
  In wd weekday_names ->
  exists i, index_of a_weekday (map lower (py wd)) 0 = Some i.
Proof.
  unfold weekday_names. cbn [In]. intros H.
  repeat (destruct H as [<-|H]; [eexists; reflexivity|]). destruct H.
Qed.

Lemma int_one_digit (d : Z) : 1 <= d <= 9 -> int_ (decimal d) = Some d.
Proof.
  intros Hd.
  assert (H : In d (map Z.of_nat (List.seq 1 9)))
    by (apply in_map_iff; exists (Z.to_nat d); split; [lia|apply in_seq; lia]).
  cbn [List.seq map In] in H.
  repeat (destruct H as [<-|H]; [reflexivity|]). destruct H.
Qed.

(** The offset in seconds that [+HHMM] or [-HHMM] stands for. *)
Definition gmtoff (sc : N) (oh om : Z) : Z :=
  if N.eqb sc (chr "-") then - (oh * 3600 + om * 60) else oh * 3600 + om * 60.

Lemma parse_z_hhmm (sc : N) (oh om : Z) :
  sc = chr "+" \/ sc = chr "-" -> 0 <= oh < 100 -> 0 <= om <= 59 ->
  parse_z ([sc] ++ zero_pad 2 oh ++ zero_pad 2 om) = Ok (gmtoff sc oh om, 0).
Proof.
  intros Hsc Hoh Hom.
  rewrite !zero_pad_2 by lia. cbn [app]. unfold parse_z.
  replace (str_eqb _ (py "Z")) with false
    by (destruct Hsc as [-> | ->]; reflexivity).
  cbn [nth].
  assert (Hc : N.eqb (digit_char (om / 10)) (chr ":") = false)
    by (apply digit_char_neq;
        [pose proof (tens_upto_5 om Hom); lia|right; reflexivity]).
  rewrite Hc.
  cbn [bind slice slice_from skipn firstn Nat.sub length repeat app].
  change (int_r [chr "0"; chr "0"; chr "0"; chr "0"; chr "0"; chr "0"])
    with (@Ok Z 0).
  change (starts_with (py "-") (sc :: ?t)) with (N.eqb (chr "-") sc && true).
  rewrite andb_true_r, <- (zero_pad_2 oh), <- (zero_pad_2 om) by lia.
  unfold int_r. rewrite !int_2 by lia. cbn [bind]. unfold gmtoff.
  destruct Hsc as [-> | ->].
  - change (N.eqb (chr "-") (chr "+")) with false.
    change (N.eqb (chr "+") (chr "-")) with false. cbv iota.
    do 2 f_equal. lia.
  - change (N.eqb (chr "-") (chr "-")) with true. cbv iota.
    do 2 f_equal. lia.
Qed.


Lemma zero_pad_2_head (v : Z) (t : list N) :
  0 <= v < 100 -> head_ok (zero_pad 2 v ++ t).
Proof.
  intros Hv. rewrite zero_pad_2 by exact Hv. cbn [app head_ok].
  apply digit_char_not_space, (div_digit v 10 10); lia.
Qed.

Lemma zero_pad_4_head (v : Z) (t : list N) :
  0 <= v < 10000 -> head_ok (zero_pad 4 v ++ t).
Proof.
  intros Hv. rewrite zero_pad_4 by exact Hv. cbn [app head_ok].
  apply digit_char_not_space, (div_digit v 1000 10); lia.
Qed.

(** The day of the month is written with two digits, or with one. *)
Definition day_written (day : list N) (d : Z) : Prop :=
  day = zero_pad 2 d \/ (d <= 9 /\ day = decimal d).

Ltac space_before H :=
  change (py " " ++ ?t) with (chr " " :: t); apply space_then; [H|].

Ltac colon :=
  change (py ":" ++ ?t) with (chr ":" :: t); rewrite literal_step.

Ltac header_tail :=
  space_before ltac:(apply month_head; lia);
  apply captures_b; [lia|];
  space_before ltac:(apply zero_pad_4_head; lia);
  apply captures_Y; [lia|];
  space_before ltac:(apply zero_pad_2_head; lia);
  apply captures_H; [lia|]; colon;
  apply captures_M; [lia|]; colon;
  apply captures_S; [lia|];
  space_before
    ltac:(cbn [app head_ok];
          match goal with
          | Hsc : _ = chr "+" \/ _ = chr "-" |- _ =>
              destruct Hsc as [-> | ->]; reflexivity
          end);
  apply captures_z; [assumption|lia|lia|]; reflexivity.

Lemma match_header (wd : string) (day : list N) (d mo y h mi s : Z) (sc : N)
      (oh om : Z) :
  In wd weekday_names -> day_written day d -> 1 <= d <= 31 -> 1 <= mo <= 12 ->
  0 <= y < 10000 -> 0 <= h <= 23 -> 0 <= mi <= 59 -> 0 <= s <= 59 ->
  sc = chr "+" \/ sc = chr "-" -> 0 <= oh < 100 -> 0 <= om <= 59 ->
  match_ header_regex (date_header wd day mo y h mi s sc oh om)
  = Some ([], [(chr "z", [sc] ++ zero_pad 2 oh ++ zero_pad 2 om);
               (chr "S", zero_pad 2 s); (chr "M", zero_pad 2 mi);
               (chr "H", zero_pad 2 h); (chr "Y", zero_pad 4 y);
               (chr "b", py (month_name mo)); (chr "d", day);
               (chr "a", py wd)]).
Proof.
  intros Hwd Hday Hd Hmo Hy Hh Hmi Hs Hsc Hoh Hom.
  unfold match_, date_header, header_regex. cbn [m].
  apply captures_a; [exact Hwd|].
  change (py ", " ++ ?t) with (chr "," :: chr " " :: t). rewrite literal_step.
  destruct Hday as [-> | [Hd9 ->]].
  - apply space_then; [apply zero_pad_2_head; lia|].
    apply captures_d; [exact Hd|]. header_tail.
  - apply space_then.
    { assert (H : In d (map Z.of_nat (List.seq 1 9)))
        by (apply in_map_iff; exists (Z.to_nat d); split; [lia|apply in_seq; lia]).
      cbn [List.seq map In] in H.
      repeat (destruct H as [<-|H]; [reflexivity|]). destruct H. }
    change (py " " ++ ?t) with (chr " " :: t).
    apply captures_d_short; [lia|].
    change (chr " " :: ?t) with (py " " ++ t). header_tail.
Qed.


Lemma int_day (day : list N) (d : Z) :
  day_written day d -> 1 <= d <= 31 -> int_ day = Some d.
Proof.
  intros [-> | [Hd9 ->]] Hd; [apply int_2; lia|apply int_one_digit; lia].
Qed.

(** [strptime] reads the header: the date and the time as written, the
    offset as a fixed zone. *)
Lemma strptime_header (wd : string) (day : list N) (d mo y h mi s : Z) (sc : N)
      (oh om : Z) :
  In wd weekday_names -> day_written day d ->
  _check_date_fields y mo d = true -> _check_time_fields h mi s 0 = true ->
  sc = chr "+" \/ sc = chr "-" -> 0 <= oh <= 23 -> 0 <= om <= 59 ->
  strptime (date_header wd day mo y h mi s sc oh om) header_format
  = Ok (mk_datetime y mo d h mi s 0 (Some (td 0 (gmtoff sc oh om) 0))).
Proof.
  intros Hwd Hday Hdate Htime Hsc Hoh Hom.
  date_bounds Hdate. destruct Hr as (Hy & Hmo & Hd).
  time_bounds Htime. destruct Ht as (Hh & Hmi & Hs).
  destruct (weekday_index wd Hwd) as [i Hi].
  unfold strptime. rewrite pattern_header.
  rewrite (match_header wd day d mo y h mi s sc oh om) by (assumption || lia).
  cbn [truthy]. unfold int_group, name_group, int_r. cbn [group].
  char_tests. cbn iota.
  rewrite int_4, !int_2, (int_day day d Hday Hd), (month_index mo Hmo), Hi by lia.
  rewrite parse_z_hhmm by (assumption || lia).
  cbn [bind default]. rewrite Hdate. cbn [negb].
  unfold timezone.
  replace ((- 86400000000 <? td 0 (gmtoff sc oh om) 0)
           && (td 0 (gmtoff sc oh om) 0 <? 86400000000)) with true.
  - cbn [bind]. unfold new_datetime. now rewrite Hdate, Htime.
  - symmetry. unfold td, gmtoff. apply andb_true_iff.
    destruct (N.eqb sc (chr "-")); split; apply Z.ltb_lt; lia.
Qed.


(** No parenthesis stands in the header. *)
Abbreviation no_paren s := (Forall (fun c => N.eqb (chr "(") c = false) s).

Lemma no_paren_contains (s : list N) :
  no_paren s -> contains (py " (") s = false.
Proof.
  induction 1 as [|c s Hc Hs IH]; [reflexivity|].
  cbn [contains]. rewrite IH, orb_false_r.
  change (py " (") with [chr " "; chr "("]. cbn [starts_with].
  destruct Hs as [|c' s' Hc' _]; cbn [starts_with];
    [apply andb_false_r|now rewrite Hc', andb_false_r].
Qed.

Lemma digit_no_paren (v : Z) : 0 <= v <= 9 -> N.eqb (chr "(") (digit_char v) = false.
Proof. intros Hv. apply (digit_char_neq v (chr "(")); [exact Hv|left; reflexivity]. Qed.

Lemma zero_pad_2_no_paren (v : Z) : 0 <= v < 100 -> no_paren (zero_pad 2 v).
Proof.
  intros Hv. rewrite zero_pad_2 by exact Hv.
  repeat constructor; apply digit_no_paren;
    [apply (div_digit v 10 10); lia|apply mod10_digit].
Qed.

Lemma zero_pad_4_no_paren (v : Z) : 0 <= v < 10000 -> no_paren (zero_pad 4 v).
Proof.
  intros Hv. rewrite zero_pad_4 by exact Hv.
  repeat constructor; apply digit_no_paren;
    first [apply (div_digit v 1000 10); lia|apply mod10_digit].
Qed.

Lemma date_header_no_paren (wd : string) (day : list N) (d mo y h mi s : Z)
      (sc : N) (oh om : Z) :
  In wd weekday_names -> day_written day d -> 1 <= d <= 31 -> 1 <= mo <= 12 ->
  0 <= y < 10000 -> 0 <= h <= 23 -> 0 <= mi <= 59 -> 0 <= s <= 59 ->
  sc = chr "+" \/ sc = chr "-" -> 0 <= oh < 100 -> 0 <= om <= 59 ->
  no_paren (date_header wd day mo y h mi s sc oh om).
Proof.
  intros Hwd Hday Hd Hmo Hy Hh Hmi Hs Hsc Hoh Hom. unfold date_header.
  repeat (apply Forall_app; split);
    try (apply zero_pad_2_no_paren; lia);
    try (apply zero_pad_4_no_paren; lia);
    try (repeat constructor; fail).
  - unfold weekday_names in Hwd. cbn [In] in Hwd.
    repeat (destruct Hwd as [<-|Hwd]; [repeat constructor|]). destruct Hwd.
  - destruct Hday as [-> | [Hd9 ->]]; [apply zero_pad_2_no_paren; lia|].
    assert (H : In d (map Z.of_nat (List.seq 1 9)))
      by (apply in_map_iff; exists (Z.to_nat d); split; [lia|apply in_seq; lia]).
    cbn [List.seq map In] in H.
    repeat (destruct H as [<-|H]; [repeat constructor|]). destruct H.
  - pose proof (month_cases mo Hmo) as H. cbn [List.seq map In] in H.
    repeat (destruct H as [<-|H]; [repeat constructor|]). destruct H.
  - destruct Hsc as [-> | ->]; repeat constructor.
Qed.

(** The offset as [isoformat] writes it. *)
Lemma format_offset_hhmm (sc : N) (oh om : Z) :
  0 <= oh <= 23 -> 0 <= om <= 59 ->
  _format_offset (Some (td 0 (gmtoff sc oh om) 0))
  = (if gmtoff sc oh om <? 0 then py "-" else py "+")
    ++ zero_pad 2 oh ++ py ":" ++ zero_pad 2 om.
Proof.
  intros Hoh Hom. unfold _format_offset. cbv zeta.
  set (o := td 0 (gmtoff sc oh om) 0).
  set (a := oh * 3600 + om * 60).
  assert (Ho : o = gmtoff sc oh om * 1000000) by (subst o; unfold td; lia).
  assert (Hg : gmtoff sc oh om = a \/ gmtoff sc oh om = - a)
    by (unfold gmtoff; destruct (N.eqb sc (chr "-")); auto).
  assert (Hneg : (td_days o <? 0) = (gmtoff sc oh om <? 0)).
  { unfold td_days. destruct (gmtoff sc oh om <? 0) eqn:E;
      [apply Z.ltb_lt in E; apply Z.ltb_lt
      |apply Z.ltb_ge in E; apply Z.ltb_ge];
      Z.div_mod_to_equations; lia. }
  rewrite Hneg.
  assert (Habs : (if gmtoff sc oh om <? 0 then - o else o) = a * 1000000).
  { destruct (gmtoff sc oh om <? 0) eqn:E;
      [apply Z.ltb_lt in E|apply Z.ltb_ge in E]; lia. }
  rewrite Habs.
  destruct (div_mod_known (a * 1000000) 3600000000 oh (om * 60000000))
    as [Hq Hr]; [lia|subst a; lia|].
  rewrite Hq, Hr.
  destruct (div_mod_known (om * 60000000) 60000000 om 0) as [Hq' Hr'];
    [lia|lia|].
  rewrite Hq', Hr'. change (0 =? 0) with true. cbv iota.
  now rewrite app_nil_r.
Qed.

End DateHeader.

(** The ISO text of the moment that a Date header names. *)
Definition header_iso (d mo y h mi s : Z) (sc : N) (oh om : Z) : list N :=
  zero_pad 4 y ++ py "-" ++ zero_pad 2 mo ++ py "-" ++ zero_pad 2 d ++ py "T"
  ++ zero_pad 2 h ++ py ":" ++ zero_pad 2 mi ++ py ":" ++ zero_pad 2 s
  ++ (if gmtoff sc oh om <? 0 then py "-" else py "+")
  ++ zero_pad 2 oh ++ py ":" ++ zero_pad 2 om.

(** A Date header [Www, DD Mon YYYY HH:MM:SS +HHMM] of a real date and time
    of day, the day written with one digit or two, the offset below 24
    hours, is parsed as written and never replaced by the clock: the date
    that [_parse_email_data] stores, [parse_date(...).isoformat()], is
    [YYYY-MM-DDTHH:MM:SS+HH:MM] with the fields and the offset of the
    header.  A zone name in parentheses after the header changes nothing,
    and so does the name of the weekday, which is not compared with the
    date.  The offset [-0000] is written [+00:00]. *)
Theorem date_header_is_kept
        (now : Datetime.datetime) (wd : string) (day zone : list N)
        (d mo y h mi s : Z) (sc : N) (oh om : Z) :
  In wd weekday_names -> day_written day d ->
  Datetime._check_date_fields y mo d = true ->
  Datetime._check_time_fields h mi s 0 = true ->
  sc = chr "+" \/ sc = chr "-" -> 0 <= oh <= 23 -> 0 <= om <= 59 ->
  let header := date_header wd day mo y h mi s sc oh om in
  let moment :=
    Datetime.mk_datetime y mo d h mi s 0 (Some (Datetime.td 0 (gmtoff sc oh om) 0)) in
  parse_date now header = moment
  /\ parse_date now (header ++ py " (" ++ zone) = moment
  /\ Datetime.isoformat moment = header_iso d mo y h mi s sc oh om.
Proof.
  intros Hwd Hday Hdate Htime Hsc Hoh Hom header moment.
  pose proof (strptime_header wd day d mo y h mi s sc oh om
                Hwd Hday Hdate Htime Hsc Hoh Hom) as Hparse.
  fold header in Hparse. fold moment in Hparse.
  assert (Hno : contains (py " (") header = false).
  { apply no_paren_contains. subst header.
    date_bounds Hdate. destruct Hr as (Hy & Hmo & Hd).
    time_bounds Htime. destruct Ht as (Hh & Hmi & Hs).
    apply (date_header_no_paren wd day d); (assumption || lia). }
  split; [|split].
  - unfold parse_date, date_to_parse. rewrite Hno.
    change (py "%a, %d %b %Y %H:%M:%S %z") with header_format.
    now rewrite Hparse.
  - unfold parse_date. rewrite date_to_parse_strips by exact Hno.
    change (py "%a, %d %b %Y %H:%M:%S %z") with header_format.
    now rewrite Hparse.
  - subst moment. unfold Datetime.isoformat, header_iso, Datetime._format_time.
    cbn [Datetime.year Datetime.month Datetime.day Datetime.hour Datetime.minute
         Datetime.second Datetime.microsecond Datetime.tzinfo].
    change (0 =? 0) with true. cbv iota.
    rewrite format_offset_hhmm by assumption.
    rewrite app_nil_r, <- !app_assoc. reflexivity.
Qed.

Lemma date_header_is_kept_witness :
  parse_date sample_now (py "Mon, 15 Jan 2024 10:30:00 -0800 (PST)")
  = Datetime.mk_datetime 2024 1 15 10 30 0 0 (Some (-28800000000))
  /\ Datetime.isoformat
       (Datetime.mk_datetime 2024 1 15 10 30 0 0 (Some (-28800000000)))
     = py "2024-01-15T10:30:00-08:00".
Proof.
  destruct (date_header_is_kept sample_now "Mon" (py "15") (py "PST)")
              15 1 2024 10 30 0 (chr "-") 8 0) as (_ & H2 & H3);
    [cbn; tauto|left; reflexivity|reflexivity|reflexivity|right; reflexivity
    |lia|lia|].
  split; [exact H2|exact H3].
Defined.

(** ** The date of the record, parsed or read from the clock (C6) *)

Section RecordDate.
Import Datetime.




End RecordDate.



(** ** Where an extracted body comes from *)

(** A part and the parts inside it, in the order of the search. *)
Fixpoint parts_of (p : part) : list part :=
  match p with
  | mk_part _ _ ps _ =>
      p :: match ps with
           | Some subparts => flat_map parts_of subparts
           | None => []
           end
  end.

(** The declared content type is one of the two that the search reads. *)
Definition is_text (p : part) : Prop :=
  p_mimeType p = Some (py "text/plain") \/ p_mimeType p = Some (py "text/html").

(** Induction on a part with the property at hand for each of its
    sub-parts. *)
Fixpoint part_parts_ind (P : part -> Prop)
         (step : forall mt b ps hs,
             match ps with Some l => List.Forall P l | None => True end ->
             P (mk_part mt b ps hs))
         (p : part) {struct p} : P p :=
  match p with
  | mk_part mt b ps hs =>
      step mt b ps hs
        (match ps as o
               return match o with Some l => List.Forall P l | None => True end
         with
         | Some l =>
             (fix all (l : list part) : List.Forall P l :=
                match l with
                | [] => @List.Forall_nil part P
                | q :: l' =>
                    @List.Forall_cons part P q l' (part_parts_ind P step q) (all l')
                end) l
         | None => I
         end)
  end.

Section BodySource.
Import Base64.

Lemma a2b_loop_raises (data : list N) (quad_pos : nat) (leftchar : N) (pads : nat)
      (e : exn) :
  a2b_loop data quad_pos leftchar pads = Raise e -> e = binascii_Error.
Proof.
  revert quad_pos leftchar pads.
  induction data as [|c rest IH]; intros quad_pos leftchar pads; cbn [a2b_loop].
  - destruct quad_pos; [discriminate|now intros [= <-]].
  - destruct (c =? BASE64_PAD)%N.
    + destruct (2 <=? quad_pos)%nat; [|apply IH].
      destruct (4 <=? quad_pos + S pads)%nat; [discriminate|apply IH].
    + destruct (table_a2b_base64 c) as [v|]; [|apply IH].
      destruct quad_pos as [|[|[|n]]]; [apply IH| | |]; unfold emit;
        match goal with
        | |- bind ?r _ = _ -> _ =>
            destruct r as [bs|e'] eqn:E; cbn [bind];
              [discriminate|intros [= <-]; exact (IH _ _ _ E)]
        end.
Qed.

Lemma decode_data_raises (d : list N) (e : exn) :
  decode_data d = Raise e -> e = ValueError \/ e = binascii_Error.
Proof.
  unfold decode_data, urlsafe_b64decode, _bytes_from_decode_data.
  destruct (forallb _ d); cbn [bind].
  - unfold a2b_base64.
    destruct (a2b_loop _ 0 0 0) as [raw|e'] eqn:E; cbn [bind]; [discriminate|].
    intros [= <-]. right. exact (a2b_loop_raises _ _ _ _ _ E).
  - intros [= <-]. now left.
Qed.

Lemma own_body_source (mt : option (list N)) (b : option part_body)
      (body : list N) :
  own_body mt b = Ok body -> truthy body = true ->
  (mt = Some (py "text/plain") \/ mt = Some (py "text/html"))
  /\ truthy (part_data b) = true
  /\ decode_data (part_data b) = Ok body.
Proof.
  unfold own_body. cbv zeta.
  destruct mt as [t|]; cbn [andb].
  - destruct (str_eqb t (py "text/plain")) eqn:Ep; cbn [andb].
    + apply str_eqb_eq in Ep. subst t.
      destruct (truthy (part_data b)) eqn:Et.
      * intros H _. repeat split; [now left|exact H].
      * destruct (str_eqb (py "text/plain") (py "text/html")); cbn [andb];
          intros [= <-]; discriminate.
    + destruct (str_eqb t (py "text/html")) eqn:Eh; cbn [andb].
      * apply str_eqb_eq in Eh. subst t.
        destruct (truthy (part_data b)) eqn:Et.
        -- intros H _. repeat split; [now right|exact H].
        -- intros [= <-]; discriminate.
      * intros [= <-]; discriminate.
  - intros [= <-]; discriminate.
Qed.

Lemma own_body_raises (mt : option (list N)) (b : option part_body) (e : exn) :
  own_body mt b = Raise e -> e = ValueError \/ e = binascii_Error.
Proof.
  unfold own_body. cbv zeta.
  repeat match goal with
         | |- (if ?c then _ else _) = _ -> _ => destruct c
         end;
    first [apply decode_data_raises|discriminate].
Qed.

(** The loop over the sub-parts ends with the body of one of them, or with
    the part's own. *)
Lemma each_part_source (own : result (list N)) (l : list part) (body : list N) :
  each_part own l = Ok body -> truthy body = true ->
  own = Ok body \/ exists q, In q l /\ get_body_from_part q = Ok body.
Proof.
  induction l as [|q l IH]; cbn [each_part]; [now left|].
  destruct (get_body_from_part q) as [b|e] eqn:E; cbn [bind]; [|discriminate].
  destruct (truthy b) eqn:Eb.
  - intros [= <-] _. right. exists q. split; [now left|exact E].
  - intros H Ht. destruct (IH H Ht) as [Ho|(q' & Hin & Hq')]; [now left|].
    right. exists q'. split; [now right|exact Hq'].
Qed.

Lemma each_part_raises (own : result (list N)) (l : list part) (e : exn) :
  each_part own l = Raise e ->
  own = Raise e \/ exists q, In q l /\ get_body_from_part q = Raise e.
Proof.
  induction l as [|q l IH]; cbn [each_part]; [now left|].
  destruct (get_body_from_part q) as [b|e'] eqn:E; cbn [bind].
  - destruct (truthy b); [discriminate|].
    intros H. destruct (IH H) as [Ho|(q' & Hin & Hq')]; [now left|].
    right. exists q'. split; [now right|exact Hq'].
  - intros [= <-]. right. exists q. split; [now left|exact E].
Qed.

Lemma get_body_from_part_source (p : part) :
  (forall body, get_body_from_part p = Ok body -> truthy body = true ->
     exists q, In q (parts_of p) /\ is_text q
               /\ truthy (part_data (p_body q)) = true
               /\ decode_data (part_data (p_body q)) = Ok body)
  /\ (forall e, get_body_from_part p = Raise e ->
                e = ValueError \/ e = binascii_Error).
Proof.
  induction p as [mt b ps hs IH] using part_parts_ind.
  assert (Hown : forall body, own_body mt b = Ok body -> truthy body = true ->
            exists q, In q (parts_of (mk_part mt b ps hs)) /\ is_text q
                      /\ truthy (part_data (p_body q)) = true
                      /\ decode_data (part_data (p_body q)) = Ok body).
  { intros body H Ht. exists (mk_part mt b ps hs).
    destruct (own_body_source mt b body H Ht) as (Hm & Hd & Hok).
    split; [now left|]. split; [exact Hm|]. split; [exact Hd|exact Hok]. }
  destruct ps as [l|]; [|split; [exact Hown|apply own_body_raises]].
  rewrite get_body_from_part_parts. rewrite List.Forall_forall in IH. split.
  - intros body H Ht.
    destruct (each_part_source _ _ _ H Ht) as [Ho|(q & Hin & Hq)];
      [now apply Hown|].
    destruct (proj1 (IH q Hin) body Hq Ht) as (q' & Hin' & Hrest).
    exists q'. split; [|exact Hrest].
    cbn [parts_of]. right. apply in_flat_map. now exists q.
  - intros e H.
    destruct (each_part_raises _ _ _ H) as [Ho|(q & Hin & Hq)];
      [now apply (own_body_raises mt b)|].
    exact (proj2 (IH q Hin) e Hq).
Qed.

End BodySource.

(** A body that is not empty is the decoded data of a part of the payload
    that is declared [text/plain] or [text/html]: the search returns
    nothing of a part of another type, whatever data it holds.  The
    extraction raises nothing but the two errors of the base64 step, and a
    message without payload has the empty body. *)
Theorem body_comes_from_a_text_part (md : message_details) :
  (forall body, _extract_email_body md = Ok body -> truthy body = true ->
     exists pl q, payload md = Some pl /\ In q (parts_of pl) /\ is_text q
                  /\ decode_data (part_data (p_body q)) = Ok body)
  /\ (forall e, _extract_email_body md = Raise e ->
                e = ValueError \/ e = binascii_Error)
  /\ (payload md = None -> _extract_email_body md = Ok []).
Proof.
  unfold _extract_email_body. split; [|split].
  - intros body H Ht. destruct (payload md) as [pl|].
    + destruct (proj1 (get_body_from_part_source pl) body H Ht)
        as (q & Hin & Htext & _ & Hq).
      now exists pl, q.
    + cbn in H. injection H as <-. discriminate Ht.
  - intros e. apply get_body_from_part_source.
  - now intros ->.
Qed.

Lemma body_comes_from_a_text_part_witness :
  _extract_email_body (sample_details "no date") = Ok (py "hi")
  /\ exists pl q, payload (sample_details "no date") = Some pl
                  /\ In q (parts_of pl) /\ is_text q
                  /\ decode_data (part_data (p_body q)) = Ok (py "hi").
Proof.
  assert (H : _extract_email_body (sample_details "no date") = Ok (py "hi"))
    by (vm_compute; reflexivity).
  split; [exact H|].
  exact (proj1 (body_comes_from_a_text_part (sample_details "no date"))
               (py "hi") H eq_refl).
Defined.

(** ** The body of an extended record *)

Section StoredBody.

Ltac other_key := intros Hk; vm_compute in Hk; discriminate Hk.

Ltac dict_lookup :=
  repeat first [ rewrite lookup_insert_eq
               | rewrite lookup_insert_ne by other_key
               | rewrite lookup_empty ].

(** What an extended record that was built tells of the key ['body']. *)
Lemma new_GMailDataExtended_body (d : gmap (list N) pyval)
      (x : GMailDataExtended) :
  new_GMailDataExtended d = Ok x -> optional_str d "body" = Ok (body_ x).
Proof.
  unfold new_GMailDataExtended. intros H.
  apply bind_inv in H as (b & Hb & H). apply bind_inv in H as (t & Ht & H).
  apply bind_inv in H as (dr0 & Hdr0 & H). apply bind_inv in H as (dr & Hdr & H).
  apply bind_inv in H as (l & Hl & H). apply bind_inv in H as (sz & Hsz & H).
  apply bind_inv in H as (bd & Hbd & H). now injection H as <-.
Qed.

Lemma extended_dict_no_body
      (message : message) (md : message_details)
      (hs : gmap (list N) (list N)) (d : Datetime.datetime) :
  optional_str (extended_dict message md hs d) "body" = Ok None.
Proof. unfold optional_str, extended_dict. dict_lookup. reflexivity. Qed.

End StoredBody.

(** The body of an extended record is clean.  When the body was asked for,
    the record holds a text that [_clean_html] leaves unchanged and in
    which no tag can be matched anywhere; when it was not asked for, the
    record holds [None]. *)
Theorem stored_body_is_clean
        (svc : service) (now : Datetime.datetime) (message : message)
        (include_body : bool) (x : GMailDataExtended) :
  _parse_email_data svc now message include_body false = Ok (Extended x) ->
  if include_body
  then exists b, body_ x = Some b /\ _clean_html b = b
                 /\ (forall a t, b = a ++ t -> Re.match_len tag_re t = None)
  else body_ x = None.
Proof.
  unfold _parse_email_data. intros H.
  apply bind_inv in H as (md & _ & H). apply bind_inv in H as (pl & _ & H).
  cbv zeta in H. apply bind_inv in H as (d & Hd & H).
  apply bind_inv in H as (x' & Hx & [= <-]).
  apply new_GMailDataExtended_body in Hx.
  destruct include_body.
  - apply bind_inv in Hd as (body & _ & [= <-]).
    unfold optional_str in Hx. rewrite lookup_insert_eq in Hx.
    injection Hx as Hx.
    assert (E : (if truthy body then _clean_html body else []) = _clean_html body)
      by (now destruct body).
    rewrite E in Hx. exists (_clean_html body). split; [now symmetry|].
    split; [apply clean_html_clean_again|].
    intros a t Hat. pose proof (clean_html_tagfree body) as Ht.
    rewrite Hat in Ht. apply tagfree_suffix in Ht. unfold Re.match_len.
    destruct (Re.match_ tag_re t) as [[rest g]|] eqn:Hm; [|reflexivity].
    apply tag_at_of_match in Hm. destruct t as [|c t]; [discriminate Hm|].
    cbn [tagfree] in Ht. rewrite Hm in Ht. discriminate Ht.
  - injection Hd as <-. rewrite extended_dict_no_body in Hx.
    now injection Hx as <-.
Qed.

Lemma stored_body_is_clean_witness :
  exists x b,
    _parse_email_data sample_service sample_now (mk_message (py "m1")) true false
    = Ok (Extended x)
    /\ body_ x = Some b /\ _clean_html b = b.
Proof.
  pose (x := mk_GMailDataExtended
               (mk_GMailData (py "m1") (Some (py "t1")) (py "ann@example.com")
                  (py "Hello") (py "2024-01-15T10:30:00-08:00") (py "hi there"))
               (py "bob@example.com") (py "2024-01-15 10:30:00") [py "INBOX"]
               2048 (Some (py "hi"))).
  assert (H : _parse_email_data sample_service sample_now (mk_message (py "m1"))
                                true false = Ok (Extended x))
    by (vm_compute; reflexivity).
  destruct (stored_body_is_clean sample_service sample_now (mk_message (py "m1"))
              true x H) as (b & Hb & Hclean & _).
  exists x, b. split; [exact H|]. split; [exact Hb|exact Hclean].
Defined.
